(** * InterVA5 (Python port): a shallow embedding of [InterVA5.run]

    The development follows [src/interva/interva5.py].  Python objects are
    modelled by small inductive types, exceptions by a sum type with a bind,
    numpy arrays by lists indexed with stdpp's lookup and insert, and the
    one array that the record loop shares between iterations, [Sys_Prior],
    by explicit state passing.

    Numbers: the float64 values of the program are modelled by exact
    rationals ([Q]), so the rounding error of a float64 operation is not
    represented: a statement that depends on a tie of [round], or on two
    nearby values staying apart after a division, is made with the
    hypothesis that keeps it clear of such a case.  An array of numbers has
    an element type ([dtype]); what is stored into an [int64] array is
    truncated.  [round] is Python's round-half-to-even. *)

From Stdlib Require Import QArith Qabs Qround Lqa ZArith Ascii String.
From stdpp Require Import base list strings pretty.

Local Open Scope Q_scope.

(** ** Python values, exceptions and the numpy helpers used by [run] *)

Module Py.

Inductive exn : Type :=
| IOError (msg : string)
| TypeError (msg : string)
| ValueError (msg : string)
| IndexError
| OverflowError
| CsvError.

Inductive result (A : Type) : Type :=
| Ok (a : A)
| Raise (e : exn).
Arguments Ok {A} a.
Arguments Raise {A} e.

#[global] Instance result_ret : MRet result := fun _ a => Ok a.
#[global] Instance result_bind : MBind result := fun _ _ f m =>
  match m with
  | Ok a => f a
  | Raise e => Raise e
  end.

Definition raises {A} (m : result A) : Prop := exists e, m = Raise e.

(** [for x in xs: st = body(st, x)], stopping at the first exception. *)
Fixpoint for_each {S X} (body : S -> X -> result S) (xs : list X) (st : S)
  : result S :=
  match xs with
  | [] => Ok st
  | x :: xs' => st' ← body st x; for_each body xs' st'
  end.

(** Objects found in the input data and in the identifier column. *)
Inductive obj : Type :=
| OStr (s : string)
| ONum (q : Q)
| ONan.

(** Values written into a result row. [VEmptyList] is the Python [[]]. *)
Inductive val : Type :=
| VStr (s : string)
| VInt (z : Z)
| VNone
| VEmptyList.

Definition Qltb (x y : Q) : bool := negb (Qle_bool y x).
Definition Qgeb (x y : Q) : bool := Qle_bool y x.

(** [a == b] on objects: NaN differs from everything, itself included. *)
Definition obj_eq (a b : obj) : bool :=
  match a, b with
  | OStr s, OStr t => String.eqb s t
  | ONum p, ONum q => Qeq_bool p q
  | _, _ => false
  end.

Definition isna (a : obj) : bool :=
  match a with ONan => true | _ => false end.

(** [a[mask] = v] where [mask = (a == key)]. *)
Definition replace_eq (key v : obj) (a : list obj) : list obj :=
  (fun x => if obj_eq x key then v else x) <$> a.

(** [l[i]] and [l[i] = v] on an array: out of range raises. *)
Definition getitem {A} (l : list A) (i : nat) : result A :=
  match l !! i with
  | Some x => Ok x
  | None => Raise IndexError
  end.

Definition setitem {A} (l : list A) (i : nat) (v : A) : result (list A) :=
  if decide (i < length l)%nat then Ok (<[i := v]> l) else Raise IndexError.

(** [l[lo:hi]]: slices never raise, they clamp. *)
Definition slice {A} (lo hi : nat) (l : list A) : list A :=
  take (hi - lo) (drop lo l).

(** [l[lo:hi] = v] with [v] as long as the slice. *)
Definition slice_assign {A} (lo hi : nat) (l v : list A) : list A :=
  take lo l ++ v ++ drop hi l.

(** [numpy.delete(a, i)] *)
Definition np_delete {A} (l : list A) (i : nat) : result (list A) :=
  if decide (i < length l)%nat then Ok (take i l ++ drop (S i) l)
  else Raise IndexError.

(** The built-in [sum]. *)
Definition sum (l : list Q) : Q := fold_left Qplus l 0.

(** The element type of a numpy array of numbers.  [to_numeric] gives an
    [int64] array when every value is a Python int and a [float64] array
    otherwise, and a value assigned into an array is converted to its
    element type: an [int64] array keeps the integer part (toward zero). *)
Inductive dtype : Type :=
| Int64
| Float64.

Definition trunc (v : Q) : Q :=
  inject_Z (if Qle_bool 0 v then Qfloor v else Qceiling v).

Definition cast (d : dtype) (v : Q) : Q :=
  match d with
  | Int64 => trunc v
  | Float64 => v
  end.

(** A number whose value is an integer. *)
Definition is_integer (v : Q) : bool := Qeq_bool v (inject_Z (Qfloor v)).

Fixpoint argmax_from (best : Q) (best_loc next : nat) (l : list Q) : nat :=
  match l with
  | [] => best_loc
  | x :: t =>
      if Qltb best x then argmax_from x next (S next) t
      else argmax_from best best_loc (S next) t
  end.

(** [numpy.argmax]: the first position of the maximum. *)
Definition argmax (l : list Q) : result nat :=
  match l with
  | [] => Raise (ValueError "attempt to get argmax of an empty sequence")
  | x :: t => Ok (argmax_from x 0 1 t)
  end.

(** [numpy.amax] and the built-in [max]. *)
Definition amax (l : list Q) : result Q :=
  match l with
  | [] => Raise (ValueError "zero-size array to reduction operation maximum")
  | x :: t => Ok (fold_left (fun m y => if Qltb m y then y else m) t x)
  end.

(** [round(x)]: to the nearest integer, ties to the even one.  It is applied
    to the exact value of its argument; the float64 value that the program
    computes for a product or a quotient can fall on the other side of a
    tie (see [Props.clear_of_ties]). *)
Definition round (x : Q) : Z :=
  let f := Qfloor x in
  match Qcompare (x - inject_Z f) (1 # 2) with
  | Lt => f
  | Gt => (f + 1)%Z
  | Eq => if Z.even f then f else (f + 1)%Z
  end.

(** [round(a / s * 100)] on floats: a zero divisor gives an infinity or a
    NaN, which [round] refuses. *)
Definition round_ratio_pct (a s : Q) : result Z :=
  if Qeq_bool s 0 then
    if Qeq_bool a 0 then Raise (ValueError "cannot convert float NaN to integer")
    else Raise OverflowError
  else Ok (round (a / s * 100)).

(** [str.lower] on ASCII text: the letters A-Z are lowered, every other
    byte is kept.  On text with a byte outside ASCII, [str.lower] also
    lowers letters that this function keeps (see [Props.ascii_text]). *)
Definition lower_ascii (c : ascii) : ascii :=
  let n := nat_of_ascii c in
  if ((65 <=? n) && (n <=? 90))%nat then ascii_of_nat (n + 32) else c.

Fixpoint lower (s : string) : string :=
  match s with
  | EmptyString => EmptyString
  | String c s' => String (lower_ascii c) (lower s')
  end.

End Py.
Import Py.

(** ** The probability table ([probbaseV5]) and the prior ([Sys_Prior]) *)

Module Probbase.

(** A cell of the table: text (a grade, a [Y]/[N] mark, a label; a blank
    cell is the empty text) or a number. *)
Inductive cell : Type :=
| CStr (s : string)
| CNum (q : Q).

Abbreviation table := (list (list cell)).

(** [t.shape[0]] and [t.shape[1]] *)
Definition nrows (t : table) : nat := length t.
Definition ncols (t : table) : nat :=
  match t with
  | [] => 0%nat
  | r :: _ => length r
  end.

Definition cell_is (s : string) (c : cell) : bool :=
  match c with
  | CStr t => String.eqb t s
  | CNum _ => false
  end.

(** [probbaseV5[:,17:prob_ncols][probbaseV5[:,17:prob_ncols] == g] = v] *)
Definition subst_grade (g : string) (v : Q) (t : table) : table :=
  (fun row =>
     take 17 row ++ ((fun c => if cell_is g c then CNum v else c) <$> drop 17 row))
  <$> t.

(** Lines 207-222, in order. *)
Definition grades : list (string * Q) :=
  [ ("I", 1); ("A+", 0.8); ("A", 0.5); ("A-", 0.2); ("B+", 0.1);
    ("B", 0.05); ("B-", 0.02); ("C+", 0.01); ("C", 0.005); ("C-", 0.002);
    ("D+", 0.001); ("D", 5e-04); ("D-", 1e-04); ("E", 1e-05); ("N", 0);
    ("", 0) ]%string.

Definition substitute_grades (t : table) : table :=
  fold_left (fun t gv => subst_grade gv.1 gv.2 t) grades t.

(** [probbaseV5[0, 0:17] = 0] *)
Definition zero_metadata (t : table) : result table :=
  match t with
  | [] => Raise IndexError
  | r :: rest => Ok ((((fun _ => CNum 0) <$> take 17 r) ++ drop 17 r) :: rest)
  end.

(** [to_numeric] on one cell and on a row.  Text that is not a numeral
    cannot be parsed.  A [CStr] stands for such a text: a numeral kept as
    text, which [to_numeric] parses, is a [CNum] of the model (see
    [Props.plain_text] for texts that are certainly no numeral). *)
Definition to_numeric (c : cell) : result Q :=
  match c with
  | CNum q => Ok q
  | CStr _ => Raise (ValueError "Unable to parse string")
  end.

Definition to_numeric_row (r : list cell) : result (list Q) :=
  mapM to_numeric r.

(** [probbaseV5[r, c]] *)
Definition at_ (t : table) (r c : nat) : result cell :=
  row ← getitem t r; getitem row c.

(** [probbaseV5[:, c]] *)
Definition column (t : table) (c : nat) : result (list cell) :=
  mapM (fun row => getitem row c) t.

End Probbase.
Import Probbase.

Module Prior.

Definition valid_level (s : string) : bool :=
  (String.eqb s "h" || String.eqb s "l" || String.eqb s "v")%string.

(** The element type of [Sys_Prior = to_numeric(probbaseV5[0, :])].  The
    numbers that the code itself writes into row 0 are the ints 1 and 0
    (for "I", "N", the blank and the first 17 columns) and floats that are
    no integers (for the other grades), so the array is [int64] exactly
    when every number of the row is an integer; a number read from the
    table is taken to be an int when its value is one. *)
Definition dtype_of (Sys_Prior : list Q) : dtype :=
  if forallb is_integer Sys_Prior then Int64 else Float64.

(** [Sys_Prior[i] = v] on an array of element type [d]. *)
Definition store (d : dtype) (Sys_Prior : list Q) (i : nat) (v : Q)
  : result (list Q) :=
  setitem Sys_Prior i (cast d v).

(** Lines 231-236. *)
Definition apply_hiv (d : dtype) (hiv : string) (Sys_Prior : list Q)
  : result (list Q) :=
  Sys_Prior ← (if String.eqb hiv "h" then store d Sys_Prior 22 0.05
               else Ok Sys_Prior);
  Sys_Prior ← (if String.eqb hiv "l" then store d Sys_Prior 22 0.005
               else Ok Sys_Prior);
  if String.eqb hiv "v" then store d Sys_Prior 22 1e-05 else Ok Sys_Prior.

(** Lines 237-245. *)
Definition apply_malaria (d : dtype) (malaria : string) (Sys_Prior : list Q)
  : result (list Q) :=
  Sys_Prior ← (if String.eqb malaria "h" then
                 p ← store d Sys_Prior 24 0.05; store d p 44 0.05
               else Ok Sys_Prior);
  Sys_Prior ← (if String.eqb malaria "l" then
                 p ← store d Sys_Prior 24 0.005; store d p 44 1e-05
               else Ok Sys_Prior);
  if String.eqb malaria "v" then
    p ← store d Sys_Prior 24 1e-05; store d p 44 1e-05
  else Ok Sys_Prior.

(** Lines 224-245: the prior from row 0 of the table and the two
    settings (already lower-cased). *)
Definition build (probbaseV5 : table) (hiv malaria : string)
  : result (list Q) :=
  row0 ← getitem probbaseV5 0;
  Sys_Prior ← to_numeric_row row0;
  if negb (valid_level hiv) || negb (valid_level malaria) then
    Raise (IOError "error: the HIV and Malaria indicator should be one of the three: 'h', 'l', 'v'")
  else
    let d := dtype_of Sys_Prior in
    Sys_Prior ← apply_hiv d hiv Sys_Prior;
    apply_malaria d malaria Sys_Prior.

(** The value a prior computation leaves at index [i]. *)
Definition value_at (r : result (list Q)) (i : nat) : option Q :=
  match r with
  | Ok p => p !! i
  | Raise _ => None
  end.

End Prior.

(** ** The multiplicative update (lines 341-359) *)

Module Inference.

(** [prob[j-17] = prob[j-17] * to_numeric(probbaseV5[row, j])] *)
Definition multiply_column (probbaseV5 : table) (row : nat)
    (prob : list Q) (j : nat) : result (list Q) :=
  p ← getitem prob (j - 17);
  c ← at_ probbaseV5 row j;
  w ← to_numeric c;
  setitem prob (j - 17) (p * w).

(** [temp_sum = sum(prob[lo:hi])], then
    [if temp_sum > 0: prob[lo:hi] = prob[lo:hi] / temp_sum] *)
Definition normalize_group (lo hi : nat) (prob : list Q) : list Q :=
  let temp_sum := sum (slice lo hi prob) in
  if Qltb 0 temp_sum then
    slice_assign lo hi prob ((fun x => x / temp_sum) <$> slice lo hi prob)
  else prob.

Definition normalize_groups (prob : list Q) : list Q :=
  normalize_group 64 70 (normalize_group 3 64 (normalize_group 0 3 prob)).

(** One pass of the outer loop body with the table row [row]. *)
Definition update_row (probbaseV5 : table) (D : nat) (prob : list Q)
    (row : nat) : result (list Q) :=
  prob ← for_each (multiply_column probbaseV5 row) (seq 17 (D - 17)) prob;
  Ok (normalize_groups prob).

(** The body of [for temp_sub in temp]: the row read is [temp_sub + 1]. *)
Definition update (probbaseV5 : table) (D : nat) (prob : list Q)
    (temp_sub : nat) : result (list Q) :=
  update_row probbaseV5 D prob (temp_sub + 1).

(** [temp = new_input[1:input_len][new_input[1:input_len] == 1]]: a boolean
    mask applied to the slice selects the {e elements} of the slice at
    which the mask holds. *)
Definition temp (new_input : list nat) (input_len : nat) : list nat :=
  filter (fun v => v = 1%nat) (slice 1 input_len new_input).

(** [prob = Sys_Prior[17:D]] is a numpy view: every write to [prob] is a
    write to [Sys_Prior].  [infer] takes the store [Sys_Prior] and returns
    it as the loop leaves it; [prob_of] reads the view. *)
Definition prob_of (Sys_Prior : list Q) : list Q := drop 17 Sys_Prior.

Definition write_back (Sys_Prior prob : list Q) : list Q :=
  take 17 Sys_Prior ++ prob.

Definition infer (probbaseV5 : table) (Sys_Prior : list Q)
    (new_input : list nat) (input_len : nat) : result (list Q) :=
  let D := length Sys_Prior in
  prob ← for_each (update probbaseV5 D) (temp new_input input_len)
                  (prob_of Sys_Prior);
  Ok (write_back Sys_Prior prob).

(** The definitions above are the loop on a [float64] store, where a value
    is stored as it is.  The same loop on a store of element type [d]:
    [prob] is a view of [Sys_Prior], so every product and every quotient
    assigned to it is converted to [d]. *)
Definition multiply_column_as (d : dtype) (probbaseV5 : table) (row : nat)
    (prob : list Q) (j : nat) : result (list Q) :=
  p ← getitem prob (j - 17);
  c ← at_ probbaseV5 row j;
  w ← to_numeric c;
  setitem prob (j - 17) (cast d (p * w)).

Definition normalize_group_as (d : dtype) (lo hi : nat) (prob : list Q)
  : list Q :=
  let temp_sum := sum (slice lo hi prob) in
  if Qltb 0 temp_sum then
    slice_assign lo hi prob
      ((fun x => cast d (x / temp_sum)) <$> slice lo hi prob)
  else prob.

Definition normalize_groups_as (d : dtype) (prob : list Q) : list Q :=
  normalize_group_as d 64 70
    (normalize_group_as d 3 64 (normalize_group_as d 0 3 prob)).

Definition update_row_as (d : dtype) (probbaseV5 : table) (D : nat)
    (prob : list Q) (row : nat) : result (list Q) :=
  prob ← for_each (multiply_column_as d probbaseV5 row) (seq 17 (D - 17)) prob;
  Ok (normalize_groups_as d prob).

Definition update_as (d : dtype) (probbaseV5 : table) (D : nat)
    (prob : list Q) (temp_sub : nat) : result (list Q) :=
  update_row_as d probbaseV5 D prob (temp_sub + 1).

Definition infer_as (d : dtype) (probbaseV5 : table) (Sys_Prior : list Q)
    (new_input : list nat) (input_len : nat) : result (list Q) :=
  let D := length Sys_Prior in
  prob ← for_each (update_as d probbaseV5 D) (temp new_input input_len)
                  (prob_of Sys_Prior);
  Ok (write_back Sys_Prior prob).

(** The update as the specification words it: one pass per row index
    flagged informative, with that row of the table, from a copy of the
    prior. *)
Definition flagged (new_input : list nat) (input_len : nat) : list nat :=
  filter (fun y => new_input !! y = Some 1%nat)
         (seq 1 (Nat.min input_len (length new_input) - 1)).

Definition infer_spec (probbaseV5 : table) (prior : list Q)
    (new_input : list nat) (input_len : nat) : result (list Q) :=
  for_each (update_row probbaseV5 (length prior))
           (flagged new_input input_len) (drop 17 prior).

(** The sums of the three groups are each 0 or 1. *)
Definition group_sum_ok (lo hi : nat) (prob : list Q) : Prop :=
  sum (slice lo hi prob) == 0 \/ sum (slice lo hi prob) == 1.

Definition groups_normalized (prob : list Q) : Prop :=
  group_sum_ok 0 3 prob /\ group_sum_ok 3 64 prob /\ group_sum_ok 64 70 prob.

End Inference.

(** ** Pregnancy status (lines 365-382) *)

Module Pregnancy.

Definition label (loc : nat) : string :=
  match loc with
  | 0%nat => "Not pregnant or recently delivered"
  | 1%nat => "Pregnancy ended within 6 weeks of death"
  | _ => "Pregnant at death"
  end.

(** One of the three last rules: [if prob_A_max_loc == k and
    prob_A[k] >= 0.1 and reproductiveAge == 1], with the likelihood read
    at index [src]. *)
Definition rule (prob_A : list Q) (prob_A_sum : Q) (reproductiveAge : bool)
    (prob_A_max_loc k src : nat) (st : string * val)
  : result (string * val) :=
  if (prob_A_max_loc =? k)%nat then
    a ← getitem prob_A k;
    if Qgeb a 0.1 && reproductiveAge then
      v ← getitem prob_A src;
      lik ← round_ratio_pct v prob_A_sum;
      Ok (label k, VInt lik)
    else Ok st
  else Ok st.

(** The rules are separate [if] statements run in order, each assigning
    [preg_state] and [lik_preg]. *)
Definition classify (prob_A : list Q) (reproductiveAge : bool)
  : result (string * val) :=
  let st := (" "%string, VStr " ") in
  let prob_A_sum := sum prob_A in
  let st := if Qeq_bool prob_A_sum 0 || negb reproductiveAge
            then ("n/a"%string, VStr " ") else st in
  m ← amax prob_A;
  let st := if Qltb m 0.1 && reproductiveAge
            then ("indeterminate"%string, VStr " ") else st in
  prob_A_max_loc ← argmax prob_A;
  st ← rule prob_A prob_A_sum reproductiveAge prob_A_max_loc 0 1 st;
  st ← rule prob_A prob_A_sum reproductiveAge prob_A_max_loc 1 1 st;
  rule prob_A prob_A_sum reproductiveAge prob_A_max_loc 2 2 st.

End Pregnancy.

(** ** The three top causes (lines 385-419) *)

Module Ranker.

Record ranking : Type := Ranking {
  cause1 : val; lik1 : val;
  cause2 : val; lik2 : val;
  cause3 : val; lik3 : val;
  indet : Z
}.

(** [float(x) if x != " " else 0] *)
Definition float_or_zero (x : val) : result Q :=
  match x with
  | VStr s =>
      if String.eqb s " " then Ok 0
      else Raise (ValueError "could not convert string to float")
  | VInt z => Ok (inject_Z z)
  | VNone =>
      Raise (TypeError "float() argument must be a string or a real number, not 'NoneType'")
  | VEmptyList =>
      Raise (TypeError "float() argument must be a string or a real number, not 'list'")
  end.

(** [prob_temp_names[loc]]: the names are never shortened, since the
    result of [prob_temp_names.drop(...)] is discarded. *)
Definition name_at (names : list string) (loc : nat) : result val :=
  n ← getitem names loc; Ok (VStr n).

(** The branch [if amax(prob_temp) >= 0.4]. *)
Definition top_three (prob_B : list Q) (prob_temp_names : list string)
    (top3 : list val) : result ranking :=
  let prob_temp := prob_B in
  max1_loc ← argmax prob_temp;
  m1 ← amax prob_temp;
  let lik1 := VInt (round (m1 * 100)) in
  cause1 ← name_at prob_temp_names max1_loc;
  prob_temp ← np_delete prob_temp max1_loc;
  let top3 := top3 ++ [lik1] in
  max2_loc ← argmax prob_temp;
  m2 ← amax prob_temp;
  let lik2 := VInt (round (m2 * 100)) in
  cause2 ← name_at prob_temp_names max2_loc;
  mB ← amax prob_B;
  let '(lik2, cause2) :=
    if Qltb m2 (0.5 * mB) then (VStr " ", VStr " ") else (lik2, cause2) in
  prob_temp ← np_delete prob_temp max2_loc;
  let top3 := top3 ++ [lik2] in
  max3_loc ← argmax prob_temp;
  m3 ← amax prob_temp;
  let lik3 := VInt (round (m3 * 100)) in
  cause3 ← name_at prob_temp_names max3_loc;
  mB ← amax prob_B;
  let '(lik3, cause3) :=
    if Qltb m3 (0.5 * mB) then (VStr " ", VStr " ") else (lik3, cause3) in
  let top3 := top3 ++ [lik3] in
  top3 ← mapM float_or_zero top3;
  Ok (Ranking cause1 lik1 cause2 lik2 cause3 lik3 (round (100 - sum top3))).

Definition rank (prob_B : list Q) (prob_temp_names : list string)
  : result ranking :=
  let prob_temp := prob_B in
  (* top3 = [[] for _ in range(3)] *)
  let top3 := [VEmptyList; VEmptyList; VEmptyList] in
  let r := Ranking VNone VNone VNone VNone VNone VNone 0 in
  m ← amax prob_B;
  let r := if Qltb m 0.4
           then Ranking (VStr " ") (VStr " ") (VStr " ") (VStr " ")
                        (VStr " ") (VStr " ") 100
           else r in
  m ← amax prob_temp;
  if Qgeb m 0.4 then top_three prob_B prob_temp_names top3 else Ok r.

End Ranker.

(** ** Circumstances of mortality (lines 421-433) *)

Module Comorbidity.

(** The division by the sum is exact here.  In float64 two values next to
    each other can get the same quotient, and [argmax] then takes the
    first of them. *)
Definition classify (prob_C : list Q) (prob_C_names : list string)
  : result (string * val) :=
  prob_c_max ← amax prob_C;
  let prob_C :=
    if Qltb 0 (sum prob_C) then (fun x => x / sum prob_C) <$> prob_C
    else prob_C in
  if Qltb prob_c_max 0.5 then Ok ("Multiple"%string, VStr " ")
  else
    loc ← argmax prob_C;
    comcat ← getitem prob_C_names loc;
    Ok (comcat, VInt (round (prob_c_max * 100))).

(** The classifier as the specification words it: the threshold and the
    likelihood use the maximum of the normalized slice. *)
Definition classify_spec (prob_C : list Q) (prob_C_names : list string)
  : result (string * val) :=
  let prob_C :=
    if Qltb 0 (sum prob_C) then (fun x => x / sum prob_C) <$> prob_C
    else prob_C in
  m ← amax prob_C;
  if Qltb m 0.5 then Ok ("Multiple"%string, VStr " ")
  else
    loc ← argmax prob_C;
    comcat ← getitem prob_C_names loc;
    Ok (comcat, VInt (round (m * 100))).

End Comorbidity.

(** ** One record: normalization, exclusion, classification (lines 279-444) *)

Module Record_.

(** A row of [VA_result], as built by [va5].  [WHOLEPROB] holds the values
    of [prob] at the time the row is built.  (In the code the Series keeps
    sharing the memory of [Sys_Prior]: read after later records, it shows
    the store as they left it.  What is stated below about [WHOLEPROB]
    is stated of the last record or holds of every later store as well.) *)
Record row : Type := Row {
  ID : obj; MALPREV : string; HIVPREV : string;
  PREGSTAT : string; PREGLIK : val;
  CAUSE1 : val; LIK1 : val; CAUSE2 : val; LIK2 : val;
  CAUSE3 : val; LIK3 : val; INDET : Z;
  COMCAT : string; COMNUM : val;
  WHOLEPROB : list Q
}.

(** What the record loop carries from one record to the next. *)
Record state : Type := State {
  Sys_Prior : list Q;
  errors : val;
  ID_list : list obj;
  VA_result : list (option row);  (* [None] is the initial [[]] *)
  first_pass : list (list string);
  second_pass : list (list string)
}.

(** Lines 281-293. *)
Definition canonical (raw : list obj) : result (list obj) :=
  let r := replace_eq (OStr "n") (OStr "0") raw in
  let r := replace_eq (OStr "N") (OStr "0") r in
  let r := replace_eq (OStr "y") (OStr "1") r in
  let r := replace_eq (OStr "Y") (OStr "1") r in
  let r := (fun x => if negb (obj_eq x (OStr "0")) && negb (obj_eq x (OStr "1"))
                     then ONan else x) <$> r in
  let r := replace_eq (OStr "0") (ONum 0) r in
  let r := replace_eq (OStr "1") (ONum 1) r in
  setitem r 0 (ONum 0).

(** [numpy.nansum] *)
Definition nansum (l : list obj) : result Q :=
  v ← mapM (fun x => match x with
                     | ONum q => Ok q
                     | ONan => Ok 0
                     | OStr _ => Raise (TypeError "unsupported operand type(s) for +")
                     end) l;
  Ok (sum v).

(** [errors = errors + index_current + reason] *)
Definition add_reason (errors : val) (index_current : obj) (reason : string)
  : result val :=
  match errors, index_current with
  | VStr e, OStr i => Ok (VStr (e ++ i ++ reason))
  | VNone, _ =>
      Raise (TypeError "unsupported operand type(s) for +: 'NoneType' and 'str'")
  | _, _ => Raise (TypeError "unsupported operand type(s) for +")
  end.

(** Lines 294-308: [Some reason] when the record is to be skipped. *)
Definition exclusion (input_current : list obj) : result (option string) :=
  age ← nansum (slice 5 12 input_current);
  if Qltb age 1 then Ok (Some " Error in age indicator: Not Specified"%string)
  else
    sex ← nansum (slice 3 5 input_current);
    if Qltb sex 1 then Ok (Some " Error in sex indicator: Not Specified"%string)
    else
      sym ← nansum (slice 20 328 input_current);
      if Qltb sym 1
      then Ok (Some " Error in indicators: No symptoms specified"%string)
      else Ok None.

(** Lines 322-324. *)
Definition subst_vector (probbaseV5 : table) : result (list obj) :=
  col ← column probbaseV5 5;
  Ok ((fun c => if cell_is "Y" c then ONum 1
                else if cell_is "N" c then ONum 0 else ONan)
      <$> (col : list cell)).

(** Lines 326-330. *)
Definition flag (input_current subst : list obj) (y : nat) : result nat :=
  if (y =? 0)%nat then Ok 0%nat
  else
    x ← getitem input_current y;
    if negb (isna x) then
      s ← getitem subst y;
      Ok (if obj_eq x s then 1%nat else 0%nat)
    else Ok 0%nat.

Definition new_input (S : nat) (input_current subst : list obj)
  : result (list nat) :=
  mapM (flag input_current subst) (seq 0 S).

(** Lines 332-334. *)
Definition substituted (input_current : list obj) : result (list obj) :=
  let r := replace_eq (ONum 0) (ONum 1) input_current in
  r ← setitem r 0 (ONum 0);
  Ok ((fun x => if isna x then ONum 0 else x) <$> (r : list obj)).

Definition truthy (x : obj) : bool :=
  match x with
  | ONum q => negb (Qeq_bool q 0)
  | OStr s => negb (String.eqb s "")
  | ONan => false
  end.

(** Lines 335-340; the flag is only ever 0 or 1 and is kept as a [bool]. *)
Definition reproductiveAge (input_current : list obj) : result bool :=
  x4 ← getitem input_current 4;
  if obj_eq x4 (ONum 1) then
    x16 ← getitem input_current 16;
    if obj_eq x16 (ONum 1) then Ok true
    else Ok (existsb truthy (slice 17 19 input_current))
  else Ok false.

Section Collaborators.

(** The consistency check of the [vacheck] package: the corrected
    vector and the two logs. *)
Variable datacheck5 : list obj -> obj -> list obj * list string * list string.
(** [save_va5] / [save_va5_prob] when [write] is set. *)
Variable save : string -> row -> result unit.
(** Column 1 of [causetextV5] (from [interva.data.causetext]), a Series
    that is read by position when indexed with an integer. *)
Variable prob_names : list string.

(** Lines 310-444 for an accepted record. *)
Definition classify_record (probbaseV5 : table) (d : dtype) (S : nat)
    (hiv malaria output : string) (write : bool)
    (i : nat) (index_current : obj) (input_current : list obj) (st : state)
  : result state :=
  let '(checked, fp, sp) := datacheck5 input_current index_current in
  let input_current := checked in
  subst ← subst_vector probbaseV5;
  flags ← new_input S input_current subst;
  input_current ← substituted input_current;
  repro ← reproductiveAge input_current;
  prior' ← Inference.infer_as d probbaseV5 (Sys_Prior st) flags
                              (length input_current);
  let prob := Inference.prob_of prior' in
  let prob_A := slice 0 3 prob in
  let prob_B := slice 3 64 prob in
  let prob_C := slice 64 70 prob in
  '(preg_state, lik_preg) ← Pregnancy.classify prob_A repro;
  r ← Ranker.rank prob_B (slice 3 64 prob_names);
  '(comcat, comnum) ← Comorbidity.classify prob_C (slice 64 70 prob_names);
  let res := Row index_current malaria hiv preg_state lik_preg
                 (Ranker.cause1 r) (Ranker.lik1 r) (Ranker.cause2 r)
                 (Ranker.lik2 r) (Ranker.cause3 r) (Ranker.lik3 r)
                 (Ranker.indet r) comcat comnum prob in
  _ ← (if write then save output res else Ok tt);
  Ok (State prior' (errors st) (ID_list st ++ [index_current])
            (<[i := Some res]> (VA_result st))
            (first_pass st ++ [fp]) (second_pass st ++ [sp])).

(** The body of [for i in range(N)]. *)
Definition process_record (probbaseV5 : table) (d : dtype) (S : nat)
    (hiv malaria output : string) (write : bool)
    (st : state) (rec : nat * obj * list obj) : result state :=
  let '(i, index_current, raw) := rec in
  input_current ← canonical raw;
  why ← exclusion input_current;
  match why with
  | Some reason =>
      if write then
        e ← add_reason (errors st) index_current reason;
        Ok (State (Sys_Prior st) e (ID_list st) (VA_result st)
                  (first_pass st) (second_pass st))
      else Ok st
  | None =>
      classify_record probbaseV5 d S hiv malaria output write
                      i index_current input_current st
  end.

End Collaborators.

End Record_.

(** ** The whole of [run], from the arguments to the returned dictionary *)

Module Run.
Import Record_.

(** The arguments of [InterVA5] that [run] reads.  [return_checked_data]
    is taken to be [False] and [filename] only names the output file. *)
Record config : Type := Config {
  va_columns : list string;       (* va_input.columns *)
  va_data : list (list obj);      (* va_input.to_numpy(), one list per record *)
  hiv : string;
  malaria : string;
  write : bool;
  directory : option string;
  output : string;
  append : bool;
  sci : option table
}.

(** The returned dictionary (without [checked_data]) and the messages
    handed to [info] and [warning]. *)
Record out : Type := Out {
  out_ID : list obj;
  out_VA5 : list (option row);
  out_Malaria : string;
  out_HIV : string;
  out_log : list string
}.

(** Positions of the NaN identifiers in [ID_list] (lines 457-463). *)
Definition nan_indices (ID_list : list obj) : list nat :=
  fst <$> filter (fun p => isna p.2 = true) (imap pair ID_list).

(** [x.drop(indices)] on a default integer index. *)
Definition drop_rows {A} (indices : list nat) (l : list A) : list A :=
  snd <$> filter (fun p => p.1 ∉ indices) (imap pair l).

(** [DataFrame(VA_result)] followed by the assignment of the 15 column
    names: the frame has as many columns as its longest row. *)
Definition frame (VA_result : list (option row)) : result (list (option row)) :=
  if existsb (fun r => match r with Some _ => true | None => false end) VA_result
  then Ok VA_result
  else Raise (ValueError "Length mismatch: Expected axis has 0 elements, new values have 15 elements").

Section Collaborators.

(** The packaged [data/probbase.xls], read and without its first row. *)
Variable probbase_default : table.
(** The column names of the packaged [data/randomva5.csv]. *)
Variable valabels : list string.
Variable datacheck5 : list obj -> obj -> list obj * list string * list string.
Variable save : string -> row -> result unit.
Variable prob_names : list string.

(** Lines 138-159. *)
Definition load_probbase (c : config) : result table :=
  match sci c with
  | None => Ok probbase_default
  | Some t =>
      if negb (nrows t =? 354)%nat || negb (ncols t =? 87)%nat then
        Raise (IOError "Error: Invalid SCI (must be Pandas DataFrame or Numpy ndarray with 354 rows and 87 columns).")
      else Ok t
  end.

(** Lines 194-205: the warnings about column names (the messages are not
    f-strings; they are abridged here). *)
Definition label_warnings (S : nat) (va_input_names : list string)
  : result (list string) :=
  changed ← mapM (fun i =>
                    input_col ← getitem va_input_names i;
                    std_col ← getitem valabels i;
                    Ok (negb (String.eqb (lower input_col) (lower std_col))))
                 (seq 0 S);
  let count_changelabel := length (filter (fun b => b = true) (changed : list bool)) in
  Ok (replicate count_changelabel
        "Input column '{input_col}' does not match InterVA5 standard: '{std_col}'"%string
      ++ (if (0 <? count_changelabel)%nat
          then ["{count_changelabel} column names changed in input."%string]
          else [])).

(** Lines 249-257: in extended mode [header.append(...)] returns [None],
    which [csv_writer.writerow] refuses. *)
Definition write_header (c : config) : result unit :=
  if write c && negb (append c) then
    if String.eqb (output c) "extended" then Raise CsvError else Ok tt
  else Ok tt.

Definition run (c : config) : result out :=
  if bool_decide (directory c = None) && write c then
    Raise (IOError "error: please provide a directory (required when write = True)")
  else
    probbaseV5 ← load_probbase c;
    _ ← at_ probbaseV5 0 2;
    let log := if write c then ["Error & warning log built for InterVA5"%string]
               else [] in
    (* self.va_input.rename(columns={...}, axis='columns', inplace=True):
       pandas refuses [columns] together with [axis] *)
    if bool_decide ("i183o"%string ∈ va_columns c) then
      Raise (TypeError "Cannot specify both 'axis' and any of 'index' or 'columns'")
    else
    let va_input_names := va_columns c in
    let S := length va_input_names in
    (* id_inputs = va_data.iloc[:, 0] *)
    id_inputs ← (if (S =? 0)%nat then Raise IndexError
                 else mapM (fun r : list obj => getitem r 0) (va_data c));
    let N := length (va_data c) in
    if (N <? 1)%nat then Raise (IOError "error: no data input")
    else if negb (S =? nrows probbaseV5)%nat then
      Raise (IOError "error: invalid data input format. Number of values incorrect")
    else
      last ← getitem va_input_names (S - 1);
      if negb (String.eqb (lower last) "i459o") then
        Raise (IOError "error: the last variable should be 'i459o'")
      else
        warnings ← label_warnings S va_input_names;
        let log := log ++ warnings in
        let probbaseV5 := substitute_grades probbaseV5 in
        probbaseV5 ← zero_metadata probbaseV5;
        let hiv := lower (hiv c) in
        let malaria := lower (malaria c) in
        Sys_Prior ← Prior.build probbaseV5 hiv malaria;
        let d := Prior.dtype_of Sys_Prior in
        _ ← write_header c;
        let log := log ++ (if write c
                           then ["the following records are incomplete and excluded from further processing:"%string]
                           else []) in
        st ← for_each
               (process_record datacheck5 save prob_names probbaseV5 d S
                               hiv malaria (output c) (write c))
               (zip (zip (seq 0 N) id_inputs) (va_data c))
               (State Sys_Prior VNone [] (replicate N None) [] []);
        (* info(str + first_pass + ...) with first_pass a list *)
        if write c then
          Raise (TypeError "can only concatenate str (not 'list') to str")
        else
          let indices := nan_indices (ID_list st) in
          VA5 ← frame (VA_result st);
          Ok (Out (drop_rows indices (ID_list st)) (drop_rows indices VA5)
                  malaria hiv log).

End Collaborators.

End Run.

(** ** Properties and sample inputs used by the theorems *)

Module Props.

Definition nonneg_cell (c : cell) : bool :=
  match c with
  | CNum w => Qle_bool 0 w
  | CStr _ => false
  end.

(** A cell holding one of the 15 grades or nothing. *)
Definition is_grade (c : cell) : bool :=
  existsb (fun gv => cell_is gv.1 c) grades.

(** What the substitutions of lines 207-222 make of one cell. *)
Definition substitute_cell (gs : list (string * Q)) (c : cell) : cell :=
  fold_left (fun c gv => if cell_is gv.1 c then CNum gv.2 else c) gs c.

(** Row [row] of the table has [D] cells, those of the cause columns being
    non-negative numbers (as every graded cell is). *)
Definition numeric_row (probbaseV5 : table) (row D : nat) : Prop :=
  exists cells, probbaseV5 !! row = Some cells /\ length cells = D /\
    forallb nonneg_cell (drop 17 cells) = true.


(** Not a text: a number or a missing value. *)
Definition not_text (x : obj) : Prop :=
  match x with OStr _ => False | _ => True end.


(** [x] is at least [1e-9] away from every half-integer.  The float64 value
    that the program computes for [x] from values between 0 and 1 with a
    sum, a division and a product is much closer to [x] than that, so
    that it is rounded as [x] is. *)
Definition clear_of_ties (x : Q) : Prop :=
  (1 # 1000000000) <= Qabs (x - inject_Z (Qfloor x) - (1 # 2)).

(** Text made of ASCII bytes, on which [lower] is [str.lower]. *)
Definition ascii_text (s : string) : bool :=
  forallb (fun a => (nat_of_ascii a <? 128)%nat) (list_ascii_of_string s).

(** Position [i] holds an input name and a standard name that differ up
    to case. *)
Definition mismatch (valabels va_input_names : list string) (i : nat) : bool :=
  match va_input_names !! i, valabels !! i with
  | Some input_col, Some std_col =>
      negb (String.eqb (lower input_col) (lower std_col))
  | _, _ => false
  end.

(** The number of such positions below [S]. *)
Definition mismatches (valabels va_input_names : list string) (S : nat) : nat :=
  length (filter (fun b => b = true)
                 (mismatch valabels va_input_names <$> seq 0 S)).

(** Text that starts with an ASCII letter other than "i", "I", "n", "N":
    no numeral, infinity or NaN begins so, and [to_numeric] cannot parse
    it. *)
Definition plain_text (s : string) : bool :=
  match s with
  | EmptyString => false
  | String a _ =>
      let n := nat_of_ascii a in
      (((65 <=? n) && (n <=? 90)) || ((97 <=? n) && (n <=? 122)))%nat
      && negb (existsb (Nat.eqb n) [73; 78; 105; 110]%nat)
  end.

End Props.

Module Samples.
Import Record_ Run.

(** A row of 87 cells: column 5 holds [mark], the cause columns hold the
    grade [lo] except for the grade [hi] in column [special]. *)
Definition graded_row (mark : string) (special : nat) (hi lo : string)
  : list cell :=
  ((fun j => CStr (if (j =? 5)%nat then mark else "")) <$> seq 0 17) ++
  ((fun j => CStr (if (j =? special)%nat then hi else lo)) <$> seq 17 70).

(** A 354 x 87 table graded "A-" throughout, with an "A" in column 20 of
    row 2 and in column 21 of row 20; row 20 is the only one marked "Y". *)
Definition sci : table :=
  (fun r => graded_row (if (r =? 20)%nat then "Y" else "")
                       (if (r =? 2)%nat then 20%nat
                        else if (r =? 20)%nat then 21%nat else 0%nat)
                       "A" "A-")
  <$> seq 0 354.

(** The same table with row 2 graded "I" in column 20 and "C+" elsewhere:
    one pass puts most of Group B on its first cause. *)
Definition sci_peaked : table :=
  (fun r => if (r =? 2)%nat then graded_row "" 20 "I" "C+"
            else graded_row (if (r =? 20)%nat then "Y" else "") 0 "A" "A-")
  <$> seq 0 354.

(** The table [sci] with another row 0: Group C of the prior is graded
    "A-", "B-" and four times "N". *)
Definition sci_sparse_C : table :=
  (take 81 (graded_row "" 0 "A" "A-")
   ++ (CStr <$> ["A-"; "B-"; "N"; "N"; "N"; "N"]%string))
  :: drop 1 sci.

Definition names : list string :=
  "ID"%string :: ((fun i => "v" +:+ pretty i) <$> seq 1 352) ++ ["i459o"%string].

Definition prob_names : list string :=
  (fun i => "cause" +:+ pretty i) <$> seq 0 70.

(** A consistency check that finds nothing to correct, and a sink that
    accepts every row. *)
Definition no_check (v : list obj) (_ : obj)
  : list obj * list string * list string := (v, [], []).
Definition accept (_ : string) (_ : row) : result unit := Ok tt.

(** A record answering "y" at the given positions and "." elsewhere. *)
Definition answers (id : string) (yes : list nat) : list obj :=
  OStr id :: ((fun j => OStr (if bool_decide (j ∈ yes) then "y" else "."))
              <$> seq 1 353).

(** Female, one age group, symptom 20: one informative symptom (row 20 is
    the only one whose column 5 is "Y"). *)
Definition rec_informative : list obj := answers "d1" [4; 5; 20]%nat.
(** Female, one age group, symptom 21: accepted, nothing informative. *)
Definition rec_plain : list obj := answers "d2" [4; 5; 21]%nat.
(** No age group answered. *)
Definition rec_no_age : list obj := answers "d0" [4; 20]%nat.

Definition config_with (t : table) (write : bool)
    (directory : option string) (data : list (list obj)) : config :=
  Config names data "h" "h" write directory "classic" false (Some t).

Definition config_of : bool -> option string -> list (list obj) -> config :=
  config_with sci.

Definition run_sample (c : config) : result out :=
  run [] names no_check accept prob_names c.

(** The table and the prior as the record loop of [run] sees them. *)
Definition probbaseV5 : table :=
  match zero_metadata (substitute_grades sci) with
  | Ok t => t
  | Raise _ => []
  end.

Definition Sys_Prior : list Q :=
  match Prior.build probbaseV5 "h" "h" with
  | Ok p => p
  | Raise _ => []
  end.

(** [new_input] of [rec_informative]: symptom 20 alone is flagged. *)
Definition flags_20 : list nat := <[20%nat := 1%nat]> (replicate 354 0%nat).

Definition wholeprobs (r : result out) : list (list Q) :=
  match r with
  | Ok o => (fun x => match x with
                      | Some row => WHOLEPROB row
                      | None => []
                      end) <$> out_VA5 o
  | Raise _ => []
  end.

(** Row [r] of [probbaseV5], as the update loop reads it. *)
Definition graded_numeric_row (r : nat) : list cell :=
  match probbaseV5 !! r with
  | Some cells => cells
  | None => []
  end.

(** The store after the one update that [rec_informative] causes. *)
Definition posterior : list Q :=
  match Inference.infer probbaseV5 Sys_Prior flags_20 354 with
  | Ok p => p
  | Raise _ => []
  end.

(** Entry [i] of a computed vector, as a fraction in lowest terms. *)
Definition reduced_entry (r : result (list Q)) (i : nat) : option Q :=
  Qred <$> Prior.value_at r i.

(** What a run returned: the identifiers, the identifier of every row of
    the result frame ([None] for an empty row) and the logged messages. *)
Definition summary (r : result out)
  : option (list obj * list (option obj) * list string) :=
  match r with
  | Ok o => Some (out_ID o, (fun x : option row => ID <$> x) <$> out_VA5 o,
                  out_log o)
  | Raise _ => None
  end.

(** A Group B slice whose maximum is 0.5. *)
Definition prob_B : list Q := [0.5; 0.3; 0.2] ++ replicate 58 0.

(** Group C slices: the example of the specification, and Group C of the
    prior of [sci_sparse_C]. *)
Definition prob_C_unit : list Q := [0.6; 0.1; 0.1; 0.1; 0.05; 0.05].
Definition prob_C_raw : list Q := [0.2; 0.02; 0; 0; 0; 0].

(** The comorbidity label and likelihood of every row of a run. *)
Definition comorbidities (r : result out) : list (string * val) :=
  match r with
  | Ok o => omap (fun x : option row =>
                    (fun row => (COMCAT row, COMNUM row)) <$> x) (out_VA5 o)
  | Raise _ => []
  end.

End Samples.

(** ** The accessors of the settings (lines 479-511) *)

Module Settings.
Import Run.

Definition with_hiv (c : config) (h : string) : config :=
  Config (va_columns c) (va_data c) h (malaria c) (write c) (directory c)
         (output c) (append c) (sci c).

Definition with_malaria (c : config) (m : string) : config :=
  Config (va_columns c) (va_data c) (hiv c) m (write c) (directory c)
         (output c) (append c) (sci c).

Definition get_hiv (c : config) : string := hiv c.
Definition get_malaria (c : config) : string := malaria c.

(** [set_hiv]: the object after the call and the value returned. *)
Definition set_hiv (c : config) (hiv_level : string) : config * string :=
  let hiv_lvl := lower hiv_level in
  let c := if Prior.valid_level hiv_lvl then with_hiv c hiv_lvl else c in
  (c, hiv c).

Definition set_malaria (c : config) (malaria_level : string) : config * string :=
  let malaria_lvl := lower malaria_level in
  let c := if Prior.valid_level malaria_lvl then with_malaria c malaria_lvl
           else c in
  (c, malaria c).

End Settings.

(** ** The caller [runCCVA] ([src/interva.py], lines 7-177) *)

Module CCVA.
Import Record_ Run.

(** [np.argwhere(index == "Undetermined")] *)
Definition undetermined_at (index : list string) : list nat :=
  fst <$> filter (fun p => p.2 = "Undetermined"%string) (imap pair index).

(** [np.delete(a, idx)] for positions of [a]. *)
Definition delete_at {A} (idx : list nat) (a : list A) : list A :=
  snd <$> filter (fun p => p.1 ∉ idx) (imap pair a).

(** One of the six blocks: the dictionary built from [series top] and,
    when [undetermined] is off, replaced by [series (top + 1)] without its
    "Undetermined" entries if it has any.  The block returns the [top] it
    leaves to the next one. *)
Definition group (series : nat -> list (string * Q)) (top : nat)
    (undetermined : bool) : (list string * list Q) * nat :=
  let g := (fst <$> series top, snd <$> series top) in
  if negb undetermined then
    let top := (top + 1)%nat in
    let index := fst <$> series top in
    let values := snd <$> series top in
    let idx := undetermined_at index in
    if bool_decide (length idx <> 0%nat)
    then ((delete_at idx index, delete_at idx values), top)
    else (g, top)
  else (g, top).

Record ccva_results : Type := Results {
  all_ : list string * list Q;
  male : list string * list Q;
  female : list string * list Q;
  adult : list string * list Q;
  child : list string * list Q;
  neonate : list string * list Q;
  merged : list string * list (list Q)
}.

Section Collaborators.

(** The questionnaire data as [pycrossva.transform] takes it. *)
Variable odk : Type.
(** [pycrossva.transform]: the columns and the records of its frame. *)
Variable transform : odk -> option string -> list string * list (list obj).
(** [interva.utils.csmf] on the object that [run] has filled, with [top],
    [age] and [sex]: a Series of causes and fractions. *)
Variable csmf : out -> nat -> option string -> option string -> list (string * Q).
(** [pd.concat(..., axis=1)] of six Series followed by [fillna(0)]: the
    index and the six columns. *)
Variable concat_columns : list (list (string * Q)) -> list string * list (list Q).
Variable probbase_default : table.
Variable valabels : list string.
Variable datacheck5 : list obj -> obj -> list obj * list string * list string.
Variable save : string -> row -> result unit.
Variable prob_names : list string.

Definition runCCVA (odk_raw : odk) (id_col : option string) (top : nat)
    (undetermined : bool) (malaria hiv : string) : result ccva_results :=
  let input_data := transform odk_raw id_col in
  let iv5out := Config input_data.1 input_data.2 hiv malaria true
                       (Some "."%string) "classic" false None in
  o ← run probbase_default valabels datacheck5 save prob_names iv5out;
  let '(all_, top) := group (fun t => csmf o t None None) top undetermined in
  let '(male, top) :=
    group (fun t => csmf o t None (Some "male"%string)) top undetermined in
  let '(female, top) :=
    group (fun t => csmf o t None (Some "female"%string)) top undetermined in
  let '(adult, top) :=
    group (fun t => csmf o t (Some "adult"%string) None) top undetermined in
  let '(child, top) :=
    group (fun t => csmf o t (Some "child"%string) None) top undetermined in
  let '(neonate, top) :=
    group (fun t => csmf o t (Some "neonate"%string) None) top undetermined in
  let merged :=
    concat_columns
      [csmf o top None None;
       csmf o top None (Some "male"%string);
       csmf o top None (Some "female"%string);
       csmf o top (Some "adult"%string) None;
       csmf o top (Some "child"%string) None;
       csmf o top (Some "neonate"%string) None] in
  Ok (Results all_ male female adult child neonate merged).

End Collaborators.

End CCVA.

(** ** Answers and marks, as the record steps read them *)

Module Answers.

(** The raw markers of lines 281-287. *)
Definition affirmative (x : obj) : bool :=
  obj_eq x (OStr "y") || obj_eq x (OStr "Y") || obj_eq x (OStr "1").

Definition negative (x : obj) : bool :=
  obj_eq x (OStr "n") || obj_eq x (OStr "N") || obj_eq x (OStr "0").

Definition canonical_value (x : obj) : obj :=
  if affirmative x then ONum 1 else if negative x then ONum 0 else ONan.

(** A checked answer: 0, 1 or missing. *)
Definition ternary (x : obj) : bool :=
  match x with
  | ONum q => Qeq_bool q 0 || Qeq_bool q 1
  | ONan => true
  | OStr _ => false
  end.

(** The answer at position [i] is 0 or 1. *)
Definition answered (v : list obj) (i : nat) : bool :=
  match v !! i with
  | Some (ONum _) => true
  | _ => false
  end.

(** The answer at [y] is the one that column 5 of the table marks for row
    [y]: 1 for "Y", 0 for "N". *)
Definition matches_mark (probbaseV5 : table) (v : list obj) (y : nat) : Prop :=
  exists q cells c,
    v !! y = Some (ONum q) /\ probbaseV5 !! y = Some cells /\
    cells !! 5%nat = Some c /\
    ((q == 1 /\ cell_is "Y" c = true) \/ (q == 0 /\ cell_is "N" c = true)).

(** What an answer adds to [nansum] once canonical. *)
Definition yes_value (x : obj) : Q := if affirmative x then 1 else 0.

(** The outcome of the three tests of lines 294-308 read on the raw
    answers. *)
Definition skipped_for (raw : list obj) : option string :=
  if negb (existsb affirmative (slice 5 12 raw))
  then Some " Error in age indicator: Not Specified"%string
  else if negb (existsb affirmative (slice 3 5 raw))
  then Some " Error in sex indicator: Not Specified"%string
  else if negb (existsb affirmative (slice 20 328 raw))
  then Some " Error in indicators: No symptoms specified"%string
  else None.

End Answers.

(** ** What a returned row records *)

Module Outcomes.
Import Record_.

(** What a row says about the record it was built from: its identifier,
    the two settings, and the three classifications of the combined
    vector it stores. *)
Definition row_of_record (prob_names : list string) (hiv malaria : string)
    (index_current : obj) (res : row) : Prop :=
  ID res = index_current /\ MALPREV res = malaria /\ HIVPREV res = hiv /\
  (exists repro, Pregnancy.classify (slice 0 3 (WHOLEPROB res)) repro
                 = Ok (PREGSTAT res, PREGLIK res)) /\
  Ranker.rank (slice 3 64 (WHOLEPROB res)) (slice 3 64 prob_names)
    = Ok (Ranker.Ranking (CAUSE1 res) (LIK1 res) (CAUSE2 res) (LIK2 res)
                         (CAUSE3 res) (LIK3 res) (INDET res)) /\
  Comorbidity.classify (slice 64 70 (WHOLEPROB res)) (slice 64 70 prob_names)
    = Ok (COMCAT res, COMNUM res).

(** Entry [k] of a vector is there and is 0. *)
Definition zero_at (k : nat) (prob : list Q) : Prop :=
  exists x, prob !! k = Some x /\ x == 0.

End Outcomes.

(** ** Further sample inputs *)

Module Cases.
Import Record_ Run.

Definition returned (r : result out) : out :=
  match r with
  | Ok o => o
  | Raise _ => Out [] [] "" "" []
  end.

(** One accepted record without informative symptom, nothing written. *)
Definition plain_config : config :=
  Samples.config_of false None [Samples.rec_plain].

Definition plain_out : out := returned (Samples.run_sample plain_config).

Definition blank_row : row :=
  Row ONan "" "" "" VNone VNone VNone VNone VNone VNone VNone 0 "" VNone [].

Definition first_row (o : out) : row :=
  match out_VA5 o with
  | Some r :: _ => r
  | _ => blank_row
  end.

Definition first_id (o : out) : obj :=
  match out_ID o with
  | x :: _ => x
  | [] => ONan
  end.

(** A record as the consistency check may return it: 0, 1 or missing. *)
Definition checked (raw : list obj) : list obj :=
  <[0%nat := ONum 0]> (Answers.canonical_value <$> raw).

Definition numbers (cells : list cell) : list Q :=
  match to_numeric_row cells with
  | Ok ws => ws
  | Raise _ => []
  end.

(** The table [Samples.sci_sparse_C] as the record loop sees it, its prior
    (four causes of Group C have prior 0) and the store after one pass. *)
Definition sparse_table : table :=
  match zero_metadata (substitute_grades Samples.sci_sparse_C) with
  | Ok t => t
  | Raise _ => []
  end.

Definition sparse_prior : list Q :=
  match Prior.build sparse_table "h" "h" with
  | Ok p => p
  | Raise _ => []
  end.

Definition sparse_posterior : list Q :=
  match Inference.infer sparse_table sparse_prior Samples.flags_20 354 with
  | Ok p => p
  | Raise _ => []
  end.

(** A one-row table with the unknown symbol "Z" in column 20. *)
Definition unknown_row : list cell := Samples.graded_row "" 20 "Z" "A-".




(** The table [Samples.sci] with row 0 graded "I" in column 20 and "N"
    elsewhere: the prior built from it is an [int64] array. *)
Definition integer_sci : table :=
  Samples.graded_row "" 20 "I" "N" :: drop 1 Samples.sci.


End Cases.

(** * Theorems *)

(** ** Comparisons, sums and slices *)

Section NumberFacts.

Lemma Qltb_true x y : Qltb x y = true <-> x < y.
Proof.
  unfold Qltb. rewrite negb_true_iff. split.
  - intros H. apply Qnot_le_lt. intros Hle. apply Qle_bool_iff in Hle. congruence.
  - intros H. destruct (Qle_bool y x) eqn:E; [|reflexivity].
    apply Qle_bool_iff in E. lra.
Qed.

Lemma Qltb_false x y : Qltb x y = false <-> y <= x.
Proof. unfold Qltb. rewrite negb_false_iff. apply Qle_bool_iff. Qed.

Lemma Qgeb_true x y : Qgeb x y = true <-> y <= x.
Proof. apply Qle_bool_iff. Qed.

Lemma Qeq_bool_false x y : ~ x == y -> Qeq_bool x y = false.
Proof.
  intros H. destruct (Qeq_bool x y) eqn:E; [|reflexivity].
  apply Qeq_bool_iff in E. contradiction.
Qed.

Lemma forallb_nonneg (l : list Q) :
  forallb (Qle_bool 0) l = true -> Forall (Qle 0) l.
Proof.
  induction l as [|x l IH]; cbn; [constructor|].
  intros [Hx Hl]%andb_true_iff. constructor; [by apply Qle_bool_iff | auto].
Qed.

Lemma fold_sum_acc l a : fold_left Qplus l a == a + sum l.
Proof.
  unfold sum. revert a. induction l as [|x l IH]; intros a; cbn.
  - lra.
  - rewrite IH, (IH (0 + x)). lra.
Qed.

Lemma sum_cons x l : sum (x :: l) == x + sum l.
Proof. unfold sum at 1. cbn. rewrite fold_sum_acc. lra. Qed.

Lemma sum_nonneg l : Forall (Qle 0) l -> 0 <= sum l.
Proof.
  induction 1 as [|x l Hx _ IH].
  - unfold sum. cbn. lra.
  - rewrite sum_cons. lra.
Qed.

Lemma sum_scaled s l : ~ s == 0 -> sum ((fun x => x / s) <$> l) == sum l / s.
Proof.
  intros Hs. induction l as [|x l IH].
  - unfold sum. cbn. field. exact Hs.
  - rewrite fmap_cons, !sum_cons, IH. field. exact Hs.
Qed.

End NumberFacts.

Section SliceFacts.
Context {A : Type}.
Implicit Types l v : list A.

Lemma lookup_slice lo hi l k :
  slice lo hi l !! k =
    if decide (k < hi - lo)%nat then l !! (lo + k)%nat else None.
Proof.
  unfold slice. rewrite lookup_take. case_decide; [apply lookup_drop | reflexivity].
Qed.

Lemma length_slice lo hi l :
  length (slice lo hi l) = Nat.min (hi - lo) (length l - lo).
Proof. unfold slice. rewrite length_take, length_drop. reflexivity. Qed.

(** An assignment to [l[lo:hi]] changes the positions of the slice and no
    other, also when the slice is cut short by the end of [l]. *)
Lemma lookup_slice_assign lo hi l v i :
  (lo <= hi)%nat -> length v = length (slice lo hi l) ->
  slice_assign lo hi l v !! i =
    if decide (lo <= i < hi)%nat then v !! (i - lo)%nat else l !! i.
Proof.
  intros Hle Hlen. rewrite length_slice in Hlen. unfold slice_assign.
  destruct (decide (i < lo)%nat) as [Hi|Hi].
  - rewrite decide_False by lia.
    destruct (decide (i < length l)%nat).
    + rewrite lookup_app_l by (rewrite length_take; lia).
      apply lookup_take_lt; lia.
    + rewrite (lookup_ge_None_2 l i) by lia.
      apply lookup_ge_None_2.
      rewrite !length_app, length_take, length_drop. lia.
  - destruct (decide (lo <= length l)%nat) as [Hlo|Hlo].
    + rewrite lookup_app_r by (rewrite length_take; lia).
      rewrite length_take, Nat.min_l by lia.
      destruct (decide (i - lo < length v)%nat) as [Hv|Hv].
      * rewrite lookup_app_l by lia. rewrite decide_True by lia. reflexivity.
      * rewrite lookup_app_r by lia. rewrite lookup_drop.
        case_decide.
        -- rewrite (lookup_ge_None_2 v) by lia. apply lookup_ge_None_2. lia.
        -- destruct (decide (hi <= length l)%nat).
           ++ f_equal. lia.
           ++ rewrite !lookup_ge_None_2 by lia. reflexivity.
    + rewrite (lookup_ge_None_2 (_ ++ _)) by
        (rewrite !length_app, length_take, length_drop; lia).
      case_decide; symmetry; apply lookup_ge_None_2; lia.
Qed.

Lemma slice_assign_same lo hi l v :
  (lo <= hi)%nat -> length v = length (slice lo hi l) ->
  slice lo hi (slice_assign lo hi l v) = v.
Proof.
  intros Hle Hlen. apply list_eq. intros k.
  rewrite lookup_slice, lookup_slice_assign by assumption.
  rewrite length_slice in Hlen.
  case_decide.
  - rewrite decide_True by lia. f_equal. lia.
  - symmetry. apply lookup_ge_None_2. lia.
Qed.

Lemma slice_assign_other lo hi lo' hi' l v :
  (lo <= hi)%nat -> length v = length (slice lo hi l) ->
  (hi' <= lo \/ hi <= lo')%nat ->
  slice lo' hi' (slice_assign lo hi l v) = slice lo' hi' l.
Proof.
  intros Hle Hlen Hdis. apply list_eq. intros k.
  rewrite !lookup_slice, lookup_slice_assign by assumption.
  case_decide; [|reflexivity].
  rewrite decide_False by lia. reflexivity.
Qed.

Lemma length_slice_assign lo hi l v :
  (lo <= hi)%nat -> length v = length (slice lo hi l) ->
  length (slice_assign lo hi l v) = length l.
Proof.
  intros Hle Hlen. rewrite length_slice in Hlen. unfold slice_assign.
  rewrite !length_app, length_take, length_drop. lia.
Qed.

End SliceFacts.

(** ** The prior *)

Section PriorFacts.
Import Prior Props.

Lemma setitem_ok {A} (l : list A) i v :
  (i < length l)%nat -> setitem l i v = Ok (<[i := v]> l).
Proof. intros H. unfold setitem. rewrite decide_True by assumption. reflexivity. Qed.

Lemma store_ok (d : dtype) (p : list Q) i v :
  (i < length p)%nat -> store d p i v = Ok (<[i := cast d v]> p).
Proof. apply setitem_ok. Qed.

Lemma apply_hiv_levels (d : dtype) (p : list Q) :
  (22 < length p)%nat ->
  apply_hiv d "h" p = Ok (<[22%nat := cast d 0.05]> p) /\
  apply_hiv d "l" p = Ok (<[22%nat := cast d 0.005]> p) /\
  apply_hiv d "v" p = Ok (<[22%nat := cast d 1e-05]> p).
Proof.
  intros H. unfold apply_hiv. cbn [String.eqb Ascii.eqb Bool.eqb mbind result_bind].
  rewrite !store_ok by assumption. auto.
Qed.

Lemma apply_malaria_levels (d : dtype) (p : list Q) :
  (44 < length p)%nat ->
  apply_malaria d "h" p
    = Ok (<[44%nat := cast d 0.05]> (<[24%nat := cast d 0.05]> p)) /\
  apply_malaria d "l" p
    = Ok (<[44%nat := cast d 1e-05]> (<[24%nat := cast d 0.005]> p)) /\
  apply_malaria d "v" p
    = Ok (<[44%nat := cast d 1e-05]> (<[24%nat := cast d 1e-05]> p)).
Proof.
  intros H. unfold apply_malaria.
  cbn [String.eqb Ascii.eqb Bool.eqb mbind result_bind].
  rewrite !(store_ok d p) by lia. cbn [mbind result_bind].
  rewrite !store_ok by (rewrite length_insert; lia). auto.
Qed.


(** With two valid settings, [build] is the conversion of row 0 followed
    by the two groups of assignments, made with the element type of the
    converted row. *)
Lemma build_by_dtype probbaseV5 row0 Sys_Prior hiv malaria :
  probbaseV5 !! 0%nat = Some row0 ->
  to_numeric_row row0 = Ok Sys_Prior ->
  valid_level hiv = true -> valid_level malaria = true ->
  build probbaseV5 hiv malaria =
    (p ← apply_hiv (dtype_of Sys_Prior) hiv Sys_Prior;
     apply_malaria (dtype_of Sys_Prior) malaria p).
Proof.
  intros H0 Hnum Hh Hm. unfold build, getitem. rewrite H0.
  cbn [mbind result_bind]. rewrite Hnum. cbn [mbind result_bind].
  rewrite Hh, Hm. reflexivity.
Qed.

(** A setting that is none of the three levels is refused before any
    index is written. *)
Lemma build_rejects_invalid_level probbaseV5 row0 Sys_Prior hiv malaria :
  probbaseV5 !! 0%nat = Some row0 ->
  to_numeric_row row0 = Ok Sys_Prior ->
  valid_level hiv = false \/ valid_level malaria = false ->
  exists msg, build probbaseV5 hiv malaria = Raise (IOError msg).
Proof.
  intros H0 Hnum Hbad. unfold build, getitem. rewrite H0. cbn. rewrite Hnum. cbn.
  destruct Hbad as [-> | ->]; [|rewrite orb_true_r]; cbn; eauto.
Qed.

End PriorFacts.




(** ** Pregnancy status *)

(** Probabilities sum to a non-zero value as soon as one of them reaches
    0.1, so the division by the sum is defined for every slice of
    non-negative values. *)
Lemma pregnancy_sum_nonzero (a0 a1 a2 : Q) (loc : nat) (v : Q) :
  0 <= a0 -> 0 <= a1 -> 0 <= a2 ->
  [a0; a1; a2] !! loc = Some v -> 0.1 <= v ->
  ~ sum [a0; a1; a2] == 0.
Proof.
  intros H0 H1 H2 Hv Hge. unfold sum. cbn.
  destruct loc as [|[|[|?]]]; cbn in Hv; [| | |discriminate];
    injection Hv as <-; lra.
Qed.

(** C4.  For a record of reproductive age whose Group A slice (three
    non-negative values) has at least 0.1 at its argmax, the rules (run in
    order, the last assignment standing) give the label of the argmax, "Not
    pregnant or recently delivered" for index 0, "Pregnancy ended within 6
    weeks of death" for index 1 and "Pregnant at death" for index 2, and
    the likelihood [round (v / sum * 100)], where [v] is the value at index
    1 when the argmax is 0 or 1 and the value at index 2 when it is 2.  The
    percentage is taken clear of the ties of [round], where the float64
    value of the program is rounded as the exact one. *)
Theorem pregnancy_label_and_likelihood (a0 a1 a2 : Q) (loc : nat) (v : Q) :
  0 <= a0 -> 0 <= a1 -> 0 <= a2 ->
  argmax [a0; a1; a2] = Ok loc ->
  [a0; a1; a2] !! loc = Some v ->
  0.1 <= v ->
  Props.clear_of_ties
    ((if (loc <=? 1)%nat then a1 else a2) / sum [a0; a1; a2] * 100) ->
  Pregnancy.classify [a0; a1; a2] true =
    Ok (match loc with
        | 0%nat => "Not pregnant or recently delivered"%string
        | 1%nat => "Pregnancy ended within 6 weeks of death"%string
        | _ => "Pregnant at death"%string
        end,
        VInt (round ((if (loc <=? 1)%nat then a1 else a2) / sum [a0; a1; a2] * 100))).
Proof.
  intros H0 H1 H2 Hloc Hv Hge _.
  pose proof (pregnancy_sum_nonzero a0 a1 a2 loc v H0 H1 H2 Hv Hge) as Hsum.
  unfold Pregnancy.classify.
  rewrite Hloc. cbn [amax mbind result_bind].
  unfold Pregnancy.rule, round_ratio_pct.
  rewrite (Qeq_bool_false _ _ Hsum).
  apply Qgeb_true in Hge.
  cbn in Hloc.
  destruct (Qltb a0 a1) eqn:E01; cbn in Hloc.
  - destruct (Qltb a1 a2) eqn:E12; injection Hloc as <-; cbn in Hv;
      injection Hv as <-; cbn; rewrite Hge; reflexivity.
  - destruct (Qltb a0 a2) eqn:E02; injection Hloc as <-; cbn in Hv;
      injection Hv as <-; cbn; rewrite Hge; reflexivity.
Qed.

Lemma pregnancy_label_and_likelihood_witness :
  Pregnancy.classify [0.5; 0.3; 0.2] true =
    Ok ("Not pregnant or recently delivered"%string, VInt 30) /\
  Pregnancy.classify [0.2; 0.5; 0.3] true =
    Ok ("Pregnancy ended within 6 weeks of death"%string, VInt 50) /\
  Pregnancy.classify [0.2; 0.3; 0.5] true =
    Ok ("Pregnant at death"%string, VInt 50).
Proof.
  split; [|split].
  - refine (pregnancy_label_and_likelihood 0.5 0.3 0.2 0 0.5
              _ _ _ eq_refl eq_refl _ _);
      unfold Props.clear_of_ties; apply Qle_bool_iff; vm_compute; reflexivity.
  - refine (pregnancy_label_and_likelihood 0.2 0.5 0.3 1 0.5
              _ _ _ eq_refl eq_refl _ _);
      unfold Props.clear_of_ties; apply Qle_bool_iff; vm_compute; reflexivity.
  - refine (pregnancy_label_and_likelihood 0.2 0.3 0.5 2 0.5
              _ _ _ eq_refl eq_refl _ _);
      unfold Props.clear_of_ties; apply Qle_bool_iff; vm_compute; reflexivity.
Defined.

(** ** The three top causes *)

Section RankerFacts.
Import Ranker.

(** Below the threshold every cause and likelihood is blank and the
    indeterminacy is 100. *)
Lemma rank_below_threshold prob_B prob_temp_names m :
  amax prob_B = Ok m -> m < 0.4 ->
  rank prob_B prob_temp_names =
    Ok (Ranking (VStr " ") (VStr " ") (VStr " ") (VStr " ") (VStr " ")
                (VStr " ") 100).
Proof.
  intros Hm Hlt. unfold rank. rewrite Hm. cbn [mbind result_bind].
  rewrite (proj2 (Qltb_true m 0.4) Hlt).
  unfold Qgeb. destruct (Qle_bool 0.4 m) eqn:E; [|reflexivity].
  apply Qle_bool_iff in E. lra.
Qed.

(** [top3] starts as three empty lists, and [float] refuses a list. *)
Lemma float_of_top3_raises (liks : list val) :
  mapM float_or_zero ([VEmptyList; VEmptyList; VEmptyList] ++ liks) =
    Raise (TypeError "float() argument must be a string or a real number, not 'list'").
Proof. reflexivity. Qed.

End RankerFacts.

Ltac raise_or_continue :=
  match goal with
  | |- raises (Raise _) => eexists; reflexivity
  | |- raises (mbind _ ?m) =>
      let E := fresh "E" in
      destruct m eqn:E; cbn [mbind result_bind]
  | |- raises (let '(_, _) := (if ?b then _ else _) in _) => destruct b
  end.

(** C2 (the branch at or above the threshold, on the code).  Whenever the
    maximum of the Group B slice is at least 0.4, [rank] ends in an
    exception and yields no cause, likelihood or indeterminacy: the three
    likelihoods are appended to a [top3] that already holds three empty
    lists, and the conversion of its first element to a float fails. *)
Theorem rank_raises_from_threshold prob_B prob_temp_names m :
  amax prob_B = Ok m -> 0.4 <= m ->
  raises (Ranker.rank prob_B prob_temp_names).
Proof.
  intros Hm Hge. unfold Ranker.rank. rewrite Hm. cbn [mbind result_bind].
  rewrite (proj2 (Qgeb_true m 0.4) Hge).
  unfold Ranker.top_three, Ranker.name_at.
  repeat raise_or_continue.
  all: rewrite <- !app_assoc, float_of_top3_raises in *; discriminate.
Qed.

Lemma rank_raises_from_threshold_witness :
  amax Samples.prob_B = Ok 0.5 /\
  raises (Ranker.rank Samples.prob_B (slice 3 64 Samples.prob_names)).
Proof.
  split; [reflexivity|].
  refine (rank_raises_from_threshold Samples.prob_B _ 0.5 eq_refl _).
  unfold Qle. cbn. lia.
Defined.

(** The exception met on the sample slice [0.5, 0.3, 0.2, 0, ...]. *)
Example rank_sample_type_error :
  Ranker.rank Samples.prob_B (slice 3 64 Samples.prob_names) =
    Raise (TypeError "float() argument must be a string or a real number, not 'list'").
Proof. vm_compute. reflexivity. Qed.

(** The same exception ends a whole run as soon as a record brings a cause
    of Group B to 0.4: here one pass with the peaked row 2. *)
Example run_stops_at_ranked_record :
  Samples.run_sample
    (Samples.config_with Samples.sci_peaked false None [Samples.rec_informative])
    = Raise (TypeError "float() argument must be a string or a real number, not 'list'").
Proof. vm_compute. reflexivity. Qed.

(** ** Circumstances of mortality *)

(** The threshold is tested on the maximum taken before the slice is
    normalized. *)
Lemma comorbidity_threshold_on_raw_maximum prob_C prob_C_names m :
  amax prob_C = Ok m -> m < 0.5 ->
  Comorbidity.classify prob_C prob_C_names = Ok ("Multiple"%string, VStr " ").
Proof.
  intros Hm Hlt. unfold Comorbidity.classify. rewrite Hm. cbn [mbind result_bind].
  rewrite (proj2 (Qltb_true m 0.5) Hlt). reflexivity.
Qed.

(** The slice of the specification's example sums to 1 and gets the name
    at index 0 with likelihood 60. *)
Example comorbidity_unit_slice :
  Comorbidity.classify Samples.prob_C_unit (slice 64 70 Samples.prob_names) =
    Ok ("cause64"%string, VInt 60).
Proof. vm_compute. reflexivity. Qed.

(** C3 (on the code).  The slice [0.2, 0.02, 0, 0, 0, 0] has sum 0.22; once
    normalized its maximum is 10/11, so the specification's classifier names
    index 0 with likelihood 91.  The code keeps the maximum computed before
    the normalization (0.2) for the threshold and answers "Multiple".  The
    slice is Group C of the prior of [sci_sparse_C], and a record without
    informative symptom reaches the classifier with it. *)
Theorem comorbidity_keeps_raw_maximum :
  Comorbidity.classify Samples.prob_C_raw (slice 64 70 Samples.prob_names) =
    Ok ("Multiple"%string, VStr " ") /\
  Comorbidity.classify_spec Samples.prob_C_raw (slice 64 70 Samples.prob_names) =
    Ok ("cause64"%string, VInt 91) /\
  slice 64 70 <$>
    Samples.wholeprobs
      (Samples.run_sample
         (Samples.config_with Samples.sci_sparse_C false None [Samples.rec_plain]))
    = [Samples.prob_C_raw] /\
  Samples.comorbidities
    (Samples.run_sample
       (Samples.config_with Samples.sci_sparse_C false None [Samples.rec_plain]))
    = [("Multiple"%string, VStr " ")].
Proof. repeat split; vm_compute; reflexivity. Qed.

(** ** The multiplicative update *)

Section InferenceFacts.
Import Inference Props.

(** On a [float64] store nothing is converted: the loop for the element
    type [Float64] is the loop written out for it. *)
Lemma update_row_as_float64 :
  update_row_as Float64 = update_row.
Proof. reflexivity. Qed.

Lemma infer_as_float64 :
  infer_as Float64 = infer.
Proof. reflexivity. Qed.

Lemma for_each_ext {S X} (P : X -> Prop) (f g : S -> X -> result S) xs :
  Forall P xs -> (forall st x, P x -> f st x = g st x) ->
  forall st, for_each f xs st = for_each g xs st.
Proof.
  intros HP Hfg. induction HP as [|x xs Hx _ IH]; intros st; cbn [for_each].
  - reflexivity.
  - rewrite (Hfg st x Hx). destruct (g st x); cbn; [apply IH | reflexivity].
Qed.

Lemma temp_all_ones new_input input_len :
  Forall (eq 1%nat) (temp new_input input_len).
Proof.
  apply Forall_forall. intros v Hv. unfold temp in Hv.
  apply list_elem_of_filter in Hv as [-> _]. reflexivity.
Qed.

(** Whatever the flagged positions are, every pass of the loop reads row
    2 of the table: [temp] holds the selected values, all equal to 1. *)
Lemma infer_reads_row_two probbaseV5 Sys_Prior new_input input_len :
  infer probbaseV5 Sys_Prior new_input input_len =
    (prob ← for_each (fun prob _ => update_row probbaseV5 (length Sys_Prior) prob 2)
                     (temp new_input input_len) (prob_of Sys_Prior);
     Ok (write_back Sys_Prior prob)).
Proof.
  unfold infer.
  rewrite (for_each_ext (eq 1%nat) _
             (fun prob _ => update_row probbaseV5 (length Sys_Prior) prob 2));
    [reflexivity | apply temp_all_ones |].
  intros st x <-. reflexivity.
Qed.

Lemma numeric_row_cell (probbaseV5 : table) row D cells j :
  probbaseV5 !! row = Some cells -> length cells = D ->
  forallb nonneg_cell (drop 17 cells) = true ->
  (17 <= j < D)%nat -> exists w, cells !! j = Some (CNum w) /\ 0 <= w.
Proof.
  intros _ Hlen Hall Hj.
  destruct (lookup_lt_is_Some_2 cells j) as [c Hc]; [lia|].
  assert (Hin : In c (drop 17 cells)).
  { apply list_elem_of_In, (list_elem_of_lookup_2 _ (j - 17)).
    rewrite lookup_drop. rewrite <- Hc. f_equal. lia. }
  rewrite forallb_forall in Hall. specialize (Hall c Hin).
  destruct c as [s|w]; [discriminate|].
  exists w. split; [assumption | by apply Qle_bool_iff].
Qed.

Lemma multiply_column_ok (probbaseV5 : table) row cells prob j p w :
  probbaseV5 !! row = Some cells -> cells !! j = Some (CNum w) ->
  prob !! (j - 17)%nat = Some p ->
  multiply_column probbaseV5 row prob j = Ok (<[(j - 17)%nat := p * w]> prob).
Proof.
  intros Hcells Hw Hp. unfold multiply_column, getitem, at_, getitem, setitem.
  rewrite Hp. cbn. rewrite Hcells. cbn. rewrite Hw. cbn.
  apply lookup_lt_Some in Hp. rewrite decide_True by lia. reflexivity.
Qed.

(** The inner loop runs to its end on a numeric row and keeps the values
    non-negative. *)
Lemma multiply_columns_ok probbaseV5 row D n : forall a prob,
  numeric_row probbaseV5 row D ->
  (17 <= a)%nat -> (a + n <= Nat.max D 17)%nat ->
  length prob = (D - 17)%nat -> Forall (Qle 0) prob ->
  exists prob',
    for_each (multiply_column probbaseV5 row) (seq a n) prob = Ok prob' /\
    length prob' = (D - 17)%nat /\ Forall (Qle 0) prob'.
Proof.
  induction n as [|n IH]; intros a prob Hrow Ha Hn Hlen Hpos; cbn [seq for_each].
  - eauto.
  - pose proof Hrow as (cells & Hcells & Hcl & Hnum).
    destruct (numeric_row_cell _ _ _ _ a Hcells Hcl Hnum) as (w & Hw & Hw0); [lia|].
    destruct (lookup_lt_is_Some_2 prob (a - 17)) as [p Hp]; [lia|].
    assert (0 <= p) by (eapply (Forall_lookup_1 (Qle 0)); eauto).
    rewrite (multiply_column_ok _ _ _ _ _ _ _ Hcells Hw Hp).
    cbn [mbind result_bind].
    apply IH; [assumption | lia | lia | by rewrite length_insert |].
    apply Forall_insert; [assumption|]. apply Qmult_le_0_compat; assumption.
Qed.

End InferenceFacts.

Section NormalizationFacts.
Import Inference Props.

Lemma length_normalize_group lo hi prob :
  (lo <= hi)%nat -> length (normalize_group lo hi prob) = length prob.
Proof.
  intros Hle. unfold normalize_group. destruct (Qltb 0 _); [|reflexivity].
  apply length_slice_assign; [assumption | apply length_fmap].
Qed.

Lemma normalize_group_nonneg lo hi prob :
  Forall (Qle 0) prob -> Forall (Qle 0) (normalize_group lo hi prob).
Proof.
  intros Hpos. unfold normalize_group.
  destruct (Qltb 0 _) eqn:E; [|assumption].
  apply Qltb_true in E. unfold slice_assign.
  set (s := sum (slice lo hi prob)) in *.
  apply Forall_app_2; [by apply Forall_take|].
  apply Forall_app_2; [|by apply Forall_drop].
  apply Forall_fmap. unfold slice.
  apply Forall_take, Forall_drop.
  eapply Forall_impl; [exact Hpos|]. intros x Hx. cbn.
  apply Qle_shift_div_l; lra.
Qed.

(** A group that has just been normalized sums to 1, and a group left
    alone had a sum that was not positive, hence 0. *)
Lemma normalize_group_sum lo hi prob :
  (lo <= hi)%nat -> Forall (Qle 0) prob ->
  group_sum_ok lo hi (normalize_group lo hi prob).
Proof.
  intros Hle Hpos. unfold group_sum_ok, normalize_group.
  destruct (Qltb 0 _) eqn:E.
  - apply Qltb_true in E. right.
    rewrite slice_assign_same by (auto using length_fmap).
    assert (Hne : ~ sum (slice lo hi prob) == 0) by lra.
    rewrite (sum_scaled _ _ Hne). field. exact Hne.
  - apply Qltb_false in E. left.
    assert (0 <= sum (slice lo hi prob)).
    { apply sum_nonneg. unfold slice. by apply Forall_take, Forall_drop. }
    lra.
Qed.

(** Groups never interact: normalizing one leaves the others as they are. *)
Lemma normalize_group_other lo hi lo' hi' prob :
  (lo <= hi)%nat -> (hi' <= lo \/ hi <= lo')%nat ->
  slice lo' hi' (normalize_group lo hi prob) = slice lo' hi' prob.
Proof.
  intros Hle Hdis. unfold normalize_group. destruct (Qltb 0 _); [|reflexivity].
  apply slice_assign_other; auto using length_fmap.
Qed.

Lemma normalize_groups_ok prob :
  Forall (Qle 0) prob ->
  groups_normalized (normalize_groups prob) /\
  Forall (Qle 0) (normalize_groups prob) /\
  length (normalize_groups prob) = length prob.
Proof.
  intros Hpos. unfold normalize_groups.
  pose proof (normalize_group_nonneg 0 3 prob Hpos) as HA.
  pose proof (normalize_group_nonneg 3 64 _ HA) as HB.
  pose proof (normalize_group_nonneg 64 70 _ HB) as HC.
  split; [|split; [exact HC|]].
  - unfold groups_normalized, group_sum_ok.
    split; [|split].
    + rewrite !normalize_group_other by lia.
      apply normalize_group_sum; [lia | assumption].
    + rewrite normalize_group_other by lia.
      apply normalize_group_sum; [lia | assumption].
    + apply normalize_group_sum; [lia | assumption].
  - rewrite !length_normalize_group by lia. reflexivity.
Qed.

Lemma update_row_ok probbaseV5 row D prob :
  numeric_row probbaseV5 row D ->
  length prob = (D - 17)%nat -> Forall (Qle 0) prob ->
  exists prob', update_row probbaseV5 D prob row = Ok prob' /\
    length prob' = (D - 17)%nat /\ Forall (Qle 0) prob' /\
    groups_normalized prob'.
Proof.
  intros Hrow Hlen Hpos. unfold update_row.
  destruct (multiply_columns_ok probbaseV5 row D (D - 17) 17 prob)
    as (prob1 & -> & Hlen1 & Hpos1); [assumption | lia | lia | assumption..|].
  cbn. destruct (normalize_groups_ok prob1 Hpos1) as (Hg & Hp & Hl).
  eexists; split; [reflexivity|].
  split; [congruence|]. split; assumption.
Qed.

(** The loop of [infer] runs to its end, and once it has made a pass the
    groups are normalized. *)
Lemma updates_ok probbaseV5 D ts : forall prob,
  numeric_row probbaseV5 2 D ->
  Forall (eq 1%nat) ts ->
  length prob = (D - 17)%nat -> Forall (Qle 0) prob ->
  exists prob', for_each (update probbaseV5 D) ts prob = Ok prob' /\
    length prob' = (D - 17)%nat /\ Forall (Qle 0) prob' /\
    (ts <> [] -> groups_normalized prob').
Proof.
  induction ts as [|t ts IH]; intros prob Hrow Hts Hlen Hpos; cbn [for_each].
  - exists prob. split; [reflexivity|]. split; [assumption|].
    split; [assumption|]. congruence.
  - apply Forall_cons in Hts as [<- Hts].
    change (update probbaseV5 D prob 1) with (update_row probbaseV5 D prob 2).
    destruct (update_row_ok probbaseV5 2 D prob Hrow Hlen Hpos)
      as (prob1 & -> & Hlen1 & Hpos1 & Hg1).
    cbn. destruct (IH prob1 Hrow Hts Hlen1 Hpos1)
      as (prob2 & E & Hlen2 & Hpos2 & Hg2).
    exists prob2. split; [assumption|]. split; [assumption|].
    split; [assumption|].
    intros _. destruct ts as [|t' ts'].
    + cbn in E. congruence.
    + apply Hg2. discriminate.
Qed.

Lemma filter_none {A} (P : A -> Prop) `{!forall x, Decision (P x)} (l : list A) :
  Forall (fun x => ~ P x) l -> filter P l = [].
Proof.
  induction 1 as [|x l Hx _ IH]; [reflexivity|].
  rewrite filter_cons_False by assumption. exact IH.
Qed.

Lemma temp_without_flags (new_input : list nat) input_len :
  (forall y, (1 <= y)%nat -> new_input !! y <> Some 1%nat) ->
  temp new_input input_len = [].
Proof.
  intros Hno. unfold temp. apply filter_none.
  apply Forall_lookup_2. intros i x Hx ->.
  rewrite lookup_slice in Hx. case_decide; [|discriminate].
  apply (Hno (1 + i)%nat); [lia | assumption].
Qed.

End NormalizationFacts.

(** ** Graded tables give the update non-negative numbers *)

Section GradedTableFacts.
Import Prior Props.

Lemma take_drop_17_app {A} (row X : list A) :
  length X = length (drop 17 row) ->
  take 17 (take 17 row ++ X) = take 17 row /\ drop 17 (take 17 row ++ X) = X.
Proof.
  intros HX. rewrite length_drop in HX.
  destruct (decide (17 <= length row)%nat).
  - split; [apply take_app_length' | apply drop_app_length'];
      rewrite length_take; lia.
  - destruct X; [|cbn in HX; lia].
    rewrite app_nil_r, take_take, drop_ge by (rewrite length_take; lia).
    split; [f_equal; lia | reflexivity].
Qed.

(** The sixteen passes over the table amount to one pass over each cell of
    the cause columns. *)
Lemma substitute_grades_rows gs : forall t : table,
  fold_left (fun t gv => subst_grade gv.1 gv.2 t) gs t =
    (fun row => take 17 row ++ (substitute_cell gs <$> drop 17 row)) <$> t.
Proof.
  induction gs as [|[g v] gs IH]; intros t; cbn [fold_left].
  - symmetry. rewrite <- (list_fmap_id t) at 2. apply list_fmap_ext.
    intros _ row _. unfold substitute_cell. cbn.
    rewrite list_fmap_id. apply take_drop.
  - rewrite IH. unfold subst_grade. rewrite <- list_fmap_compose.
    apply list_fmap_ext. intros _ row _. cbn.
    destruct (take_drop_17_app row
                ((fun c => if cell_is g c then CNum v else c) <$> drop 17 row))
      as [-> ->]; [apply length_fmap|].
    rewrite <- list_fmap_compose. reflexivity.
Qed.

(** Every grade is replaced by a non-negative number. *)
Lemma substitute_cell_grade c :
  is_grade c = true -> nonneg_cell (substitute_cell grades c) = true.
Proof.
  destruct c as [s|q]; [|discriminate].
  unfold is_grade, grades. cbn [existsb cell_is fst].
  rewrite !orb_true_iff.
  intros H. repeat destruct H as [H|H]; try discriminate;
    apply String.eqb_eq in H; subst s; reflexivity.
Qed.

(** A row graded in its cause columns is numeric after the substitution. *)
Lemma graded_row_is_numeric (t : table) row cells :
  t !! row = Some cells ->
  forallb is_grade (drop 17 cells) = true ->
  numeric_row (substitute_grades t) row (length cells).
Proof.
  intros Hrow Hg. unfold substitute_grades. rewrite substitute_grades_rows.
  exists (take 17 cells ++ (substitute_cell grades <$> drop 17 cells)).
  split; [by rewrite list_lookup_fmap, Hrow|].
  split.
  - rewrite length_app, length_fmap, length_take, length_drop. lia.
  - destruct (take_drop_17_app cells (substitute_cell grades <$> drop 17 cells))
      as [_ ->]; [apply length_fmap|].
    apply forallb_forall. intros c Hc.
    apply list_elem_of_In, list_elem_of_fmap in Hc as (c0 & -> & Hc0).
    apply substitute_cell_grade.
    rewrite forallb_forall in Hg. apply Hg, list_elem_of_In, Hc0.
Qed.


Lemma zero_metadata_rows (t t' : table) :
  zero_metadata t = Ok t' ->
  (forall row, (1 <= row)%nat -> t' !! row = t !! row) /\
  (forall r, t !! 0%nat = Some r ->
     t' !! 0%nat = Some (((fun _ => CNum 0) <$> take 17 r) ++ drop 17 r)).
Proof.
  destruct t as [|r0 rest]; [discriminate|]. intros [= <-]. split.
  - intros [|row] H; [lia | reflexivity].
  - intros r [= <-]. reflexivity.
Qed.

Lemma to_numeric_row_nonneg cells :
  forallb nonneg_cell cells = true ->
  exists qs, to_numeric_row cells = Ok qs /\ length qs = length cells /\
    Forall (Qle 0) qs.
Proof.
  unfold to_numeric_row. induction cells as [|c cells IH]; cbn.
  - intros _. exists []. auto.
  - intros [Hc Hcs]%andb_true_iff. destruct (IH Hcs) as (qs & -> & Hlen & Hpos).
    destruct c as [s|q]; [discriminate|]. cbn.
    exists (q :: qs). split; [reflexivity|]. split; [cbn; congruence|].
    constructor; [by apply Qle_bool_iff | assumption].
Qed.

Lemma valid_level_cases s :
  valid_level s = true -> s = "h"%string \/ s = "l"%string \/ s = "v"%string.
Proof.
  unfold valid_level. rewrite !orb_true_iff, !String.eqb_eq. tauto.
Qed.

Lemma cast_nonneg (d : dtype) (v : Q) : 0 <= v -> 0 <= cast d v.
Proof.
  intros Hv. destruct d; [|exact Hv]. unfold cast, trunc.
  rewrite (proj2 (Qle_bool_iff 0 v) Hv).
  change 0 with (inject_Z 0). rewrite <- Zle_Qle.
  change 0%Z with (Qfloor 0). by apply Qfloor_resp_le.
Qed.

(** The two settings write constants that are not negative. *)
Lemma leveled_prior_nonneg (d : dtype) hiv malaria (p : list Q) :
  valid_level hiv = true -> valid_level malaria = true ->
  (44 < length p)%nat -> Forall (Qle 0) p ->
  exists p', (p1 ← apply_hiv d hiv p; apply_malaria d malaria p1) = Ok p' /\
    length p' = length p /\ Forall (Qle 0) p'.
Proof.
  intros Hh Hm Hlen Hpos.
  assert (K1 : 0 <= cast d 0.05) by (apply cast_nonneg; by apply Qle_bool_iff).
  assert (K2 : 0 <= cast d 0.005) by (apply cast_nonneg; by apply Qle_bool_iff).
  assert (K3 : 0 <= cast d 1e-05) by (apply cast_nonneg; by apply Qle_bool_iff).
  destruct (apply_hiv_levels d p) as (H1 & H2 & H3); [lia|].
  assert (exists c, apply_hiv d hiv p = Ok (<[22%nat := c]> p) /\ 0 <= c)
    as (c & -> & Hc).
  { destruct (valid_level_cases _ Hh) as [-> | [-> | ->]];
      eexists; (split; [eassumption|]); assumption. }
  cbn [mbind result_bind].
  assert (Hlen1 : (44 < length (<[22%nat := c]> p))%nat)
    by (rewrite length_insert; assumption).
  destruct (apply_malaria_levels d _ Hlen1) as (M1 & M2 & M3).
  assert (exists a b, apply_malaria d malaria (<[22%nat := c]> p)
                      = Ok (<[44%nat := b]> (<[24%nat := a]> (<[22%nat := c]> p)))
                      /\ 0 <= a /\ 0 <= b)
    as (a & b & -> & Ha & Hb).
  { destruct (valid_level_cases _ Hm) as [-> | [-> | ->]];
      eexists _, _; (split; [eassumption|]); split; assumption. }
  eexists. split; [reflexivity|]. split; [by rewrite !length_insert|].
  repeat apply Forall_insert; assumption.
Qed.

(** For a table graded in rows 0 and 2 and two valid settings, the table
    and the prior that [run] hands to the record loop meet the premises of
    the group-sum invariant. *)
Lemma graded_table_premises (t : table) row0 row2 hiv malaria :
  t !! 0%nat = Some row0 -> t !! 2%nat = Some row2 ->
  length row2 = length row0 -> (44 < length row0)%nat ->
  forallb is_grade (drop 17 row0) = true ->
  forallb is_grade (drop 17 row2) = true ->
  valid_level hiv = true -> valid_level malaria = true ->
  exists t' p,
    zero_metadata (substitute_grades t) = Ok t' /\
    build t' hiv malaria = Ok p /\
    numeric_row t' 2 (length p) /\
    Forall (Qle 0) (Inference.prob_of p).
Proof.
  intros H0 H2 Hlen H44 Hg0 Hg2 Hh Hm.
  destruct (graded_row_is_numeric t 0 row0 H0 Hg0) as (c0 & Hc0 & Hl0 & Hn0).
  destruct (graded_row_is_numeric t 2 row2 H2 Hg2) as (c2 & Hc2 & Hl2 & Hn2).
  destruct (zero_metadata (substitute_grades t)) as [t'|e] eqn:Hz.
  2: { destruct (substitute_grades t); [discriminate Hc0 | discriminate Hz]. }
  destruct (zero_metadata_rows _ _ Hz) as [Hother Hzero].
  specialize (Hzero c0 Hc0).
  destruct (to_numeric_row_nonneg (((fun _ => CNum 0) <$> take 17 c0) ++ drop 17 c0))
    as (qs & Hqs & Hql & Hqpos).
  { rewrite forallb_app, Hn0, andb_true_r. apply forallb_forall.
    intros c Hc. apply list_elem_of_In, list_elem_of_fmap in Hc as (? & -> & _).
    reflexivity. }
  assert (Hqlen : length qs = length row0).
  { rewrite Hql, length_app, length_fmap, length_take, length_drop. lia. }
  destruct (leveled_prior_nonneg (dtype_of qs) hiv malaria qs Hh Hm)
    as (p & Hp & Hpl & Hppos);
    [lia | assumption |].
  exists t', p. split; [reflexivity|]. split.
  - unfold build, getitem. rewrite Hzero. cbn [mbind result_bind].
    rewrite Hqs. cbn [mbind result_bind]. rewrite Hh, Hm. exact Hp.
  - split.
    + exists c2. rewrite Hother by lia. split; [assumption|].
      split; [congruence | assumption].
    + unfold Inference.prob_of. by apply Forall_drop.
Qed.

End GradedTableFacts.

(** C6.  With a non-negative prior and a non-negative row 2 of the table
    (the row every pass reads), the loop of [infer] reaches the end of each
    of its passes, and after the normalizations of pass [n], for every
    [n >= 1] up to the number of passes, each of the three groups sums to
    0 or to 1. *)
Theorem group_sums_after_each_update
    (probbaseV5 : table) (Sys_Prior : list Q) (new_input : list nat)
    (input_len n : nat) :
  Props.numeric_row probbaseV5 2 (length Sys_Prior) ->
  Forall (Qle 0) (Inference.prob_of Sys_Prior) ->
  (1 <= n <= length (Inference.temp new_input input_len))%nat ->
  exists prob,
    for_each (Inference.update probbaseV5 (length Sys_Prior))
             (take n (Inference.temp new_input input_len))
             (Inference.prob_of Sys_Prior) = Ok prob /\
    Inference.groups_normalized prob.
Proof.
  intros Hrow Hpos Hn.
  destruct (updates_ok probbaseV5 (length Sys_Prior)
              (take n (Inference.temp new_input input_len))
              (Inference.prob_of Sys_Prior))
    as (prob & E & _ & _ & Hg).
  - assumption.
  - apply Forall_take, temp_all_ones.
  - unfold Inference.prob_of. apply length_drop.
  - assumption.
  - exists prob. split; [assumption|]. apply Hg.
    intros Hnil. apply (f_equal length) in Hnil.
    rewrite length_take in Hnil. cbn in Hnil. lia.
Qed.

Lemma group_sums_after_each_update_witness :
  exists prob,
    for_each (Inference.update Samples.probbaseV5 (length Samples.Sys_Prior))
             (take 1 (Inference.temp Samples.flags_20 354))
             (Inference.prob_of Samples.Sys_Prior) = Ok prob /\
    Inference.groups_normalized prob.
Proof.
  refine (group_sums_after_each_update Samples.probbaseV5 Samples.Sys_Prior
            Samples.flags_20 354 1 _ _ _).
  - exists (Samples.graded_numeric_row 2).
    split; [vm_compute; reflexivity|]. split; vm_compute; reflexivity.
  - apply forallb_nonneg. vm_compute. reflexivity.
  - vm_compute. lia.
Defined.

(** When no position from 1 on is flagged informative, [infer] makes no
    pass: it returns the store it was given, whatever that store holds. *)
Lemma no_informative_symptom_keeps_prior
    (probbaseV5 : table) (Sys_Prior : list Q) (new_input : list nat)
    (input_len : nat) :
  (forall y, (1 <= y)%nat -> new_input !! y <> Some 1%nat) ->
  Inference.infer probbaseV5 Sys_Prior new_input input_len = Ok Sys_Prior /\
  Inference.prob_of Sys_Prior = drop 17 Sys_Prior.
Proof.
  intros Hno. split; [|reflexivity].
  unfold Inference.infer. rewrite (temp_without_flags _ _ Hno).
  cbn. unfold Inference.write_back, Inference.prob_of.
  rewrite take_drop. reflexivity.
Qed.

Lemma no_informative_symptom_keeps_prior_witness :
  Inference.infer Samples.probbaseV5 Samples.Sys_Prior (replicate 354 0%nat) 354
    = Ok Samples.Sys_Prior.
Proof.
  refine (proj1 (no_informative_symptom_keeps_prior Samples.probbaseV5
                   Samples.Sys_Prior (replicate 354 0%nat) 354 _)).
  intros y _ H. apply lookup_replicate in H as [H _]. discriminate.
Defined.

(** C1 (on the code).  With symptom 20 alone flagged, the specification
    multiplies by row 20 of the table, whose "A" is in cause column 21; the
    code multiplies by row 2, whose "A" is in cause column 20.  Entry 3 of
    the combined vector (index 20 of the store that [infer] returns) comes
    out as 10/241 instead of 4/241. *)
Theorem infer_reads_row_two_for_symptom_20 :
  Inference.flagged Samples.flags_20 354 = [20%nat] /\
  Inference.temp Samples.flags_20 354 = [1%nat] /\
  Samples.reduced_entry
    (Inference.infer Samples.probbaseV5 Samples.Sys_Prior Samples.flags_20 354) 20
    = Some (10 # 241) /\
  Samples.reduced_entry
    (Inference.infer_spec Samples.probbaseV5 Samples.Sys_Prior Samples.flags_20 354) 3
    = Some (4 # 241).
Proof. repeat split; vm_compute; reflexivity. Qed.

(** ** The record loop *)

Section ExclusionFacts.
Import Record_ Props.

(** After the canonicalization every answer is 0, 1 or missing. *)
Lemma canonical_has_no_text raw input_current :
  canonical raw = Ok input_current -> Forall not_text input_current.
Proof.
  unfold canonical, setitem. case_decide; [|discriminate]. intros [= <-].
  apply Forall_insert; [|exact I].
  unfold replace_eq. rewrite <- !list_fmap_compose.
  apply Forall_fmap, Forall_forall. intros x _. cbn.
  destruct x as [s|q|]; cbn; try exact I.
  repeat (match goal with |- context [String.eqb ?a ?b] =>
            destruct (String.eqb a b) eqn:?; cbn end);
    solve [exact I | discriminate | congruence].
Qed.

Lemma nansum_total l : Forall not_text l -> exists s, nansum l = Ok s.
Proof.
  intros H. unfold nansum.
  assert (exists v, mapM (fun x => match x with
                                   | ONum q => Ok q
                                   | ONan => Ok 0
                                   | OStr _ => Raise (TypeError "unsupported operand type(s) for +")
                                   end) l = Ok v) as [v ->].
  { induction H as [|x l Hx _ [v IH]]; [by exists []|].
    cbn. destruct x as [s|q|]; [destruct Hx| |]; cbn; rewrite IH; cbn; eauto. }
  cbn. eauto.
Qed.

(** On such a vector the three tests run without an exception. *)
Lemma exclusion_total input_current :
  Forall not_text input_current -> exists why, exclusion input_current = Ok why.
Proof.
  intros H. unfold exclusion.
  destruct (nansum_total (slice 5 12 input_current)) as [age ->];
    [by apply Forall_take, Forall_drop|]. cbn [mbind result_bind].
  destruct (Qltb age 1); [eauto|].
  destruct (nansum_total (slice 3 5 input_current)) as [sex ->];
    [by apply Forall_take, Forall_drop|]. cbn [mbind result_bind].
  destruct (Qltb sex 1); [eauto|].
  destruct (nansum_total (slice 20 328 input_current)) as [sym ->];
    [by apply Forall_take, Forall_drop|]. cbn [mbind result_bind].
  destruct (Qltb sym 1); eauto.
Qed.

(** A record is skipped exactly when one of the three ranges sums to less
    than 1. *)
Lemma exclusion_iff input_current age sex sym :
  nansum (slice 5 12 input_current) = Ok age ->
  nansum (slice 3 5 input_current) = Ok sex ->
  nansum (slice 20 328 input_current) = Ok sym ->
  (age < 1 \/ sex < 1 \/ sym < 1) <->
  exists reason, exclusion input_current = Ok (Some reason).
Proof.
  intros Ha Hs Hy. unfold exclusion. rewrite Ha. cbn [mbind result_bind].
  destruct (Qltb age 1) eqn:Ea.
  { apply Qltb_true in Ea. split; eauto. }
  apply Qltb_false in Ea. rewrite Hs. cbn [mbind result_bind].
  destruct (Qltb sex 1) eqn:Es.
  { apply Qltb_true in Es. split; eauto. }
  apply Qltb_false in Es. rewrite Hy. cbn [mbind result_bind].
  destruct (Qltb sym 1) eqn:Ey.
  { apply Qltb_true in Ey. split; eauto. }
  apply Qltb_false in Ey. split.
  - intros [?|[?|?]]; lra.
  - intros [? [=]].
Qed.

End ExclusionFacts.

Section RecordFacts.
Import Record_.

Variable datacheck5 : list obj -> obj -> list obj * list string * list string.
Variable save : string -> row -> result unit.
Variable prob_names : list string.

(** Without [write] an excluded record changes nothing: no row, no
    identifier, no reason kept, and the loop goes on from the same state. *)
Lemma excluded_record_is_skipped probbaseV5 d S hiv malaria output st i
    index_current raw input_current reason :
  canonical raw = Ok input_current ->
  exclusion input_current = Ok (Some reason) ->
  process_record datacheck5 save prob_names probbaseV5 d S hiv malaria output
                 false st (i, index_current, raw) = Ok st.
Proof.
  intros Hc He. unfold process_record. rewrite Hc. cbn [mbind result_bind].
  rewrite He. reflexivity.
Qed.

(** With [write] the reason is added to [errors], which is still [None]:
    the addition raises and the loop stops. *)
Lemma excluded_record_raises_when_writing probbaseV5 d S hiv malaria output
    st i index_current raw input_current reason :
  canonical raw = Ok input_current ->
  exclusion input_current = Ok (Some reason) ->
  errors st = VNone ->
  process_record datacheck5 save prob_names probbaseV5 d S hiv malaria output
                 true st (i, index_current, raw) =
    Raise (TypeError "unsupported operand type(s) for +: 'NoneType' and 'str'").
Proof.
  intros Hc He Hn. unfold process_record. rewrite Hc. cbn [mbind result_bind].
  rewrite He. unfold add_reason. rewrite Hn. reflexivity.
Qed.

(** An accepted record hands the store it has updated to the next one. *)
Lemma accepted_record_passes_its_store probbaseV5 d S hiv malaria output write
    st st' i index_current input_current :
  classify_record datacheck5 save prob_names probbaseV5 d S hiv malaria output
                  write i index_current input_current st = Ok st' ->
  exists flags len,
    Inference.infer_as d probbaseV5 (Sys_Prior st) flags len = Ok (Sys_Prior st').
Proof.
  unfold classify_record.
  destruct (datacheck5 input_current index_current) as [[checked fp] sp].
  destruct (subst_vector probbaseV5) as [subst|]; [|discriminate]. cbn.
  destruct (new_input S checked subst) as [flags|]; [|discriminate]. cbn.
  destruct (substituted checked) as [ic|]; [|discriminate]. cbn.
  destruct (reproductiveAge ic) as [repro|]; [|discriminate]. cbn.
  destruct (Inference.infer_as d probbaseV5 (Sys_Prior st) flags (length ic))
    as [prior'|] eqn:E; [|discriminate]. cbn.
  destruct (Pregnancy.classify _ _) as [[? ?]|]; [|discriminate]. cbn.
  destruct (Ranker.rank _ _) as [r|]; [|discriminate]. cbn.
  destruct (Comorbidity.classify _ _) as [[? ?]|]; [|discriminate]. cbn.
  destruct (if write then _ else _); [|discriminate]. cbn.
  intros [= <-]. exists flags, (length ic). exact E.
Qed.

End RecordFacts.

(** C5 (on the code).  [prob] is a view of [Sys_Prior], so the pass made for
    one record is written into the prior the next record reads.  Run alone,
    the record without informative symptom gets the prior as its combined
    vector; run after the record with one informative symptom, it gets that
    record's updated vector instead (entry 3: 10/241, not 1/5). *)
Theorem prior_is_shared_between_records :
  Samples.wholeprobs
    (Samples.run_sample (Samples.config_of false None [Samples.rec_plain]))
    = [Inference.prob_of Samples.Sys_Prior] /\
  Samples.wholeprobs
    (Samples.run_sample
       (Samples.config_of false None [Samples.rec_informative; Samples.rec_plain]))
    = [Inference.prob_of Samples.posterior; Inference.prob_of Samples.posterior] /\
  Samples.reduced_entry (Ok Samples.Sys_Prior) 20 = Some (1 # 5) /\
  Samples.reduced_entry (Ok Samples.posterior) 20 = Some (10 # 241).
Proof. repeat split; vm_compute; reflexivity. Qed.

(** C7 (on the code).  The record [Samples.rec_plain] is accepted and has no
    informative symptom: none of its positions is flagged and the loop makes
    no pass for it.  Run alone, its combined vector is the prior built from
    the table and the settings, as the claim says.  Run after a record with
    an informative symptom, its combined vector is the store as that record
    left it (entry 3: 10/241), not the prior (1/5): "no update" leaves the
    record with whatever the shared store holds. *)
Theorem uninformative_record_reads_updated_store :
  (exists subst,
     Record_.subst_vector Samples.probbaseV5 = Ok subst /\
     Record_.new_input 354 (Cases.checked Samples.rec_plain) subst
       = Ok (replicate 354 0%nat)) /\
  Samples.wholeprobs
    (Samples.run_sample (Samples.config_of false None [Samples.rec_plain]))
    = [drop 17 Samples.Sys_Prior] /\
  last (Samples.wholeprobs
          (Samples.run_sample
             (Samples.config_of false None
                [Samples.rec_informative; Samples.rec_plain])))
    = Some (drop 17 Samples.posterior) /\
  Samples.reduced_entry (Ok (drop 17 Samples.Sys_Prior)) 3 = Some (1 # 5) /\
  Samples.reduced_entry (Ok (drop 17 Samples.posterior)) 3 = Some (10 # 241).
Proof.
  split.
  { eexists. split; vm_compute; reflexivity. }
  repeat split; vm_compute; reflexivity.
Qed.

(** C8 (on the code).  A record with no age group answered, followed by an
    acceptable one.  With [write] the run stops at the excluded record with
    a [TypeError].  Without [write] the run ends normally, nothing is
    logged, and the result frame keeps an empty row at the position of the
    excluded record; when every record is excluded the frame has no column
    and naming its columns raises. *)
Theorem excluded_record_breaks_the_run :
  Samples.run_sample
    (Samples.config_of true (Some "out"%string) [Samples.rec_no_age; Samples.rec_plain])
    = Raise (TypeError "unsupported operand type(s) for +: 'NoneType' and 'str'") /\
  Samples.summary
    (Samples.run_sample
       (Samples.config_of false None [Samples.rec_no_age; Samples.rec_plain]))
    = Some ([OStr "d2"], [None; Some (OStr "d2")], []) /\
  Samples.run_sample (Samples.config_of false None [Samples.rec_no_age])
    = Raise (ValueError "Length mismatch: Expected axis has 0 elements, new values have 15 elements").
Proof. repeat split; vm_compute; reflexivity. Qed.

(** ** Input without records *)




(** * Further properties of the code *)

(** ** Lists built and loops run in the error monad *)

Section MapFacts.

Lemma mapM_Ok_lookup {A B} (f : A -> result B) (l : list A) : forall ys,
  mapM f l = Ok ys ->
  length ys = length l /\
  forall i x, l !! i = Some x -> exists y, ys !! i = Some y /\ f x = Ok y.
Proof.
  induction l as [|a l IH]; intros ys H.
  - injection H as <-. split; [reflexivity|]. intros i x Hx. discriminate.
  - cbn [mapM] in H. destruct (f a) as [b|] eqn:Ea; [|discriminate].
    cbn [mbind result_bind] in H.
    destruct (mapM f l) as [k|]; [|discriminate].
    injection H as <-. destruct (IH k eq_refl) as [Hlen Hk].
    split; [cbn; lia|]. intros [|i] x Hx.
    + injection Hx as <-. eauto.
    + apply (Hk i x Hx).
Qed.

Lemma mapM_total {A B} (f : A -> result B) (l : list A) :
  (forall x, x ∈ l -> exists y, f x = Ok y) -> exists ys, mapM f l = Ok ys.
Proof.
  induction l as [|a l IH]; intros H; [by eexists|].
  destruct (H a) as [b Hb]; [apply list_elem_of_here|].
  destruct IH as [k Hk]; [intros x Hx; apply H; by apply list_elem_of_further|].
  exists (b :: k). cbn [mapM]. rewrite Hb. cbn [mbind result_bind]. rewrite Hk.
  reflexivity.
Qed.

(** A property kept by every step that succeeds holds when the loop ends. *)
Lemma for_each_invariant {S X} (I : S -> Prop) (body : S -> X -> result S)
    (xs : list X) :
  (forall st x st', x ∈ xs -> I st -> body st x = Ok st' -> I st') ->
  forall st st', I st -> for_each body xs st = Ok st' -> I st'.
Proof.
  induction xs as [|x xs IH]; intros Hbody st st' Hst H.
  - injection H as <-. exact Hst.
  - cbn [for_each] in H. destruct (body st x) as [st1|] eqn:E; [|discriminate].
    cbn [mbind result_bind] in H. apply (IH) with (st := st1).
    + intros s y s' Hy. apply Hbody. by apply list_elem_of_further.
    + apply (Hbody st x st1); [apply list_elem_of_here | exact Hst | exact E].
    + exact H.
Qed.

(** Deleting the positions at which a property holds keeps the entries at
    which it fails, in order. *)
Lemma delete_at_filter {A} (Q : A -> Prop) `{!forall x, Decision (Q x)}
    (idx : list nat) (l : list A) : forall k,
  (forall i x, l !! i = Some x -> (k + i)%nat ∈ idx <-> Q x) ->
  snd <$> filter (fun p => p.1 ∉ idx) (imap (fun i x => ((k + i)%nat, x)) l)
    = filter (fun x => ~ Q x) l.
Proof.
  induction l as [|x l IH]; intros k Hidx; [reflexivity|].
  rewrite imap_cons.
  assert (Hx : (k + 0)%nat ∈ idx <-> Q x) by (apply Hidx; reflexivity).
  assert (Hl : snd <$> filter (fun p => p.1 ∉ idx)
                        (imap ((fun i x => ((k + i)%nat, x)) ∘ S) l)
               = filter (fun x => ~ Q x) l).
  { rewrite <- (IH (S k)).
    - do 2 f_equal. apply imap_ext. intros i y _. cbn. f_equal. lia.
    - intros i y Hy. rewrite <- (Hidx (S i) y Hy).
      replace (S k + i)%nat with (k + S i)%nat by lia. reflexivity. }
  destruct (decide (Q x)) as [HQ|HQ].
  - rewrite filter_cons_False by (cbn; tauto).
    rewrite filter_cons_False by tauto. exact Hl.
  - rewrite filter_cons_True by (cbn; tauto).
    rewrite (filter_cons_True (fun x => ~ Q x)) by assumption.
    cbn. f_equal. exact Hl.
Qed.

Lemma filter_nil_none {A} (P : A -> Prop) `{!forall x, Decision (P x)} (l : list A) :
  filter P l = [] -> Forall (fun x => ~ P x) l.
Proof.
  intros Hnil. apply Forall_forall. intros x Hx HP.
  assert (Hin : x ∈ filter P l) by (apply list_elem_of_filter; auto).
  rewrite Hnil in Hin. by apply not_elem_of_nil in Hin.
Qed.

End MapFacts.

(** ** What [run] needs to return *)

Ltac raise_step :=
  match goal with
  | |- raises (Raise _) => eexists; reflexivity
  | |- raises (mbind _ ?m) =>
      let E := fresh "E" in destruct m eqn:E; cbn [mbind result_bind]
  | |- raises (if ?b then _ else _) =>
      let E := fresh "E" in destruct b eqn:E
  end.

Section RunFacts.
Import Record_ Run.

Variable probbase_default : table.
Variable valabels : list string.
Variable datacheck5 : list obj -> obj -> list obj * list string * list string.
Variable save : string -> row -> result unit.
Variable prob_names : list string.

(** With [write] set, [run] ends in an exception on every path: at the
    latest when the text handed to [info] is concatenated with the list
    [first_pass]. *)
Lemma writing_run_raises (c : config) :
  write c = true ->
  raises (run probbase_default valabels datacheck5 save prob_names c).
Proof.
  intros Hw. unfold run. rewrite Hw. repeat raise_step.
Qed.

(** X1.  What every call of [run] that returns has met: nothing is written
    ([write] is off), there is at least one record, the table is loaded
    and has as many rows as the input has columns (354 rows and 87 columns
    when it is given as [sci]), the last column is named "i459o" up to
    case, both settings are one of "h", "l", "v" up to case, and the
    dictionary returned echoes the two settings in lower case. *)
Theorem run_returns_only_if (c : config) (o : out) :
  run probbase_default valabels datacheck5 save prob_names c = Ok o ->
  write c = false /\
  va_data c <> [] /\
  (exists t, load_probbase probbase_default c = Ok t /\
             length (va_columns c) = nrows t) /\
  (forall t, sci c = Some t ->
             nrows t = 354%nat /\ ncols t = 87%nat /\
             length (va_columns c) = 354%nat) /\
  lower <$> last (va_columns c) = Some "i459o"%string /\
  Prior.valid_level (lower (hiv c)) = true /\
  Prior.valid_level (lower (malaria c)) = true /\
  out_HIV o = lower (hiv c) /\ out_Malaria o = lower (malaria c).
Proof.
  unfold run. intros H.
  destruct (bool_decide (directory c = None) && write c); [discriminate|].
  destruct (load_probbase probbase_default c) as [t|] eqn:Hload; [|discriminate].
  cbn [mbind result_bind] in H.
  destruct (at_ t 0 2); [|discriminate]. cbn [mbind result_bind] in H.
  destruct (bool_decide (_ ∈ va_columns c)); [discriminate|].
  destruct (if (length _ =? 0)%nat then _ else _) as [ids|]; [|discriminate].
  cbn [mbind result_bind] in H.
  destruct (length (va_data c) <? 1)%nat eqn:HN; [discriminate|].
  destruct (length _ =? nrows t)%nat eqn:HS; [|discriminate]. cbn [negb] in H.
  destruct (getitem _ _) as [lst|] eqn:Hlast; [|discriminate].
  cbn [mbind result_bind] in H.
  destruct (String.eqb (lower lst) "i459o") eqn:Hname; [|discriminate].
  cbn [negb] in H.
  destruct (label_warnings _ _ _) as [w|]; [|discriminate].
  cbn [mbind result_bind] in H.
  destruct (zero_metadata _) as [t'|]; [|discriminate].
  cbn [mbind result_bind] in H.
  destruct (Prior.build t' _ _) as [p|] eqn:Hbuild; [|discriminate].
  cbn [mbind result_bind] in H.
  destruct (write_header c); [|discriminate]. cbn [mbind result_bind] in H.
  destruct (for_each _ _ _) as [st|]; [|discriminate].
  cbn [mbind result_bind] in H.
  destruct (write c) eqn:Hw; [discriminate|].
  destruct (frame _) as [VA5|]; [|discriminate]. cbn [mbind result_bind] in H.
  injection H as <-. cbn [out_HIV out_Malaria].
  apply Nat.eqb_eq in HS.
  split; [reflexivity|]. split.
  { intros Hnil. rewrite Hnil in HN. discriminate. }
  split; [eauto|]. split.
  { intros t0 Hsci. unfold load_probbase in Hload. rewrite Hsci in Hload.
    destruct (nrows t0 =? 354)%nat eqn:E1; [|discriminate].
    destruct (ncols t0 =? 87)%nat eqn:E2; [|discriminate].
    injection Hload as <-. apply Nat.eqb_eq in E1, E2. auto with lia. }
  split.
  { unfold getitem in Hlast.
    destruct (va_columns c !! (length (va_columns c) - 1)%nat) as [x|] eqn:Hx;
      [|discriminate].
    injection Hlast as <-. rewrite last_lookup.
    replace (pred (length (va_columns c))) with (length (va_columns c) - 1)%nat
      by lia.
    rewrite Hx. cbn. f_equal. by apply String.eqb_eq. }
  unfold Prior.build in Hbuild.
  destruct (getitem t' 0); [|discriminate]. cbn [mbind result_bind] in Hbuild.
  destruct (to_numeric_row _); [|discriminate]. cbn [mbind result_bind] in Hbuild.
  destruct (Prior.valid_level (lower (hiv c)));
    destruct (Prior.valid_level (lower (malaria c))); try discriminate.
  auto.
Qed.

(** A run that returns has gone through the record loop; the identifiers
    and the rows it returns are those the loop has collected, less the
    positions of the missing identifiers. *)
Lemma run_loop (c : config) (o : out) :
  run probbase_default valabels datacheck5 save prob_names c = Ok o ->
  exists t' d S p ids st,
    mapM (fun r : list obj => getitem r 0) (va_data c) = Ok ids /\
    for_each (process_record datacheck5 save prob_names t' d S
                (lower (hiv c)) (lower (malaria c)) (output c) (write c))
             (zip (zip (seq 0 (length (va_data c))) ids) (va_data c))
             (State p VNone [] (replicate (length (va_data c)) None) [] [])
      = Ok st /\
    out_ID o = drop_rows (nan_indices (ID_list st)) (ID_list st) /\
    out_VA5 o = drop_rows (nan_indices (ID_list st)) (VA_result st) /\
    out_HIV o = lower (hiv c) /\ out_Malaria o = lower (malaria c).
Proof.
  unfold run. intros H.
  destruct (bool_decide (directory c = None) && write c); [discriminate|].
  destruct (load_probbase probbase_default c) as [t|]; [|discriminate].
  cbn [mbind result_bind] in H.
  destruct (at_ t 0 2); [|discriminate]. cbn [mbind result_bind] in H.
  destruct (bool_decide (_ ∈ va_columns c)); [discriminate|].
  destruct (length _ =? 0)%nat; [discriminate|].
  destruct (mapM _ (va_data c)) as [ids|] eqn:Hids; [|discriminate].
  cbn [mbind result_bind] in H.
  destruct (length (va_data c) <? 1)%nat; [discriminate|].
  destruct (negb _); [discriminate|].
  destruct (getitem _ _); [|discriminate]. cbn [mbind result_bind] in H.
  destruct (negb _); [discriminate|].
  destruct (label_warnings _ _ _); [|discriminate]. cbn [mbind result_bind] in H.
  destruct (zero_metadata _) as [t'|]; [|discriminate].
  cbn [mbind result_bind] in H.
  destruct (Prior.build t' _ _) as [p|]; [|discriminate].
  cbn [mbind result_bind] in H.
  destruct (write_header c); [|discriminate]. cbn [mbind result_bind] in H.
  destruct (for_each _ _ _) as [st|] eqn:Hloop; [|discriminate].
  cbn [mbind result_bind] in H.
  destruct (write c); [discriminate|].
  unfold frame in H. destruct (existsb _ _); [|discriminate].
  cbn [mbind result_bind] in H. injection H as <-.
  eexists t', _, _, p, ids, st. split; [reflexivity|]. split; [exact Hloop|].
  cbn. auto.
Qed.

End RunFacts.

Section RunCases.
Import Record_ Run.

Lemma run_returns_only_if_witness :
  write Cases.plain_config = false /\
  va_data Cases.plain_config <> [] /\
  (exists t, load_probbase [] Cases.plain_config = Ok t /\
             length (va_columns Cases.plain_config) = nrows t) /\
  (forall t, sci Cases.plain_config = Some t ->
             nrows t = 354%nat /\ ncols t = 87%nat /\
             length (va_columns Cases.plain_config) = 354%nat) /\
  lower <$> last (va_columns Cases.plain_config) = Some "i459o"%string /\
  Prior.valid_level (lower (hiv Cases.plain_config)) = true /\
  Prior.valid_level (lower (malaria Cases.plain_config)) = true /\
  out_HIV Cases.plain_out = lower (hiv Cases.plain_config) /\
  out_Malaria Cases.plain_out = lower (malaria Cases.plain_config).
Proof.
  apply (run_returns_only_if [] Samples.names Samples.no_check Samples.accept
           Samples.prob_names Cases.plain_config Cases.plain_out).
  vm_compute. reflexivity.
Defined.

End RunCases.

(** ** The caller [runCCVA] *)

Section CCVAFacts.
Import Record_ Run CCVA.

Variable odk : Type.
Variable transform : odk -> option string -> list string * list (list obj).
Variable csmf : out -> nat -> option string -> option string -> list (string * Q).
Variable concat_columns : list (list (string * Q)) -> list string * list (list Q).
Variable probbase_default : table.
Variable valabels : list string.
Variable datacheck5 : list obj -> obj -> list obj * list string * list string.
Variable save : string -> row -> result unit.
Variable prob_names : list string.

(** X2.  [runCCVA] never returns its dictionary: it builds the [InterVA5]
    object with [write=True], and a run that writes ends in an exception
    whatever the data, the settings and the collaborators are. *)
Theorem runCCVA_never_returns (odk_raw : odk) (id_col : option string)
    (top : nat) (undetermined : bool) (malaria hiv : string) :
  raises (runCCVA odk transform csmf concat_columns probbase_default valabels
                  datacheck5 save prob_names odk_raw id_col top undetermined
                  malaria hiv).
Proof.
  unfold runCCVA.
  destruct (writing_run_raises probbase_default valabels datacheck5 save
              prob_names
              (Config (transform odk_raw id_col).1 (transform odk_raw id_col).2
                      hiv malaria true (Some "."%string) "classic" false None)
              eq_refl) as [e He].
  exists e. rewrite He. reflexivity.
Qed.

Lemma elem_of_undetermined_at (index : list string) i :
  i ∈ undetermined_at index <-> index !! i = Some "Undetermined"%string.
Proof.
  unfold undetermined_at. rewrite list_elem_of_fmap. split.
  - intros ([j s] & -> & [Hs Hin]%list_elem_of_filter). cbn in *. subst s.
    apply elem_of_lookup_imap in Hin as (j' & s' & [= -> ->] & Hl). exact Hl.
  - intros Hl. exists (i, "Undetermined"%string). split; [reflexivity|].
    apply list_elem_of_filter. split; [reflexivity|].
    apply elem_of_lookup_imap. eauto.
Qed.

Lemma delete_at_shift_fmap {A B} (f : A -> B) (idx : list nat) (l : list A) :
  forall k,
  snd <$> filter (fun p => p.1 ∉ idx) (imap (fun i x => ((k + i)%nat, x)) (f <$> l))
    = f <$> (snd <$> filter (fun p => p.1 ∉ idx)
                       (imap (fun i x => ((k + i)%nat, x)) l)).
Proof.
  induction l as [|x l IH]; intros k; [reflexivity|].
  rewrite fmap_cons, !imap_cons.
  assert (Hl : forall {C} (m : list C),
             imap ((fun i x => ((k + i)%nat, x)) ∘ S) m
             = imap (fun i x => ((S k + i)%nat, x)) m).
  { intros C m. apply imap_ext. intros i y _. cbn. f_equal. lia. }
  rewrite !Hl.
  destruct (decide ((k + 0)%nat ∈ idx)).
  - rewrite !filter_cons_False by (cbn; tauto). exact (IH (S k)).
  - rewrite !filter_cons_True by (cbn; tauto).
    rewrite !fmap_cons. cbn [snd]. f_equal. exact (IH (S k)).
Qed.

Lemma delete_at_fmap {A B} (f : A -> B) (idx : list nat) (l : list A) :
  delete_at idx (f <$> l) = f <$> delete_at idx l.
Proof. apply (delete_at_shift_fmap f idx l 0). Qed.

Lemma delete_undetermined (s : list (string * Q)) :
  delete_at (undetermined_at (fst <$> s)) (fst <$> s)
    = fst <$> filter (fun p => p.1 <> "Undetermined"%string) s /\
  delete_at (undetermined_at (fst <$> s)) (snd <$> s)
    = snd <$> filter (fun p => p.1 <> "Undetermined"%string) s.
Proof.
  assert (H : delete_at (undetermined_at (fst <$> s)) s
              = filter (fun p => p.1 <> "Undetermined"%string) s).
  { unfold delete_at.
    apply (delete_at_filter (fun p : string * Q => p.1 = "Undetermined"%string)
             _ s 0%nat).
    intros i x Hx. cbn [Nat.add].
    rewrite elem_of_undetermined_at, list_lookup_fmap, Hx.
    cbn. split; [intros [= ->]; reflexivity | intros ->; reflexivity]. }
  rewrite <- H, !delete_at_fmap. auto.
Qed.

Lemma undetermined_at_nil (index : list string) :
  length (undetermined_at index) = 0%nat <-> "Undetermined"%string ∉ index.
Proof.
  rewrite length_zero_iff_nil. split.
  - intros Hnil [i Hi]%list_elem_of_lookup_1.
    apply elem_of_undetermined_at in Hi. rewrite Hnil in Hi.
    by apply not_elem_of_nil in Hi.
  - intros Hno. destruct (undetermined_at index) as [|i l] eqn:E; [reflexivity|].
    exfalso. apply Hno. apply (list_elem_of_lookup_2 _ i).
    apply elem_of_undetermined_at. rewrite E. apply list_elem_of_here.
Qed.

(** X3.  One block of [runCCVA] (all, male, female, adult, child, neonate).
    With [undetermined] set it reports the [top] causes as [csmf] gives
    them.  With [undetermined] off it hands [top + 1] on to the next block
    in every case; it reports the [top + 1] causes without the entries
    named "Undetermined", in their order, when there is such an entry, and
    otherwise still the [top] causes. *)
Theorem group_reports (series : nat -> list (string * Q)) (top : nat) :
  group series top true = ((fst <$> series top, snd <$> series top), top) /\
  ("Undetermined"%string ∉ (fst <$> series (top + 1)%nat) ->
   group series top false
     = ((fst <$> series top, snd <$> series top), (top + 1)%nat)) /\
  ("Undetermined"%string ∈ (fst <$> series (top + 1)%nat) ->
   exists kept,
     kept = filter (fun p => p.1 <> "Undetermined"%string) (series (top + 1)%nat) /\
     group series top false = ((fst <$> kept, snd <$> kept), (top + 1)%nat) /\
     "Undetermined"%string ∉ (fst <$> kept)).
Proof.
  split; [reflexivity|]. unfold group. cbn [negb]. split.
  - intros Hno. apply undetermined_at_nil in Hno.
    rewrite bool_decide_eq_false_2 by tauto. reflexivity.
  - intros Hin. eexists. split; [reflexivity|].
    rewrite bool_decide_eq_true_2 by (rewrite undetermined_at_nil; tauto).
    destruct (delete_undetermined (series (top + 1)%nat)) as [-> ->].
    split; [reflexivity|].
    intros [p [Hp Hin']]%list_elem_of_fmap.
    apply list_elem_of_filter in Hin' as [Hne _]. congruence.
Qed.

End CCVAFacts.

(** ** The accessors of the settings *)

Section SettingsFacts.
Import Run Settings Prior.

Lemma lower_ascii_idem (a : ascii) : lower_ascii (lower_ascii a) = lower_ascii a.
Proof.
  destruct a as [[] [] [] [] [] [] [] []]; reflexivity.
Qed.

Lemma lower_idem (s : string) : lower (lower s) = lower s.
Proof.
  induction s as [|a s IH]; [reflexivity|].
  cbn. rewrite lower_ascii_idem, IH. reflexivity.
Qed.

(** X4.  [set_hiv] and [set_malaria] return the setting the object holds
    after the call.  A level that is "h", "l" or "v" up to case is stored
    in lower case and nothing else of the object changes; any other level
    leaves the object as it was.  Either way a setting that [run] accepts
    before the call is one that [run] accepts after it. *)
Theorem setters_keep_settings_valid (c : config) (level : string) :
  ((set_hiv c level).2 = get_hiv (set_hiv c level).1 /\
   (set_malaria c level).2 = get_malaria (set_malaria c level).1) /\
  (valid_level (lower level) = true ->
     (set_hiv c level).1 = with_hiv c (lower level) /\
     (set_malaria c level).1 = with_malaria c (lower level)) /\
  (valid_level (lower level) = false ->
     (set_hiv c level).1 = c /\ (set_malaria c level).1 = c) /\
  (valid_level (lower (hiv c)) = true ->
     valid_level (lower (hiv (set_hiv c level).1)) = true) /\
  (valid_level (lower (malaria c)) = true ->
     valid_level (lower (malaria (set_malaria c level).1)) = true).
Proof.
  unfold set_hiv, set_malaria, get_hiv, get_malaria.
  destruct (valid_level (lower level)) eqn:E; cbn [fst snd].
  - split; [auto|]. split; [auto|]. split; [discriminate|].
    cbn [hiv malaria with_hiv with_malaria]. rewrite lower_idem, E. auto.
  - split; [auto|]. split; [discriminate|]. auto.
Qed.

End SettingsFacts.

(** ** Canonical answers and the exclusion tests *)

Section AnswerFacts.
Import Record_ Answers.

Lemma canonical_value_passes (x : obj) :
  replace_eq (OStr "1") (ONum 1)
    (replace_eq (OStr "0") (ONum 0)
       ((fun x => if negb (obj_eq x (OStr "0")) && negb (obj_eq x (OStr "1"))
                  then ONan else x) <$>
        replace_eq (OStr "Y") (OStr "1")
          (replace_eq (OStr "y") (OStr "1")
             (replace_eq (OStr "N") (OStr "0")
                (replace_eq (OStr "n") (OStr "0") [x])))))
  = [canonical_value x].
Proof.
  destruct x as [s|q|]; [|reflexivity..].
  destruct (String.eqb s "n") eqn:E1;
    [apply String.eqb_eq in E1; subst; reflexivity|].
  destruct (String.eqb s "N") eqn:E2;
    [apply String.eqb_eq in E2; subst; reflexivity|].
  destruct (String.eqb s "y") eqn:E3;
    [apply String.eqb_eq in E3; subst; reflexivity|].
  destruct (String.eqb s "Y") eqn:E4;
    [apply String.eqb_eq in E4; subst; reflexivity|].
  destruct (String.eqb s "0") eqn:E5;
    [apply String.eqb_eq in E5; subst; reflexivity|].
  destruct (String.eqb s "1") eqn:E6;
    [apply String.eqb_eq in E6; subst; reflexivity|].
  unfold replace_eq, canonical_value, affirmative, negative.
  repeat (progress (cbn; rewrite ?E1, ?E2, ?E3, ?E4, ?E5, ?E6)).
  reflexivity.
Qed.

(** The seven passes over a record amount to one pass over each answer. *)
Lemma canonical_passes (raw : list obj) :
  replace_eq (OStr "1") (ONum 1)
    (replace_eq (OStr "0") (ONum 0)
       ((fun x => if negb (obj_eq x (OStr "0")) && negb (obj_eq x (OStr "1"))
                  then ONan else x) <$>
        replace_eq (OStr "Y") (OStr "1")
          (replace_eq (OStr "y") (OStr "1")
             (replace_eq (OStr "N") (OStr "0")
                (replace_eq (OStr "n") (OStr "0") raw)))))
  = canonical_value <$> raw.
Proof.
  induction raw as [|x raw IH]; [reflexivity|].
  pose proof (canonical_value_passes x) as Hx.
  unfold replace_eq in *. rewrite !fmap_cons in *.
  injection Hx as Hx. rewrite Hx, IH. reflexivity.
Qed.

(** X5.  The normalization of a record (lines 281-293) is a map over its
    answers: "y", "Y" and "1" become the number 1, "n", "N" and "0" the
    number 0, everything else (numbers included) a missing value; then
    position 0, the identifier, is set to 0.  A record without any column
    raises [IndexError]. *)
Theorem canonical_is_pointwise (raw : list obj) :
  canonical raw =
    if decide (raw = []) then Raise IndexError
    else Ok (<[0%nat := ONum 0]> (canonical_value <$> raw)).
Proof.
  unfold canonical. rewrite canonical_passes. unfold setitem.
  rewrite length_fmap. destruct raw as [|x raw].
  - reflexivity.
  - rewrite decide_True by (cbn; lia). rewrite decide_False by discriminate.
    reflexivity.
Qed.

Lemma nansum_canonical (l : list obj) :
  nansum (canonical_value <$> l) = Ok (sum (yes_value <$> l)).
Proof.
  unfold nansum.
  assert (mapM (fun x => match x with
                         | ONum q => Ok q
                         | ONan => Ok 0
                         | OStr _ => Raise (TypeError "unsupported operand type(s) for +")
                         end) (canonical_value <$> l) = Ok (yes_value <$> l)) as ->;
    [|reflexivity].
  induction l as [|x l IH]; [reflexivity|].
  rewrite !fmap_cons. cbn [mapM]. rewrite IH.
  unfold canonical_value, yes_value.
  destruct (affirmative x); [reflexivity|]. destruct (negative x); reflexivity.
Qed.

(** A sum of canonical answers is below 1 exactly when none is a yes. *)
Lemma sum_yes_values (l : list obj) :
  Qltb (sum (yes_value <$> l)) 1 = negb (existsb affirmative l).
Proof.
  assert (H : 0 <= sum (yes_value <$> l) /\
              (existsb affirmative l = false -> sum (yes_value <$> l) == 0) /\
              (existsb affirmative l = true -> 1 <= sum (yes_value <$> l))).
  { induction l as [|x l (IH0 & IHf & IHt)].
    - unfold sum. cbn. split; [lra|]. split; [intros; lra | discriminate].
    - rewrite fmap_cons. cbn [existsb].
      pose proof (sum_cons (yes_value x) (yes_value <$> l)) as Hs.
      set (t := sum (yes_value x :: (yes_value <$> l))) in *.
      set (r := sum (yes_value <$> l)) in *.
      unfold yes_value in Hs.
      destruct (affirmative x); cbn [orb].
      + split; [lra|]. split; [discriminate | intros _; lra].
      + split; [lra|]. split.
        * intros Hf. specialize (IHf Hf). lra.
        * intros Ht. specialize (IHt Ht). lra. }
  destruct H as (_ & Hf & Ht).
  destruct (existsb affirmative l); cbn [negb].
  - apply Qltb_false. auto.
  - apply Qltb_true. rewrite Hf by reflexivity. lra.
Qed.

Lemma slice_canonical lo hi (raw : list obj) :
  (1 <= lo)%nat ->
  slice lo hi (<[0%nat := ONum 0]> (canonical_value <$> raw))
    = canonical_value <$> slice lo hi raw.
Proof.
  intros Hlo. unfold slice. rewrite drop_insert_lt by lia.
  rewrite fmap_take, fmap_drop. reflexivity.
Qed.

(** X6.  The three exclusion tests never raise on a normalized record and
    can be read on the raw answers: the record is skipped for its age when
    no answer at positions 5 to 11 is a yes ("y", "Y" or "1"), else for its
    sex when none at positions 3 and 4 is, else for its symptoms when none
    at positions 20 to 327 is; otherwise it is accepted.  Answers past the
    end of a short record count as not given. *)
Theorem exclusion_reads_raw_answers (raw input_current : list obj) :
  canonical raw = Ok input_current ->
  exclusion input_current = Ok (skipped_for raw).
Proof.
  unfold canonical. rewrite canonical_passes. unfold setitem.
  case_decide; [|discriminate]. intros [= <-].
  unfold exclusion, skipped_for.
  rewrite !slice_canonical by lia. rewrite !nansum_canonical.
  cbn [mbind result_bind]. rewrite !sum_yes_values.
  repeat (match goal with |- context [existsb affirmative ?l] =>
            destruct (existsb affirmative l) end; cbn [negb]); reflexivity.
Qed.

Lemma exclusion_reads_raw_answers_witness :
  exclusion (Cases.checked Samples.rec_no_age)
    = Ok (skipped_for Samples.rec_no_age).
Proof.
  apply (exclusion_reads_raw_answers Samples.rec_no_age
           (Cases.checked Samples.rec_no_age)).
  vm_compute. reflexivity.
Defined.

(** ** Informative symptoms and reproductive age *)

Lemma subst_vector_ok (probbaseV5 : table) :
  forallb (fun cells : list cell => (5 <? length cells)%nat) probbaseV5 = true ->
  exists subst, subst_vector probbaseV5 = Ok subst /\
    length subst = length probbaseV5 /\
    forall y cells, probbaseV5 !! y = Some cells ->
      exists c, cells !! 5%nat = Some c /\
        subst !! y = Some (if cell_is "Y" c then ONum 1
                           else if cell_is "N" c then ONum 0 else ONan).
Proof.
  intros Hw. rewrite forallb_forall in Hw. unfold subst_vector, column.
  destruct (mapM_total (fun row : list cell => getitem row 5) probbaseV5) as [col Hcol].
  { intros cells Hin. apply list_elem_of_In, Hw, Nat.ltb_lt in Hin.
    unfold getitem. destruct (lookup_lt_is_Some_2 cells 5%nat Hin) as [c ->]. eauto. }
  rewrite Hcol. cbn [mbind result_bind]. eexists. split; [reflexivity|].
  destruct (mapM_Ok_lookup _ _ _ Hcol) as [Hlen Hk].
  split; [by rewrite length_fmap|].
  intros y cells Hy. destruct (Hk y cells Hy) as (c & Hc & Hg).
  exists c. unfold getitem in Hg. destruct (cells !! 5%nat); [|discriminate].
  injection Hg as ->. split; [reflexivity|].
  rewrite list_lookup_fmap, Hc. reflexivity.
Qed.

(** X7.  For a table whose rows have a column 5 and a checked record with
    an answer for each of the [S] rows, the substitution vector and the
    flags are computed without exception, there is one flag per row, each
    0 or 1, and the flag of [y] is 1 exactly when [y >= 1] and the answer
    at [y] is the number that column 5 of row [y] stands for: 1 for the
    mark "Y", 0 for the mark "N".  A missing answer, a text, a row marked
    otherwise, and position 0 are never flagged. *)
Theorem flags_follow_marks (probbaseV5 : table) (S : nat) (v : list obj) :
  S = nrows probbaseV5 -> (S <= length v)%nat ->
  forallb (fun cells : list cell => (5 <? length cells)%nat) probbaseV5 = true ->
  exists subst flags,
    subst_vector probbaseV5 = Ok subst /\
    new_input S v subst = Ok flags /\
    length flags = S /\
    forall y, (y < S)%nat ->
      (flags !! y = Some 0%nat \/ flags !! y = Some 1%nat) /\
      (flags !! y = Some 1%nat <-> (1 <= y)%nat /\ matches_mark probbaseV5 v y).
Proof.
  intros HS Hv Hw. unfold nrows in HS.
  destruct (subst_vector_ok probbaseV5 Hw) as (subst & Hsubst & Hlen & Hmark).
  exists subst.
  destruct (mapM_total (flag v subst) (seq 0 S)) as [flags Hflags].
  { intros y [_ Hy]%elem_of_seq. unfold flag.
    destruct (y =? 0)%nat; [eauto|]. unfold getitem.
    destruct (lookup_lt_is_Some_2 v y) as [x ->]; [lia|].
    destruct (lookup_lt_is_Some_2 subst y) as [s ->]; [lia|].
    cbn [mbind result_bind]. destruct (negb (isna x)); eauto. }
  exists flags. split; [exact Hsubst|]. split; [exact Hflags|].
  destruct (mapM_Ok_lookup _ _ _ Hflags) as [Hlf Hk].
  rewrite length_seq in Hlf. split; [exact Hlf|].
  intros y Hy.
  destruct (Hk y y) as (fy & Hfy & Hflag); [by apply lookup_seq|].
  rewrite Hfy. clear Hk Hflags Hfy.
  destruct (lookup_lt_is_Some_2 probbaseV5 y) as [cells Hcells]; [lia|].
  destruct (Hmark y cells Hcells) as (c & Hc & Hs).
  destruct (lookup_lt_is_Some_2 v y) as [x Hx]; [lia|].
  unfold flag, getitem in Hflag. rewrite Hx, Hs in Hflag.
  cbn [mbind result_bind] in Hflag.
  assert (Hiff : matches_mark probbaseV5 v y <->
                 exists q, x = ONum q /\
                   ((q == 1 /\ cell_is "Y" c = true) \/
                    (q == 0 /\ cell_is "N" c = true))).
  { unfold matches_mark. rewrite Hx, Hcells. split.
    - intros (q & cells' & c' & [= ->] & [= <-] & Hc' & Hq).
      rewrite Hc in Hc'. injection Hc' as <-. eauto.
    - intros (q & -> & Hq). exists q, cells, c. auto. }
  rewrite Hiff. clear Hiff.
  destruct (y =? 0)%nat eqn:Ey.
  { injection Hflag as <-. apply Nat.eqb_eq in Ey. subst y.
    split; [auto|]. split; [discriminate | intros [? _]; lia]. }
  apply Nat.eqb_neq in Ey.
  destruct x as [s|q|]; cbn [isna negb mbind result_bind] in Hflag.
  - assert (fy = 0%nat) as ->.
    { destruct (cell_is "Y" c); [|destruct (cell_is "N" c)];
        cbn in Hflag; congruence. }
    split; [auto|]. split; [discriminate | intros (_ & q & [=] & _)].
  - destruct (cell_is "Y" c) eqn:EY; [|destruct (cell_is "N" c) eqn:EN];
      cbn [obj_eq] in Hflag.
    + destruct (Qeq_bool q 1) eqn:Eq; injection Hflag as <-.
      * apply Qeq_bool_iff in Eq. split; [auto|].
        split; [intros _; split; [lia|]; eauto 10 | reflexivity].
      * split; [auto|]. split; [discriminate|].
        intros (_ & q' & [= <-] & [[Hq _] | [_ HN]]).
        -- apply Qeq_bool_iff in Hq. congruence.
        -- destruct c as [t|]; [|discriminate]. cbn in EY, HN.
           apply String.eqb_eq in EY, HN. congruence.
    + destruct (Qeq_bool q 0) eqn:Eq; injection Hflag as <-.
      * apply Qeq_bool_iff in Eq. split; [auto|].
        split; [intros _; split; [lia|]; eauto 10 | reflexivity].
      * split; [auto|]. split; [discriminate|].
        intros (_ & q' & [= <-] & [[_ HY] | [Hq _]]); [congruence|].
        apply Qeq_bool_iff in Hq. congruence.
    + injection Hflag as <-. split; [auto|]. split; [discriminate|].
      intros (_ & q' & _ & [[_ HY] | [_ HN]]); congruence.
  - injection Hflag as <-. split; [auto|].
    split; [discriminate | intros (_ & q & [=] & _)].
Qed.

Lemma flags_follow_marks_witness :
  exists subst flags,
    subst_vector Samples.probbaseV5 = Ok subst /\
    new_input 354 (Cases.checked Samples.rec_informative) subst = Ok flags /\
    length flags = 354%nat /\
    forall y, (y < 354)%nat ->
      (flags !! y = Some 0%nat \/ flags !! y = Some 1%nat) /\
      (flags !! y = Some 1%nat <->
       (1 <= y)%nat /\
       matches_mark Samples.probbaseV5 (Cases.checked Samples.rec_informative) y).
Proof.
  apply (flags_follow_marks Samples.probbaseV5 354
           (Cases.checked Samples.rec_informative));
    [reflexivity | vm_compute; lia | reflexivity].
Defined.

(** What lines 332-334 make of the answers from position 1 on. *)
Lemma substituted_lookup (v : list obj) :
  (1 <= length v)%nat ->
  exists v', substituted v = Ok v' /\
    forall i, (1 <= i)%nat ->
      v' !! i = (fun x => if isna (if obj_eq x (ONum 0) then ONum 1 else x)
                          then ONum 0
                          else if obj_eq x (ONum 0) then ONum 1 else x) <$> v !! i.
Proof.
  intros Hlen. unfold substituted, setitem, replace_eq.
  rewrite length_fmap, decide_True by lia. cbn [mbind result_bind].
  eexists. split; [reflexivity|]. intros i Hi.
  rewrite list_lookup_fmap, list_lookup_insert_ne by lia.
  rewrite list_lookup_fmap. destruct (v !! i); reflexivity.
Qed.

(** An answer that is 0 or 1 becomes 1, a missing one becomes 0. *)
Lemma substituted_answer (v v' : list obj) (i : nat) :
  forallb ternary v = true -> (i < length v)%nat ->
  (forall i, (1 <= i)%nat ->
      v' !! i = (fun x => if isna (if obj_eq x (ONum 0) then ONum 1 else x)
                          then ONum 0
                          else if obj_eq x (ONum 0) then ONum 1 else x) <$> v !! i) ->
  (1 <= i)%nat ->
  exists x', v' !! i = Some x' /\ obj_eq x' (ONum 1) = answered v i /\
             truthy x' = answered v i.
Proof.
  intros Ht Hi Hv' H1. rewrite (Hv' i H1). unfold answered.
  destruct (lookup_lt_is_Some_2 v i Hi) as [x Hx]. rewrite Hx.
  rewrite forallb_forall in Ht.
  assert (Hx' : ternary x = true).
  { apply Ht, list_elem_of_In, (list_elem_of_lookup_2 _ i), Hx. }
  eexists. split; [reflexivity|].
  destruct x as [s|q|]; [discriminate| |split; reflexivity].
  cbn [obj_eq]. cbn in Hx'.
  destruct (Qeq_bool q 0) eqn:E0; cbn [isna obj_eq truthy].
  - split; reflexivity.
  - cbn [orb] in Hx'. rewrite Hx', E0. split; reflexivity.
Qed.

(** X8.  On a checked record (every answer 0, 1 or missing, at least 19
    positions) the substitutions of lines 332-334 succeed, and the flag
    for reproductive age computed from their result only depends on which
    answers were given: it is set exactly when position 4 is answered and
    one of the positions 16, 17, 18 is.  An answer 0 counts like an answer
    1, because every 0 has been replaced by 1 before the test. *)
Theorem reproductive_age_counts_answers (v : list obj) :
  (19 <= length v)%nat -> forallb ternary v = true ->
  exists v', substituted v = Ok v' /\
    reproductiveAge v' =
      Ok (answered v 4 && (answered v 16 || (answered v 17 || answered v 18))).
Proof.
  intros Hlen Ht.
  destruct (substituted_lookup v) as (v' & Hv' & Hl); [lia|].
  exists v'. split; [exact Hv'|].
  destruct (substituted_answer v v' 4 Ht) as (x4 & H4 & E4 & _); [lia|exact Hl|lia|].
  destruct (substituted_answer v v' 16 Ht) as (x16 & H16 & E16 & _); [lia|exact Hl|lia|].
  destruct (substituted_answer v v' 17 Ht) as (x17 & H17 & _ & T17); [lia|exact Hl|lia|].
  destruct (substituted_answer v v' 18 Ht) as (x18 & H18 & _ & T18); [lia|exact Hl|lia|].
  unfold reproductiveAge, getitem. rewrite H4, H16. cbn [mbind result_bind].
  rewrite E4, E16.
  assert (Hs : slice 17 19 v' = [x17; x18]).
  { unfold slice. apply list_eq. intros [|[|i]].
    - rewrite lookup_take_lt, lookup_drop by lia. exact H17.
    - rewrite lookup_take_lt, lookup_drop by lia. exact H18.
    - rewrite lookup_take_ge by lia. reflexivity. }
  rewrite Hs. cbn [existsb]. rewrite T17, T18, orb_false_r.
  destruct (answered v 4); [|reflexivity].
  destruct (answered v 16); reflexivity.
Qed.

Lemma reproductive_age_counts_answers_witness :
  exists v', substituted (Cases.checked Samples.rec_plain) = Ok v' /\
    reproductiveAge v' =
      Ok (answered (Cases.checked Samples.rec_plain) 4 &&
          (answered (Cases.checked Samples.rec_plain) 16 ||
           (answered (Cases.checked Samples.rec_plain) 17 ||
            answered (Cases.checked Samples.rec_plain) 18))).
Proof.
  apply (reproductive_age_counts_answers (Cases.checked Samples.rec_plain));
    [vm_compute; lia | reflexivity].
Defined.

End AnswerFacts.

(** ** The position and the value of a maximum *)

Section ArgmaxFacts.

Lemma argmax_from_lookup (full : list Q) (t : list Q) : forall best bi next,
  full !! bi = Some best ->
  (forall i x, t !! i = Some x -> full !! (next + i)%nat = Some x) ->
  full !! argmax_from best bi next t
    = Some (fold_left (fun m y => if Qltb m y then y else m) t best).
Proof.
  induction t as [|x t IH]; intros best bi next Hb Ht; [exact Hb|].
  cbn [argmax_from fold_left].
  assert (Hx : full !! next = Some x).
  { rewrite <- (Ht 0%nat x eq_refl). f_equal. lia. }
  assert (Hrest : forall i y, t !! i = Some y -> full !! (S next + i)%nat = Some y).
  { intros i y Hy. rewrite <- (Ht (S i) y Hy). f_equal. lia. }
  destruct (Qltb best x); apply IH; assumption.
Qed.

(** The value at the position of [argmax] is [amax]. *)
Lemma argmax_amax (l : list Q) (loc : nat) (m : Q) :
  argmax l = Ok loc -> amax l = Ok m -> l !! loc = Some m.
Proof.
  destruct l as [|x t]; [discriminate|]. intros [= <-] [= <-].
  apply argmax_from_lookup; [reflexivity|]. intros i y Hy. exact Hy.
Qed.

Lemma amax_argmax_defined (l : list Q) (m : Q) :
  amax l = Ok m -> exists loc, argmax l = Ok loc /\ l !! loc = Some m.
Proof.
  intros Hm. destruct l as [|x t] eqn:El; [discriminate|].
  eexists. split; [reflexivity|]. rewrite <- El in *.
  apply argmax_amax; [subst l; reflexivity | exact Hm].
Qed.

End ArgmaxFacts.

(** ** The outcomes without a likelihood *)

Section OutcomeFacts.

(** X9.  The two outcomes of the pregnancy rules that carry no likelihood,
    for every Group A slice that has a maximum.  Outside reproductive age
    the status is "n/a".  In reproductive age, a maximum below 0.1 gives
    "indeterminate", also when the slice sums to 0: the rule for a zero
    sum is overwritten by the one that follows it.  Neither case divides
    by the sum, so neither raises. *)
Theorem pregnancy_blank_outcomes (prob_A : list Q) (m : Q) :
  amax prob_A = Ok m ->
  Pregnancy.classify prob_A false = Ok ("n/a"%string, VStr " ") /\
  (m < 0.1 ->
   Pregnancy.classify prob_A true = Ok ("indeterminate"%string, VStr " ")).
Proof.
  intros Hm. destruct (amax_argmax_defined prob_A m Hm) as (loc & Hloc & Hv).
  assert (Hrule : forall repro k src st,
             Qgeb m 0.1 && repro = false ->
             Pregnancy.rule prob_A (sum prob_A) repro loc k src st = Ok st).
  { intros repro k src st Hoff. unfold Pregnancy.rule.
    destruct (loc =? k)%nat eqn:Ek; [|reflexivity].
    apply Nat.eqb_eq in Ek. subst k. unfold getitem. rewrite Hv.
    cbn [mbind result_bind]. rewrite Hoff. reflexivity. }
  unfold Pregnancy.classify. rewrite Hm, Hloc. cbn [mbind result_bind].
  split.
  - rewrite orb_true_r, andb_false_r.
    repeat (rewrite Hrule by apply andb_false_r; cbn [mbind result_bind]).
    reflexivity.
  - intros Hlt. rewrite (proj2 (Qltb_true m 0.1) Hlt). cbn [andb].
    assert (Hoff : Qgeb m 0.1 && true = false).
    { rewrite andb_true_r. unfold Qgeb.
      destruct (Qle_bool 0.1 m) eqn:E; [|reflexivity].
      apply Qle_bool_iff in E. lra. }
    repeat (rewrite Hrule by exact Hoff; cbn [mbind result_bind]).
    reflexivity.
Qed.

Lemma pregnancy_blank_outcomes_witness :
  Pregnancy.classify [0; 0; 0] false = Ok ("n/a"%string, VStr " ") /\
  (0 < 0.1 ->
   Pregnancy.classify [0; 0; 0] true = Ok ("indeterminate"%string, VStr " ")).
Proof.
  apply (pregnancy_blank_outcomes [0; 0; 0] 0). reflexivity.
Defined.

End OutcomeFacts.

(** ** The rows and the identifiers that [run] returns *)

Section RowFacts.
Import Record_ Run Ranker Outcomes.

Variable probbase_default : table.
Variable valabels : list string.
Variable datacheck5 : list obj -> obj -> list obj * list string * list string.
Variable save : string -> row -> result unit.
Variable prob_names : list string.

Lemma elem_of_drop_rows {A} (indices : list nat) (l : list A) (x : A) :
  x ∈ drop_rows indices l -> x ∈ l.
Proof.
  unfold drop_rows. intros ([i y] & -> & Hin)%list_elem_of_fmap.
  apply list_elem_of_filter in Hin as [_ Hin].
  apply elem_of_lookup_imap in Hin as (j & z & [= -> ->] & Hl).
  apply (list_elem_of_lookup_2 _ j), Hl.
Qed.

(** The identifiers kept are those that are not missing, in order. *)
Lemma drop_nan_rows (ids : list obj) :
  drop_rows (nan_indices ids) ids = filter (fun x => ~ (isna x = true)) ids.
Proof.
  unfold drop_rows.
  apply (delete_at_filter (fun x : obj => isna x = true) _ ids 0%nat).
  intros i x Hx. cbn [Nat.add]. unfold nan_indices.
  rewrite list_elem_of_fmap. split.
  - intros ([j y] & -> & [Hy Hin]%list_elem_of_filter). cbn in *.
    apply elem_of_lookup_imap in Hin as (j' & y' & [= -> ->] & Hl). congruence.
  - intros Hna. exists (i, x). split; [reflexivity|].
    apply list_elem_of_filter. split; [exact Hna|].
    apply elem_of_lookup_imap. eauto.
Qed.

(** The branch at or above the threshold never yields a ranking. *)
Lemma top_three_never_returns (prob_B : list Q) (names : list string) :
  raises (top_three prob_B names [VEmptyList; VEmptyList; VEmptyList]).
Proof.
  unfold top_three, name_at.
  repeat raise_or_continue.
  all: rewrite <- !app_assoc, float_of_top3_raises in *; discriminate.
Qed.

Lemma rank_returns_blank (prob_B : list Q) (names : list string) (r : ranking) :
  rank prob_B names = Ok r ->
  r = Ranking (VStr " ") (VStr " ") (VStr " ") (VStr " ") (VStr " ") (VStr " ") 100 /\
  exists m, amax prob_B = Ok m /\ m < 0.4.
Proof.
  unfold rank. destruct (amax prob_B) as [m|]; [|discriminate].
  cbn [mbind result_bind]. unfold Qgeb.
  destruct (Qle_bool 0.4 m) eqn:E.
  - intros H. destruct (top_three_never_returns prob_B names) as [e He].
    rewrite He in H. discriminate.
  - assert (Hlt : m < 0.4).
    { apply Qnot_le_lt. intros Hle. apply Qle_bool_iff in Hle. congruence. }
    rewrite (proj2 (Qltb_true m 0.4) Hlt). intros [= <-]. eauto.
Qed.

Lemma classify_record_row probbaseV5 d S hiv malaria output write
    st st' i index_current input_current :
  classify_record datacheck5 save prob_names probbaseV5 d S hiv malaria output
                  write i index_current input_current st = Ok st' ->
  exists res,
    row_of_record prob_names hiv malaria index_current res /\
    VA_result st' = <[i := Some res]> (VA_result st) /\
    ID_list st' = ID_list st ++ [index_current].
Proof.
  unfold classify_record.
  destruct (datacheck5 input_current index_current) as [[checked fp] sp].
  destruct (subst_vector probbaseV5) as [subst|]; [|discriminate].
  cbn [mbind result_bind].
  destruct (new_input S checked subst) as [flags|]; [|discriminate].
  cbn [mbind result_bind].
  destruct (substituted checked) as [ic|]; [|discriminate].
  cbn [mbind result_bind].
  destruct (reproductiveAge ic) as [repro|]; [|discriminate].
  cbn [mbind result_bind].
  destruct (Inference.infer_as d probbaseV5 (Sys_Prior st) flags (length ic))
    as [prior'|]; [|discriminate].
  cbn [mbind result_bind].
  destruct (Pregnancy.classify _ _) as [[preg lik]|] eqn:Epreg; [|discriminate].
  cbn [mbind result_bind].
  destruct (rank _ _) as [r|] eqn:Er; [|discriminate]. cbn [mbind result_bind].
  destruct (Comorbidity.classify _ _) as [[comcat comnum]|] eqn:Ec; [|discriminate].
  cbn [mbind result_bind].
  destruct (if write then _ else _); [|discriminate]. cbn [mbind result_bind].
  intros [= <-]. eexists. split; [|cbn; auto].
  unfold row_of_record. cbn. destruct r. cbn. eauto 10.
Qed.

Lemma process_record_rows probbaseV5 d S hiv malaria output write st st' i id raw :
  process_record datacheck5 save prob_names probbaseV5 d S hiv malaria output
                 write st (i, id, raw) = Ok st' ->
  (VA_result st' = VA_result st /\ ID_list st' = ID_list st) \/
  exists res, row_of_record prob_names hiv malaria id res /\
    VA_result st' = <[i := Some res]> (VA_result st) /\
    ID_list st' = ID_list st ++ [id].
Proof.
  unfold process_record.
  destruct (canonical raw) as [ic|]; [|discriminate]. cbn [mbind result_bind].
  destruct (exclusion ic) as [[reason|]|]; [| |discriminate];
    cbn [mbind result_bind].
  - destruct write.
    + destruct (add_reason _ _ _); [|discriminate]. cbn [mbind result_bind].
      intros [= <-]. left. auto.
    + intros [= <-]. left. auto.
  - intros H. right. apply (classify_record_row _ _ _ _ _ _ _ _ _ _ _ _ H).
Qed.

Lemma record_of_loop (data : list (list obj)) (ids : list obj) rec :
  mapM (fun r : list obj => getitem r 0) data = Ok ids ->
  rec ∈ zip (zip (seq 0 (length data)) ids) data ->
  rec.2 ∈ data /\ rec.2 !! 0%nat = Some rec.1.2.
Proof.
  intros Hids. destruct rec as [[i id] raw]. cbn.
  intros [k Hk]%list_elem_of_lookup_1.
  apply lookup_zip_with_Some in Hk as ([i' id'] & raw' & [= <- <- <-] & Hk1 & Hraw).
  apply lookup_zip_with_Some in Hk1 as (i'' & id'' & [= <- <-] & _ & Hidk).
  split; [apply (list_elem_of_lookup_2 _ k), Hraw|].
  destruct (mapM_Ok_lookup _ _ _ Hids) as [_ Hlk].
  destruct (Hlk k raw Hraw) as (y & Hy & Hg). rewrite Hidk in Hy.
  injection Hy as <-. unfold getitem in Hg.
  destruct (raw !! 0%nat); [|discriminate]. congruence.
Qed.

(** The rows and the identifiers that the loop has collected come from the
    records of the input. *)
Lemma loop_collects t' d S hiv malaria output write data ids p st :
  mapM (fun r : list obj => getitem r 0) data = Ok ids ->
  for_each (process_record datacheck5 save prob_names t' d S hiv malaria output write)
           (zip (zip (seq 0 (length data)) ids) data)
           (State p VNone [] (replicate (length data) None) [] []) = Ok st ->
  (forall r, Some r ∈ VA_result st ->
     exists raw, raw ∈ data /\ raw !! 0%nat = Some (ID r) /\
       row_of_record prob_names hiv malaria (ID r) r) /\
  (forall id, id ∈ ID_list st -> exists raw, raw ∈ data /\ raw !! 0%nat = Some id).
Proof.
  intros Hids Hloop.
  refine (for_each_invariant
            (fun st =>
               (forall r, Some r ∈ VA_result st ->
                  exists raw, raw ∈ data /\ raw !! 0%nat = Some (ID r) /\
                    row_of_record prob_names hiv malaria (ID r) r) /\
               (forall id, id ∈ ID_list st ->
                  exists raw, raw ∈ data /\ raw !! 0%nat = Some id))
            _ _ _ _ st _ Hloop).
  - intros s [[i id] raw] s' Hrec [Hrows Hlist] Hstep.
    destruct (record_of_loop _ _ _ Hids Hrec) as [Hraw Hid]. cbn in Hraw, Hid.
    apply process_record_rows in Hstep
      as [[-> ->] | (res & Hres & -> & ->)]; [auto|].
    split.
    + intros r Hr. apply list_elem_of_lookup_1 in Hr as [k Hk].
      destruct (decide (k = i)) as [->|Hne].
      * assert (Hlt : (i < length (VA_result s))%nat).
        { apply lookup_lt_Some in Hk. by rewrite length_insert in Hk. }
        rewrite list_lookup_insert_eq in Hk by exact Hlt. injection Hk as <-.
        pose proof Hres as (Hidr & _). exists raw.
        split; [exact Hraw|]. split; [congruence|]. rewrite Hidr. exact Hres.
      * rewrite list_lookup_insert_ne in Hk by congruence.
        apply Hrows, (list_elem_of_lookup_2 _ k), Hk.
    + intros id' [Hin | ->%list_elem_of_singleton]%elem_of_app; eauto.
  - cbn [VA_result ID_list]. split.
    + intros r [[=] _]%elem_of_replicate.
    + intros id Hin. by apply not_elem_of_nil in Hin.
Qed.

(** X11.  No row that [run] returns names a cause: its three causes and
    three likelihoods are blank and its indeterminacy is 100, and the
    largest value of Group B in the vector it stores is below 0.4.  A
    record that brings a cause of Group B to 0.4 ends the run instead. *)
Theorem run_reports_no_cause (c : config) (o : out) (r : row) :
  run probbase_default valabels datacheck5 save prob_names c = Ok o ->
  Some r ∈ out_VA5 o ->
  (CAUSE1 r = VStr " " /\ LIK1 r = VStr " " /\ CAUSE2 r = VStr " " /\
   LIK2 r = VStr " " /\ CAUSE3 r = VStr " " /\ LIK3 r = VStr " " /\
   INDET r = 100%Z) /\
  exists m, amax (slice 3 64 (WHOLEPROB r)) = Ok m /\ m < 0.4.
Proof.
  intros Hrun Hr.
  destruct (run_loop _ _ _ _ _ c o Hrun)
    as (t' & d & S & p & ids & st & Hids & Hloop & _ & HVA & _).
  rewrite HVA in Hr. apply elem_of_drop_rows in Hr.
  destruct (loop_collects _ _ _ _ _ _ _ _ _ _ _ Hids Hloop) as [Hrows _].
  destruct (Hrows r Hr) as (_ & _ & _ & _ & _ & _ & _ & Hrank & _).
  apply rank_returns_blank in Hrank as [[= -> -> -> -> -> -> ->] Hm].
  auto 10.
Qed.

(** X12.  Every row that [run] returns belongs to a record of the input,
    whose first cell is the row's identifier, and carries the two settings
    in lower case, as the returned dictionary does. *)
Theorem returned_rows_echo_settings (c : config) (o : out) (r : row) :
  run probbase_default valabels datacheck5 save prob_names c = Ok o ->
  Some r ∈ out_VA5 o ->
  (exists raw, raw ∈ va_data c /\ raw !! 0%nat = Some (ID r)) /\
  MALPREV r = lower (malaria c) /\ HIVPREV r = lower (hiv c) /\
  MALPREV r = out_Malaria o /\ HIVPREV r = out_HIV o.
Proof.
  intros Hrun Hr.
  destruct (run_loop _ _ _ _ _ c o Hrun)
    as (t' & d & S & p & ids & st & Hids & Hloop & _ & HVA & HH & HM).
  rewrite HVA in Hr. apply elem_of_drop_rows in Hr.
  destruct (loop_collects _ _ _ _ _ _ _ _ _ _ _ Hids Hloop) as [Hrows _].
  destruct (Hrows r Hr) as (raw & Hraw & Hid & _ & Hmal & Hhiv & _).
  split; [eauto|]. rewrite HH, HM. auto.
Qed.

(** X13.  Every identifier that [run] returns is the first cell of a record
    of the input and is not a missing value. *)
Theorem run_returns_known_identifiers (c : config) (o : out) (id : obj) :
  run probbase_default valabels datacheck5 save prob_names c = Ok o ->
  id ∈ out_ID o ->
  isna id = false /\ exists raw, raw ∈ va_data c /\ raw !! 0%nat = Some id.
Proof.
  intros Hrun Hid.
  destruct (run_loop _ _ _ _ _ c o Hrun)
    as (t' & d & S & p & ids & st & Hids & Hloop & HID & _).
  rewrite HID, drop_nan_rows in Hid.
  apply list_elem_of_filter in Hid as [Hna Hin].
  split; [by destruct (isna id)|].
  destruct (loop_collects _ _ _ _ _ _ _ _ _ _ _ Hids Hloop) as [_ Hlist]. auto.
Qed.

End RowFacts.

Section RowCases.
Import Record_ Run.

Lemma plain_run_returns :
  Samples.run_sample Cases.plain_config = Ok Cases.plain_out /\
  out_VA5 Cases.plain_out = [Some (Cases.first_row Cases.plain_out)] /\
  out_ID Cases.plain_out = [Cases.first_id Cases.plain_out].
Proof. vm_compute. auto. Defined.

Lemma run_reports_no_cause_witness :
  (CAUSE1 (Cases.first_row Cases.plain_out) = VStr " " /\
   LIK1 (Cases.first_row Cases.plain_out) = VStr " " /\
   CAUSE2 (Cases.first_row Cases.plain_out) = VStr " " /\
   LIK2 (Cases.first_row Cases.plain_out) = VStr " " /\
   CAUSE3 (Cases.first_row Cases.plain_out) = VStr " " /\
   LIK3 (Cases.first_row Cases.plain_out) = VStr " " /\
   INDET (Cases.first_row Cases.plain_out) = 100%Z) /\
  exists m, amax (slice 3 64 (WHOLEPROB (Cases.first_row Cases.plain_out))) = Ok m /\
            m < 0.4.
Proof.
  apply (run_reports_no_cause [] Samples.names Samples.no_check Samples.accept
           Samples.prob_names Cases.plain_config Cases.plain_out).
  - apply plain_run_returns.
  - rewrite (proj1 (proj2 plain_run_returns)). apply list_elem_of_here.
Defined.

Lemma returned_rows_echo_settings_witness :
  (exists raw, raw ∈ va_data Cases.plain_config /\
               raw !! 0%nat = Some (ID (Cases.first_row Cases.plain_out))) /\
  MALPREV (Cases.first_row Cases.plain_out) = lower (malaria Cases.plain_config) /\
  HIVPREV (Cases.first_row Cases.plain_out) = lower (hiv Cases.plain_config) /\
  MALPREV (Cases.first_row Cases.plain_out) = out_Malaria Cases.plain_out /\
  HIVPREV (Cases.first_row Cases.plain_out) = out_HIV Cases.plain_out.
Proof.
  apply (returned_rows_echo_settings [] Samples.names Samples.no_check
           Samples.accept Samples.prob_names Cases.plain_config Cases.plain_out).
  - apply plain_run_returns.
  - rewrite (proj1 (proj2 plain_run_returns)). apply list_elem_of_here.
Defined.

Lemma run_returns_known_identifiers_witness :
  isna (Cases.first_id Cases.plain_out) = false /\
  exists raw, raw ∈ va_data Cases.plain_config /\
              raw !! 0%nat = Some (Cases.first_id Cases.plain_out).
Proof.
  apply (run_returns_known_identifiers [] Samples.names Samples.no_check
           Samples.accept Samples.prob_names Cases.plain_config Cases.plain_out).
  - apply plain_run_returns.
  - rewrite (proj2 (proj2 plain_run_returns)). apply list_elem_of_here.
Defined.

End RowCases.

(** ** One pass of the update, entry by entry *)

Section PassFacts.
Import Inference Props Outcomes.

(** What a step of the inner loop that succeeds has done. *)
Lemma multiply_column_inv (probbaseV5 : table) row prob j prob' :
  multiply_column probbaseV5 row prob j = Ok prob' ->
  exists p cells w,
    prob !! (j - 17)%nat = Some p /\ probbaseV5 !! row = Some cells /\
    cells !! j = Some (CNum w) /\ prob' = <[(j - 17)%nat := p * w]> prob.
Proof.
  unfold multiply_column, at_, getitem, setitem.
  destruct (prob !! (j - 17)%nat) as [p|]; [|discriminate].
  cbn [mbind result_bind].
  destruct (probbaseV5 !! row) as [cells|]; [|discriminate].
  cbn [mbind result_bind].
  destruct (cells !! j) as [[s|w]|] eqn:Hw; [discriminate| |discriminate].
  cbn [mbind result_bind to_numeric]. case_decide; [|discriminate].
  intros [= <-]. exists p, cells, w. auto.
Qed.

Lemma multiply_column_as_ok (d : dtype) (probbaseV5 : table) row cells prob j p w :
  probbaseV5 !! row = Some cells -> cells !! j = Some (CNum w) ->
  prob !! (j - 17)%nat = Some p ->
  multiply_column_as d probbaseV5 row prob j
    = Ok (<[(j - 17)%nat := cast d (p * w)]> prob).
Proof.
  intros Hcells Hw Hp. unfold multiply_column_as, getitem, at_, getitem, setitem.
  rewrite Hp. cbn [mbind result_bind]. rewrite Hcells. cbn [mbind result_bind].
  rewrite Hw. cbn [mbind result_bind to_numeric].
  apply lookup_lt_Some in Hp. rewrite decide_True by lia. reflexivity.
Qed.

(** The inner loop multiplies the entries it has reached by the numbers of
    the row, converts each product to the element type of the store, and
    leaves the other entries. *)
Lemma multiply_columns_product (d : dtype) (probbaseV5 : table) row cells
    (ws : list Q) n :
  probbaseV5 !! row = Some cells ->
  (forall i w, ws !! i = Some w -> cells !! (17 + i)%nat = Some (CNum w)) ->
  forall a prob, (a + n <= length ws)%nat -> (a + n <= length prob)%nat ->
  exists prob',
    for_each (multiply_column_as d probbaseV5 row) (seq (17 + a) n) prob
      = Ok prob' /\
    length prob' = length prob /\
    forall i p, prob !! i = Some p ->
      prob' !! i = Some (if decide (a <= i < a + n)%nat
                         then cast d (p * nth i ws 0) else p).
Proof.
  intros Hcells Hws. induction n as [|n IH]; intros a prob Ha Hp; cbn [seq for_each].
  - exists prob. split; [reflexivity|]. split; [reflexivity|].
    intros i p Hi. rewrite decide_False by lia. exact Hi.
  - destruct (lookup_lt_is_Some_2 ws a) as [w Hw]; [lia|].
    destruct (lookup_lt_is_Some_2 prob a) as [p Hpa]; [lia|].
    rewrite (multiply_column_as_ok d probbaseV5 row cells prob (17 + a) p w Hcells);
      [|apply Hws, Hw | rewrite <- Hpa; f_equal; lia].
    cbn [mbind result_bind].
    replace (17 + a - 17)%nat with a by lia.
    destruct (IH (S a) (<[a := cast d (p * w)]> prob)) as (prob' & E & Hlen & Hl);
      [lia | rewrite length_insert; lia |].
    exists prob'. split; [exact E|]. split; [by rewrite Hlen, length_insert|].
    intros i q Hi. destruct (decide (i = a)) as [->|Hne].
    + rewrite (Hl a (cast d (p * w))) by (apply list_lookup_insert_eq; lia).
      rewrite decide_False by lia. rewrite decide_True by lia.
      rewrite Hpa in Hi. injection Hi as <-.
      rewrite (nth_lookup_Some _ _ _ _ Hw). reflexivity.
    + rewrite (Hl i q) by (rewrite list_lookup_insert_ne by congruence; exact Hi).
      destruct (decide (S a <= i < S a + n)%nat);
        [rewrite decide_True by lia | rewrite decide_False by lia]; reflexivity.
Qed.

(** X14.  One pass of the update with a table row whose cause columns are
    numbers, on a store of element type [d]: the pass succeeds, and its
    result is the element-wise product of the vector with the numbers of
    the row, each product converted to [d] (kept on a [float64] store,
    truncated on an [int64] store), followed by the three normalizations
    for [d]. *)
Theorem pass_is_product_then_normalization (d : dtype)
    (probbaseV5 : table) (row D : nat) (cells : list cell) (ws prob : list Q) :
  probbaseV5 !! row = Some cells -> length cells = D ->
  to_numeric_row (drop 17 cells) = Ok ws ->
  length prob = (D - 17)%nat ->
  update_row_as d probbaseV5 D prob row
    = Ok (normalize_groups_as d (zip_with (fun p w => cast d (p * w)) prob ws)).
Proof.
  intros Hcells HD Hws Hlen. unfold update_row_as.
  destruct (mapM_Ok_lookup _ _ _ Hws) as [Hlw Hk]. rewrite length_drop in Hlw.
  destruct (multiply_columns_product d probbaseV5 row cells ws (D - 17) Hcells)
    with (a := 0%nat) (prob := prob) as (prob' & E & Hl' & Hl); [|lia..|].
  { intros i w Hw.
    destruct (lookup_lt_is_Some_2 (drop 17 cells) i) as [c Hc].
    { rewrite length_drop. apply lookup_lt_Some in Hw. lia. }
    destruct (Hk i c Hc) as (y & Hy & Hc'). rewrite Hw in Hy. injection Hy as <-.
    rewrite lookup_drop in Hc. rewrite Hc.
    destruct c as [s|q]; [discriminate|]. cbn in Hc'. congruence. }
  cbn [Nat.add] in E. rewrite E. cbn [mbind result_bind]. do 2 f_equal.
  apply list_eq. intros i. rewrite lookup_zip_with.
  destruct (prob !! i) as [p|] eqn:Hp.
  - rewrite (Hl i p Hp). apply lookup_lt_Some in Hp.
    rewrite decide_True by lia.
    destruct (lookup_lt_is_Some_2 ws i) as [w Hw]; [lia|].
    rewrite Hw, (nth_lookup_Some _ _ _ _ Hw). reflexivity.
  - apply lookup_ge_None_2. apply lookup_ge_None_1 in Hp. lia.
Qed.

Lemma pass_is_product_then_normalization_witness :
  update_row_as (Prior.dtype_of Samples.Sys_Prior) Samples.probbaseV5 87
                (prob_of Samples.Sys_Prior) 2
    = Ok (normalize_groups_as (Prior.dtype_of Samples.Sys_Prior)
            (zip_with (fun p w => cast (Prior.dtype_of Samples.Sys_Prior) (p * w))
               (prob_of Samples.Sys_Prior)
               (Cases.numbers (drop 17 (Samples.graded_numeric_row 2))))).
Proof.
  apply (pass_is_product_then_normalization (Prior.dtype_of Samples.Sys_Prior)
           Samples.probbaseV5 2 87 (Samples.graded_numeric_row 2));
    vm_compute; reflexivity.
Defined.

Lemma elem_le_sum (l : list Q) i x :
  Forall (Qle 0) l -> l !! i = Some x -> x <= sum l.
Proof.
  intros Hpos. revert i. induction Hpos as [|y l Hy Hl IH]; intros i Hi.
  - discriminate.
  - rewrite sum_cons. pose proof (sum_nonneg l Hl). destruct i as [|i].
    + injection Hi as <-. lra.
    + specialize (IH i Hi). lra.
Qed.

Lemma group_entry_bound lo hi (prob : list Q) i x :
  Forall (Qle 0) prob -> group_sum_ok lo hi prob ->
  (lo <= i < hi)%nat -> prob !! i = Some x -> 0 <= x <= 1.
Proof.
  intros Hpos Hg Hi Hx. split.
  - apply (Forall_lookup_1 (Qle 0) prob i x Hpos Hx).
  - assert (x <= sum (slice lo hi prob)).
    { apply (elem_le_sum _ (i - lo)).
      - unfold slice. by apply Forall_take, Forall_drop.
      - rewrite lookup_slice, decide_True by lia. rewrite <- Hx. f_equal. lia. }
    destruct Hg; lra.
Qed.

(** X15.  After one pass with a row of non-negative numbers over a
    non-negative vector, each of the 70 entries of the three groups lies
    between 0 and 1, whatever the size of the entries before the pass. *)
Theorem pass_leaves_probabilities (probbaseV5 : table) (row D : nat) (prob : list Q) :
  numeric_row probbaseV5 row D ->
  length prob = (D - 17)%nat -> Forall (Qle 0) prob ->
  exists prob', update_row probbaseV5 D prob row = Ok prob' /\
    forall i x, (i < 70)%nat -> prob' !! i = Some x -> 0 <= x <= 1.
Proof.
  intros Hrow Hlen Hpos.
  destruct (update_row_ok probbaseV5 row D prob Hrow Hlen Hpos)
    as (prob' & E & _ & Hpos' & HA & HB & HC).
  exists prob'. split; [exact E|]. intros i x Hi Hx.
  destruct (decide (i < 3)%nat); [apply (group_entry_bound 0 3 prob' i); auto with lia|].
  destruct (decide (i < 64)%nat); [apply (group_entry_bound 3 64 prob' i); auto with lia|].
  apply (group_entry_bound 64 70 prob' i); auto with lia.
Qed.

Lemma pass_leaves_probabilities_witness :
  exists prob',
    update_row Samples.probbaseV5 87 (prob_of Samples.Sys_Prior) 2 = Ok prob' /\
    forall i x, (i < 70)%nat -> prob' !! i = Some x -> 0 <= x <= 1.
Proof.
  refine (pass_leaves_probabilities Samples.probbaseV5 2 87
            (prob_of Samples.Sys_Prior) _ _ _).
  - exists (Samples.graded_numeric_row 2).
    split; [vm_compute; reflexivity|]. split; vm_compute; reflexivity.
  - vm_compute. reflexivity.
  - apply forallb_nonneg. vm_compute. reflexivity.
Defined.

Lemma normalize_group_lookup lo hi (prob : list Q) k x :
  (lo <= hi)%nat -> prob !! k = Some x ->
  normalize_group lo hi prob !! k = Some x \/
  exists s, 0 < s /\ normalize_group lo hi prob !! k = Some (x / s).
Proof.
  intros Hle Hx. unfold normalize_group.
  destruct (Qltb 0 _) eqn:E; [|auto]. apply Qltb_true in E.
  rewrite lookup_slice_assign by (auto using length_fmap).
  case_decide; [|auto]. right. eexists. split; [exact E|].
  rewrite list_lookup_fmap, lookup_slice, decide_True by lia.
  replace (lo + (k - lo))%nat with k by lia. rewrite Hx. reflexivity.
Qed.

Lemma normalize_group_zero lo hi prob k :
  (lo <= hi)%nat -> zero_at k prob -> zero_at k (normalize_group lo hi prob).
Proof.
  intros Hle (x & Hx & H0).
  destruct (normalize_group_lookup lo hi prob k x Hle Hx) as [H|(s & Hs & H)];
    eexists; (split; [exact H|]); [exact H0|].
  rewrite H0. field. lra.
Qed.

(** An entry that is 0 is 0 after every pass that succeeds. *)
Lemma update_zero probbaseV5 D k prob ts prob' :
  for_each (update probbaseV5 D) ts prob = Ok prob' ->
  zero_at k prob -> zero_at k prob'.
Proof.
  intros H Hz. revert H. apply for_each_invariant; [|exact Hz].
  clear prob prob' Hz. intros prob t prob' _ Hz.
  unfold update, update_row.
  destruct (for_each _ _ prob) as [prob1|] eqn:E; [|discriminate].
  cbn [mbind result_bind]. intros [= <-]. unfold normalize_groups.
  do 3 (apply normalize_group_zero; [lia|]).
  revert E. apply for_each_invariant; [|exact Hz].
  clear. intros prob j prob' _ (x & Hx & H0) Hstep.
  apply multiply_column_inv in Hstep as (p & cells & w & Hp & _ & _ & ->).
  destruct (decide (k = (j - 17)%nat)) as [->|Hne].
  - exists (p * w). rewrite list_lookup_insert_eq by (by eapply lookup_lt_Some).
    split; [reflexivity|]. rewrite Hx in Hp. injection Hp as <-.
    rewrite H0. lra.
  - exists x. rewrite list_lookup_insert_ne by congruence. auto.
Qed.

(** X16.  An entry of the prior store that is 0 when a record reads it is
    still 0 in the store the record leaves, whatever symptoms it flags: a
    cause of prior 0 can never gain probability. *)
Theorem zero_prior_stays_zero (probbaseV5 : table) (Sys_Prior Sys_Prior' : list Q)
    (new_input : list nat) (input_len k : nat) (x : Q) :
  infer probbaseV5 Sys_Prior new_input input_len = Ok Sys_Prior' ->
  Sys_Prior !! k = Some x -> x == 0 ->
  exists x', Sys_Prior' !! k = Some x' /\ x' == 0.
Proof.
  unfold infer. intros H Hx H0.
  destruct (for_each _ _ _) as [prob|] eqn:E; [|discriminate].
  cbn [mbind result_bind] in H. injection H as <-. unfold write_back.
  destruct (decide (k < 17)%nat) as [Hk|Hk].
  - exists x. split; [|exact H0].
    rewrite lookup_app_l by (apply lookup_lt_Some in Hx; rewrite length_take; lia).
    rewrite lookup_take_lt by lia. exact Hx.
  - pose proof (lookup_lt_Some _ _ _ Hx) as Hlen.
    rewrite lookup_app_r by (rewrite length_take; lia).
    rewrite length_take, Nat.min_l by lia.
    apply (update_zero _ _ (k - 17) _ _ _ E).
    exists x. split; [|exact H0]. unfold prob_of. rewrite lookup_drop.
    rewrite <- Hx. f_equal. lia.
Qed.

Lemma zero_prior_stays_zero_witness :
  exists x', Cases.sparse_posterior !! 83%nat = Some x' /\ x' == 0.
Proof.
  apply (zero_prior_stays_zero Cases.sparse_table Cases.sparse_prior
           Cases.sparse_posterior Samples.flags_20 354 83 0);
    vm_compute; reflexivity.
Defined.

End PassFacts.

(** ** The loop on a store of either element type *)

Section ConvertedStoreFacts.
Import Inference Props Outcomes.

Lemma trunc_unit (x : Q) : 0 <= x -> x < 1 -> trunc x == 0.
Proof.
  intros H0 H1. unfold trunc. rewrite (proj2 (Qle_bool_iff 0 x) H0).
  assert (Hlo : (0 <= Qfloor x)%Z).
  { change 0%Z with (Qfloor 0). by apply Qfloor_resp_le. }
  assert (Hhi : (Qfloor x < 1)%Z).
  { rewrite Zlt_Qlt. eapply Qle_lt_trans; [apply Qfloor_le | exact H1]. }
  replace (Qfloor x) with 0%Z by lia. reflexivity.
Qed.

Lemma trunc_one (x : Q) : x == 1 -> trunc x == 1.
Proof.
  intros H. unfold trunc.
  rewrite (proj2 (Qle_bool_iff 0 x)) by (rewrite H; discriminate).
  rewrite (Qfloor_comp _ _ H). reflexivity.
Qed.

Lemma sum_truncated_small (s : Q) (l : list Q) :
  0 < s -> Forall (fun x => 0 <= x /\ x < s) l ->
  sum ((fun x => trunc (x / s)) <$> l) == 0.
Proof.
  intros Hs. induction 1 as [|x l [Hx0 Hxs] _ IH].
  - reflexivity.
  - rewrite fmap_cons, sum_cons, IH, trunc_unit; [lra| |].
    + apply Qle_shift_div_l; lra.
    + apply Qlt_shift_div_r; lra.
Qed.

(** The quotients of non-negative entries by a bound of their sum, each
    truncated, sum to 0 or to 1. *)
Lemma sum_truncated_quotients (s : Q) (l : list Q) :
  0 < s -> Forall (Qle 0) l -> sum l <= s ->
  sum ((fun x => trunc (x / s)) <$> l) == 0 \/
  sum ((fun x => trunc (x / s)) <$> l) == 1.
Proof.
  intros Hs Hpos. induction Hpos as [|x l Hx Hl IH]; intros Hsum.
  - left. reflexivity.
  - rewrite sum_cons in Hsum. pose proof (sum_nonneg l Hl) as Hl0.
    rewrite fmap_cons, sum_cons.
    destruct (Qlt_le_dec x s) as [Hlt|Hge].
    + rewrite trunc_unit;
        [|apply Qle_shift_div_l; lra | apply Qlt_shift_div_r; lra].
      destruct IH as [IH|IH]; [lra | left; lra | right; lra].
    + right. rewrite trunc_one by (field_simplify_eq; lra).
      rewrite sum_truncated_small; [lra | exact Hs |].
      apply Forall_forall. intros y Hy.
      apply list_elem_of_lookup_1 in Hy as [i Hi].
      split; [apply (Forall_lookup_1 (Qle 0) l i y Hl Hi)|].
      pose proof (elem_le_sum l i y Hl Hi). lra.
Qed.

Lemma length_normalize_group_as d lo hi prob :
  (lo <= hi)%nat -> length (normalize_group_as d lo hi prob) = length prob.
Proof.
  intros Hle. unfold normalize_group_as. destruct (Qltb 0 _); [|reflexivity].
  apply length_slice_assign; [assumption | apply length_fmap].
Qed.

Lemma normalize_group_as_nonneg d lo hi prob :
  Forall (Qle 0) prob -> Forall (Qle 0) (normalize_group_as d lo hi prob).
Proof.
  intros Hpos. unfold normalize_group_as.
  destruct (Qltb 0 _) eqn:E; [|assumption].
  apply Qltb_true in E. unfold slice_assign.
  set (s := sum (slice lo hi prob)) in *.
  apply Forall_app_2; [by apply Forall_take|].
  apply Forall_app_2; [|by apply Forall_drop].
  apply Forall_fmap. unfold slice.
  apply Forall_take, Forall_drop.
  eapply Forall_impl; [exact Hpos|]. intros x Hx. cbn.
  apply cast_nonneg. apply Qle_shift_div_l; lra.
Qed.

Lemma normalize_group_as_sum d lo hi prob :
  (lo <= hi)%nat -> Forall (Qle 0) prob ->
  group_sum_ok lo hi (normalize_group_as d lo hi prob).
Proof.
  intros Hle Hpos. destruct d.
  - unfold group_sum_ok, normalize_group_as.
    destruct (Qltb 0 _) eqn:E.
    + apply Qltb_true in E.
      rewrite slice_assign_same by (auto using length_fmap). cbn [cast].
      apply sum_truncated_quotients; [exact E | | lra].
      unfold slice. by apply Forall_take, Forall_drop.
    + apply Qltb_false in E. left.
      assert (0 <= sum (slice lo hi prob)).
      { apply sum_nonneg. unfold slice. by apply Forall_take, Forall_drop. }
      lra.
  - apply (normalize_group_sum lo hi prob Hle Hpos).
Qed.

Lemma normalize_group_as_other d lo hi lo' hi' prob :
  (lo <= hi)%nat -> (hi' <= lo \/ hi <= lo')%nat ->
  slice lo' hi' (normalize_group_as d lo hi prob) = slice lo' hi' prob.
Proof.
  intros Hle Hdis. unfold normalize_group_as. destruct (Qltb 0 _); [|reflexivity].
  apply slice_assign_other; auto using length_fmap.
Qed.

Lemma normalize_groups_as_ok d prob :
  Forall (Qle 0) prob ->
  groups_normalized (normalize_groups_as d prob) /\
  Forall (Qle 0) (normalize_groups_as d prob) /\
  length (normalize_groups_as d prob) = length prob.
Proof.
  intros Hpos. unfold normalize_groups_as.
  pose proof (normalize_group_as_nonneg d 0 3 prob Hpos) as HA.
  pose proof (normalize_group_as_nonneg d 3 64 _ HA) as HB.
  pose proof (normalize_group_as_nonneg d 64 70 _ HB) as HC.
  split; [|split; [exact HC|]].
  - unfold groups_normalized, group_sum_ok.
    split; [|split].
    + rewrite !normalize_group_as_other by lia.
      apply normalize_group_as_sum; [lia | assumption].
    + rewrite normalize_group_as_other by lia.
      apply normalize_group_as_sum; [lia | assumption].
    + apply normalize_group_as_sum; [lia | assumption].
  - rewrite !length_normalize_group_as by lia. reflexivity.
Qed.

Lemma multiply_columns_as_ok d probbaseV5 row D n : forall a prob,
  numeric_row probbaseV5 row D ->
  (17 <= a)%nat -> (a + n <= Nat.max D 17)%nat ->
  length prob = (D - 17)%nat -> Forall (Qle 0) prob ->
  exists prob',
    for_each (multiply_column_as d probbaseV5 row) (seq a n) prob = Ok prob' /\
    length prob' = (D - 17)%nat /\ Forall (Qle 0) prob'.
Proof.
  induction n as [|n IH]; intros a prob Hrow Ha Hn Hlen Hpos; cbn [seq for_each].
  - eauto.
  - pose proof Hrow as (cells & Hcells & Hcl & Hnum).
    destruct (numeric_row_cell _ _ _ _ a Hcells Hcl Hnum) as (w & Hw & Hw0); [lia|].
    destruct (lookup_lt_is_Some_2 prob (a - 17)) as [p Hp]; [lia|].
    assert (0 <= p) by (eapply (Forall_lookup_1 (Qle 0)); eauto).
    rewrite (multiply_column_as_ok d _ _ _ _ _ _ _ Hcells Hw Hp).
    cbn [mbind result_bind].
    apply IH; [assumption | lia | lia | by rewrite length_insert |].
    apply Forall_insert; [assumption|].
    apply cast_nonneg, Qmult_le_0_compat; assumption.
Qed.

Lemma update_row_as_ok d probbaseV5 row D prob :
  numeric_row probbaseV5 row D ->
  length prob = (D - 17)%nat -> Forall (Qle 0) prob ->
  exists prob', update_row_as d probbaseV5 D prob row = Ok prob' /\
    length prob' = (D - 17)%nat /\ Forall (Qle 0) prob' /\
    groups_normalized prob'.
Proof.
  intros Hrow Hlen Hpos. unfold update_row_as.
  destruct (multiply_columns_as_ok d probbaseV5 row D (D - 17) 17 prob)
    as (prob1 & -> & Hlen1 & Hpos1); [assumption | lia | lia | assumption..|].
  cbn [mbind result_bind].
  destruct (normalize_groups_as_ok d prob1 Hpos1) as (Hg & Hp & Hl).
  eexists; split; [reflexivity|].
  split; [congruence|]. split; assumption.
Qed.

(** The group sums after every pass, for a store of either element type:
    with a non-negative prior and a non-negative row 2, the loop of
    [infer_as] reaches the end of each pass, and after pass [n >= 1] each of
    the three groups sums to 0 or to 1. *)
Lemma group_sums_on_either_store (d : dtype)
    (probbaseV5 : table) (Sys_Prior : list Q) (new_input : list nat)
    (input_len n : nat) :
  numeric_row probbaseV5 2 (length Sys_Prior) ->
  Forall (Qle 0) (prob_of Sys_Prior) ->
  (1 <= n <= length (temp new_input input_len))%nat ->
  exists prob,
    for_each (update_as d probbaseV5 (length Sys_Prior))
             (take n (temp new_input input_len)) (prob_of Sys_Prior) = Ok prob /\
    groups_normalized prob.
Proof.
  intros Hrow Hpos Hn.
  assert (Hts : Forall (eq 1%nat) (take n (temp new_input input_len)))
    by apply Forall_take, temp_all_ones.
  assert (Hne : take n (temp new_input input_len) <> []).
  { intros Hnil. apply (f_equal length) in Hnil.
    rewrite length_take in Hnil. cbn in Hnil. lia. }
  assert (Hlen : length (prob_of Sys_Prior) = (length Sys_Prior - 17)%nat)
    by apply length_drop.
  revert Hts Hne Hlen Hpos. generalize (prob_of Sys_Prior) as prob.
  generalize (take n (temp new_input input_len)) as ts. clear Hn.
  induction ts as [|t ts IH]; intros prob Hts Hne Hlen Hpos; [congruence|].
  apply Forall_cons in Hts as [<- Hts]. cbn [for_each].
  change (update_as d probbaseV5 (length Sys_Prior) prob 1)
    with (update_row_as d probbaseV5 (length Sys_Prior) prob 2).
  destruct (update_row_as_ok d probbaseV5 2 _ prob Hrow Hlen Hpos)
    as (prob1 & -> & Hlen1 & Hpos1 & Hg1).
  cbn [mbind result_bind]. destruct ts as [|t' ts'].
  - exists prob1. split; [reflexivity | exact Hg1].
  - apply IH; [assumption | discriminate | assumption..].
Qed.


Lemma cast_zero (d : dtype) (x : Q) : x == 0 -> cast d x == 0.
Proof.
  intros H. destruct d; [|exact H]. apply trunc_unit; lra.
Qed.

(** After a pass on non-negative data, on a store of either element type,
    each of the 70 entries of the three groups lies between 0 and 1. *)
Lemma probabilities_on_either_store (d : dtype) (probbaseV5 : table)
    (row D : nat) (prob : list Q) :
  numeric_row probbaseV5 row D ->
  length prob = (D - 17)%nat -> Forall (Qle 0) prob ->
  exists prob', update_row_as d probbaseV5 D prob row = Ok prob' /\
    forall i x, (i < 70)%nat -> prob' !! i = Some x -> 0 <= x <= 1.
Proof.
  intros Hrow Hlen Hpos.
  destruct (update_row_as_ok d probbaseV5 row D prob Hrow Hlen Hpos)
    as (prob' & E & _ & Hpos' & HA & HB & HC).
  exists prob'. split; [exact E|]. intros i x Hi Hx.
  destruct (decide (i < 3)%nat); [apply (group_entry_bound 0 3 prob' i); auto with lia|].
  destruct (decide (i < 64)%nat); [apply (group_entry_bound 3 64 prob' i); auto with lia|].
  apply (group_entry_bound 64 70 prob' i); auto with lia.
Qed.

Lemma normalize_group_as_zero d lo hi prob k :
  (lo <= hi)%nat -> zero_at k prob -> zero_at k (normalize_group_as d lo hi prob).
Proof.
  intros Hle (x & Hx & H0). unfold normalize_group_as.
  destruct (Qltb 0 _) eqn:E; [|exists x; auto]. apply Qltb_true in E.
  unfold zero_at. rewrite lookup_slice_assign by (auto using length_fmap).
  case_decide; [|exists x; auto].
  rewrite list_lookup_fmap, lookup_slice, decide_True by lia.
  replace (lo + (k - lo))%nat with k by lia. rewrite Hx. cbn.
  eexists. split; [reflexivity|]. apply cast_zero. rewrite H0. field. lra.
Qed.

Lemma multiply_column_as_zero d probbaseV5 row k prob j prob' :
  multiply_column_as d probbaseV5 row prob j = Ok prob' ->
  zero_at k prob -> zero_at k prob'.
Proof.
  intros Hstep (x & Hx & H0). revert Hstep.
  unfold multiply_column_as, at_, getitem, setitem.
  destruct (prob !! (j - 17)%nat) as [p|] eqn:Hp; [|discriminate].
  cbn [mbind result_bind].
  destruct (probbaseV5 !! row) as [cells|]; [|discriminate].
  cbn [mbind result_bind].
  destruct (cells !! j) as [c|]; [|discriminate]. cbn [mbind result_bind].
  destruct (to_numeric c) as [w|]; [|discriminate]. cbn [mbind result_bind].
  case_decide; [|discriminate]. intros [= <-].
  destruct (decide (k = (j - 17)%nat)) as [->|Hne].
  - eexists. rewrite list_lookup_insert_eq by assumption.
    split; [reflexivity|]. apply cast_zero.
    rewrite Hp in Hx. injection Hx as <-. rewrite H0. lra.
  - exists x. rewrite list_lookup_insert_ne by congruence. auto.
Qed.

Lemma update_as_zero d probbaseV5 D k prob ts prob' :
  for_each (update_as d probbaseV5 D) ts prob = Ok prob' ->
  zero_at k prob -> zero_at k prob'.
Proof.
  intros H Hz. revert H. apply for_each_invariant; [|exact Hz].
  clear prob prob' Hz. intros prob t prob' _ Hz.
  unfold update_as, update_row_as.
  destruct (for_each _ _ prob) as [prob1|] eqn:E; [|discriminate].
  cbn [mbind result_bind]. intros [= <-]. unfold normalize_groups_as.
  do 3 (apply normalize_group_as_zero; [lia|]).
  revert E. apply for_each_invariant; [|exact Hz].
  intros p j p' _ Hp Hstep. exact (multiply_column_as_zero _ _ _ _ _ _ _ Hstep Hp).
Qed.

(** An entry of the store that is 0 stays 0 through the passes of a
    record, on a store of either element type. *)
Lemma zero_stays_on_either_store (d : dtype) (probbaseV5 : table)
    (Sys_Prior Sys_Prior' : list Q) (new_input : list nat)
    (input_len k : nat) (x : Q) :
  infer_as d probbaseV5 Sys_Prior new_input input_len = Ok Sys_Prior' ->
  Sys_Prior !! k = Some x -> x == 0 ->
  exists x', Sys_Prior' !! k = Some x' /\ x' == 0.
Proof.
  unfold infer_as. intros H Hx H0.
  destruct (for_each _ _ _) as [prob|] eqn:E; [|discriminate].
  cbn [mbind result_bind] in H. injection H as <-. unfold write_back.
  destruct (decide (k < 17)%nat) as [Hk|Hk].
  - exists x. split; [|exact H0].
    rewrite lookup_app_l by (apply lookup_lt_Some in Hx; rewrite length_take; lia).
    rewrite lookup_take_lt by lia. exact Hx.
  - pose proof (lookup_lt_Some _ _ _ Hx) as Hlen.
    rewrite lookup_app_r by (rewrite length_take; lia).
    rewrite length_take, Nat.min_l by lia.
    apply (update_as_zero _ _ _ (k - 17) _ _ _ E).
    exists x. split; [|exact H0]. unfold prob_of. rewrite lookup_drop.
    rewrite <- Hx. f_equal. lia.
Qed.

End ConvertedStoreFacts.

(** A run on an [int64] prior: row 0 of the table holds "I" in column 20 and
    "N" elsewhere.  The constants of the settings are stored as 0, and the
    one pass made for the record truncates the product 1 * 0.5 to 0: the
    combined vector of the record is 0 throughout. *)
Example integer_prior_is_truncated :
  Samples.wholeprobs
    (Samples.run_sample
       (Samples.config_with Cases.integer_sci false None [Samples.rec_informative]))
    = [replicate 70 0].
Proof. vm_compute. reflexivity. Qed.

(** ** The substitution of the grades, cell by cell *)

Section SubstitutionFacts.
Import Prior Props.

(** A cell that holds no grade goes through the sixteen substitutions
    unchanged. *)
Lemma substitute_cell_other (c : cell) :
  is_grade c = false -> substitute_cell grades c = c.
Proof.
  destruct c as [s|q]; [|reflexivity].
  unfold is_grade, grades. cbn [existsb cell_is fst]. intros H.
  repeat (apply orb_false_iff in H as [? H]).
  unfold substitute_cell, grades.
  repeat (cbn [fold_left cell_is fst snd];
          match goal with
          | E : String.eqb s ?g = false |- context [String.eqb s ?g] => rewrite E
          end).
  reflexivity.
Qed.

Lemma substitute_cell_number (c : cell) :
  is_grade c = true -> exists q, substitute_cell grades c = CNum q /\ 0 <= q.
Proof.
  intros H. apply substitute_cell_grade in H.
  destruct (substitute_cell grades c) as [s|q]; [discriminate|].
  exists q. split; [reflexivity | by apply Qle_bool_iff].
Qed.

Lemma substitute_cell_idem (c : cell) :
  substitute_cell grades (substitute_cell grades c) = substitute_cell grades c.
Proof.
  destruct (is_grade c) eqn:E.
  - destruct (substitute_cell_number c E) as (q & -> & _). reflexivity.
  - rewrite !(substitute_cell_other c E). reflexivity.
Qed.

Lemma substituted_row_lookup (cells : list cell) (j : nat) (c : cell) :
  cells !! j = Some c ->
  (take 17 cells ++ (substitute_cell grades <$> drop 17 cells)) !! j
    = Some (if bool_decide (17 <= j)%nat then substitute_cell grades c else c).
Proof.
  intros Hc. pose proof (lookup_lt_Some _ _ _ Hc) as Hj.
  destruct (decide (17 <= j)%nat) as [H17|H17].
  - rewrite bool_decide_eq_true_2 by exact H17.
    rewrite lookup_app_r by (rewrite length_take; lia).
    rewrite length_take, Nat.min_l by lia.
    rewrite list_lookup_fmap, lookup_drop.
    replace (17 + (j - 17))%nat with j by lia. rewrite Hc. reflexivity.
  - rewrite bool_decide_eq_false_2 by exact H17.
    rewrite lookup_app_l by (rewrite length_take; lia).
    rewrite lookup_take_lt by lia. exact Hc.
Qed.

(** X17.  The sixteen substitutions of lines 207-222 keep the shape of the
    table and change a cell only if it lies in a cause column (17 on) and
    holds one of the grades or nothing: that cell becomes a non-negative
    number.  Every other cell, an unknown symbol included, stays as it
    is, and substituting a second time changes nothing. *)
Theorem grade_substitution_settles (t : table) :
  substitute_grades (substitute_grades t) = substitute_grades t /\
  nrows (substitute_grades t) = nrows t /\
  forall r cells, t !! r = Some cells ->
    exists cells', substitute_grades t !! r = Some cells' /\
      length cells' = length cells /\
      forall j c, cells !! j = Some c ->
        if bool_decide (17 <= j)%nat && is_grade c
        then exists q, cells' !! j = Some (CNum q) /\ 0 <= q
        else cells' !! j = Some c.
Proof.
  unfold substitute_grades. rewrite !substitute_grades_rows. split; [|split].
  - rewrite <- list_fmap_compose. apply list_fmap_ext. intros _ row _. cbn.
    destruct (take_drop_17_app row (substitute_cell grades <$> drop 17 row))
      as [-> ->]; [apply length_fmap|].
    rewrite <- list_fmap_compose. f_equal. apply list_fmap_ext.
    intros _ c _. apply substitute_cell_idem.
  - unfold nrows. apply length_fmap.
  - intros r cells Hr. rewrite list_lookup_fmap, Hr. eexists.
    split; [reflexivity|]. split.
    { rewrite length_app, length_fmap, length_take, length_drop. lia. }
    intros j c Hc. rewrite (substituted_row_lookup cells j c Hc).
    destruct (bool_decide (17 <= j)%nat); cbn [andb]; [|reflexivity].
    destruct (is_grade c) eqn:E.
    + destruct (substitute_cell_number c E) as (q & -> & Hq). eauto.
    + by rewrite substitute_cell_other.
Qed.

Lemma to_numeric_row_text (cells : list cell) : forall j s,
  cells !! j = Some (CStr s) ->
  to_numeric_row cells = Raise (ValueError "Unable to parse string").
Proof.
  unfold to_numeric_row.
  induction cells as [|c cells IH]; intros j s Hj; [discriminate|].
  cbn [mapM]. destruct c as [s'|q]; [reflexivity|]. cbn [to_numeric mbind result_bind].
  destruct j as [|j]; [discriminate|]. rewrite (IH j s Hj). reflexivity.
Qed.

(** X18.  A text in a cause column of row 0 that is no grade and that
    [to_numeric] cannot parse (it starts with a letter other than "i", "I",
    "n", "N", as no numeral, infinity or NaN does) is not refused when the
    table is prepared; it stops the construction of the prior with a
    [ValueError], whatever the two settings are, valid or not. *)
Theorem unknown_symbol_stops_the_prior (t : table) (row0 : list cell)
    (j : nat) (s hiv malaria : string) :
  t !! 0%nat = Some row0 -> row0 !! j = Some (CStr s) -> (17 <= j)%nat ->
  plain_text s = true -> is_grade (CStr s) = false ->
  exists t', zero_metadata (substitute_grades t) = Ok t' /\
    build t' hiv malaria = Raise (ValueError "Unable to parse string").
Proof.
  intros H0 Hj H17 _ Hs.
  assert (Hrow : substitute_grades t !! 0%nat
                 = Some (take 17 row0 ++ (substitute_cell grades <$> drop 17 row0))).
  { unfold substitute_grades. rewrite substitute_grades_rows.
    by rewrite list_lookup_fmap, H0. }
  destruct (substitute_grades t) as [|r0 rest] eqn:Et; [discriminate|].
  injection Hrow as ->. eexists. split; [reflexivity|].
  unfold build, getitem. cbn [lookup list_lookup mbind result_bind].
  rewrite (to_numeric_row_text _ j s); [reflexivity|].
  pose proof (lookup_lt_Some _ _ _ Hj) as Hlen.
  destruct (take_drop_17_app row0 (substitute_cell grades <$> drop 17 row0))
    as [-> ->]; [apply length_fmap|].
  rewrite lookup_app_r by (rewrite length_fmap, length_take; lia).
  rewrite length_fmap, length_take, Nat.min_l by lia.
  rewrite list_lookup_fmap, lookup_drop.
  replace (17 + (j - 17))%nat with j by lia. rewrite Hj.
  cbn [fmap option_fmap option_map]. by rewrite substitute_cell_other.
Qed.

Lemma unknown_symbol_stops_the_prior_witness :
  exists t',
    zero_metadata (substitute_grades [Cases.unknown_row]) = Ok t' /\
    build t' "h" "h" = Raise (ValueError "Unable to parse string").
Proof.
  apply (unknown_symbol_stops_the_prior [Cases.unknown_row] Cases.unknown_row
           20 "Z" "h" "h");
    [reflexivity | reflexivity | lia | reflexivity | reflexivity].
Defined.

End SubstitutionFacts.

(** ** The warnings about column names *)

Section LabelFacts.
Import Run Props.

Variable valabels : list string.

Lemma mapM_fmap_Ok {A B} (f : A -> result B) (g : A -> B) (l : list A) :
  (forall x, x ∈ l -> f x = Ok (g x)) -> mapM f l = Ok (g <$> l).
Proof.
  induction l as [|a l IH]; intros H; [reflexivity|].
  cbn [mapM]. rewrite (H a) by apply list_elem_of_here.
  cbn [mbind result_bind]. rewrite IH; [reflexivity|].
  intros x Hx. apply H. by apply list_elem_of_further.
Qed.

(** A list built with steps that can only fail in one way fails in that
    way as soon as one step fails. *)
Lemma mapM_raises {A B} (f : A -> result B) (e : exn) (l : list A) :
  (forall x, x ∈ l -> f x = Raise e \/ exists y, f x = Ok y) ->
  (exists x, x ∈ l /\ f x = Raise e) -> mapM f l = Raise e.
Proof.
  induction l as [|a l IH]; intros Hall (x & Hx & Hfx).
  - by apply not_elem_of_nil in Hx.
  - cbn [mapM]. destruct (Hall a) as [-> | [y Hy]]; [apply list_elem_of_here| reflexivity |].
    rewrite Hy. cbn [mbind result_bind]. rewrite IH; [reflexivity| |].
    + intros z Hz. apply Hall. by apply list_elem_of_further.
    + apply elem_of_cons in Hx as [-> | Hx]; [congruence|]. eauto.
Qed.

(** X19.  The comparison of the [S] column names with the standard ones,
    for names in ASCII.  When both lists have [S] names, it ends without
    exception and gives one warning for each position at which the two
    names differ up to case, followed by one summary warning if there is
    such a position; when one of the lists has fewer than [S] names it
    raises [IndexError].  Hence it ends without any warning exactly when
    each of the [S] input names and the standard name at the same position
    exist and are equal up to case. *)
Theorem label_warnings_by_mismatch (S : nat) (va_input_names : list string) :
  forallb ascii_text va_input_names = true ->
  forallb ascii_text valabels = true ->
  ((S <= length va_input_names)%nat -> (S <= length valabels)%nat ->
   label_warnings valabels S va_input_names =
     Ok (replicate (mismatches valabels va_input_names S)
           "Input column '{input_col}' does not match InterVA5 standard: '{std_col}'"%string
         ++ (if (0 <? mismatches valabels va_input_names S)%nat
             then ["{count_changelabel} column names changed in input."%string]
             else []))) /\
  ((length va_input_names < S)%nat \/ (length valabels < S)%nat ->
   label_warnings valabels S va_input_names = Raise IndexError) /\
  (label_warnings valabels S va_input_names = Ok [] <->
   forall i, (i < S)%nat ->
     exists input_col std_col,
       va_input_names !! i = Some input_col /\ valabels !! i = Some std_col /\
       lower input_col = lower std_col).
Proof.
  intros _ _.
  set (f := fun i : nat =>
              input_col ← getitem va_input_names i;
              std_col ← getitem valabels i;
              Ok (negb (String.eqb (lower input_col) (lower std_col)))).
  assert (Hf : forall i, f i = Raise IndexError \/ exists y, f i = Ok y).
  { intros i. unfold f, getitem.
    destruct (va_input_names !! i); cbn [mbind result_bind]; [|auto].
    destruct (valabels !! i); cbn [mbind result_bind]; eauto. }
  assert (Hok : (S <= length va_input_names)%nat -> (S <= length valabels)%nat ->
                mapM f (seq 0 S) = Ok (mismatch valabels va_input_names <$> seq 0 S)).
  { intros H1 H2. apply mapM_fmap_Ok. intros i [_ Hi]%elem_of_seq.
    unfold f, getitem, mismatch.
    destruct (lookup_lt_is_Some_2 va_input_names i) as [a ->]; [lia|].
    destruct (lookup_lt_is_Some_2 valabels i) as [b ->]; [lia|]. reflexivity. }
  assert (Hbad : (length va_input_names < S)%nat \/ (length valabels < S)%nat ->
                 mapM f (seq 0 S) = Raise IndexError).
  { intros Hshort. apply mapM_raises; [auto|].
    destruct Hshort as [H|H].
    - exists (length va_input_names). split; [apply elem_of_seq; lia|].
      unfold f, getitem.
      rewrite (lookup_ge_None_2 va_input_names) by lia. reflexivity.
    - destruct (decide (length valabels < length va_input_names)%nat).
      + exists (length valabels). split; [apply elem_of_seq; lia|].
        unfold f, getitem.
        destruct (lookup_lt_is_Some_2 va_input_names (length valabels)) as [a ->];
          [lia|].
        cbn [mbind result_bind].
        rewrite (lookup_ge_None_2 valabels) by lia. reflexivity.
      + exists (length va_input_names). split; [apply elem_of_seq; lia|].
        unfold f, getitem.
        rewrite (lookup_ge_None_2 va_input_names) by lia. reflexivity. }
  assert (Hmatch : forall i, (i < S)%nat ->
            (S <= length va_input_names)%nat -> (S <= length valabels)%nat ->
            (mismatch valabels va_input_names i = false <->
             exists input_col std_col,
               va_input_names !! i = Some input_col /\
               valabels !! i = Some std_col /\
               lower input_col = lower std_col)).
  { intros i Hi H1 H2. unfold mismatch.
    destruct (lookup_lt_is_Some_2 va_input_names i) as [a ->]; [lia|].
    destruct (lookup_lt_is_Some_2 valabels i) as [b ->]; [lia|].
    destruct (String.eqb (lower a) (lower b)) eqn:E; cbn [negb].
    - apply String.eqb_eq in E. split; [eauto|reflexivity].
    - apply String.eqb_neq in E. split; [discriminate|].
      intros (a' & b' & [= <-] & [= <-] & Heq). contradiction. }
  split; [|split].
  - intros H1 H2. unfold label_warnings. fold f. rewrite (Hok H1 H2). reflexivity.
  - intros Hshort. unfold label_warnings. fold f. rewrite (Hbad Hshort).
    reflexivity.
  - destruct (decide (S <= length va_input_names /\ S <= length valabels)%nat)
      as [[H1 H2]|Hshort].
    + unfold label_warnings. fold f. rewrite (Hok H1 H2).
      cbn [mbind result_bind]. fold (mismatches valabels va_input_names S).
      split.
      * intros [= H] i Hi. apply (Hmatch i Hi H1 H2).
        destruct (mismatches valabels va_input_names S) as [|k] eqn:Ek;
          [|discriminate H].
        unfold mismatches in Ek. apply length_zero_iff_nil, filter_nil_none in Ek.
        rewrite Forall_fmap, Forall_forall in Ek.
        specialize (Ek i). cbn in Ek.
        destruct (mismatch valabels va_input_names i); [|reflexivity].
        exfalso. apply Ek; [apply elem_of_seq; lia | reflexivity].
      * intros H. assert (mismatches valabels va_input_names S = 0%nat) as ->;
          [|reflexivity].
        unfold mismatches. apply length_zero_iff_nil, filter_none.
        rewrite Forall_fmap, Forall_forall. intros i [_ Hi]%elem_of_seq. cbn.
        rewrite (proj2 (Hmatch i ltac:(lia) H1 H2)); [discriminate|].
        apply H. lia.
    + assert (Hs : (length va_input_names < S)%nat \/ (length valabels < S)%nat)
        by lia.
      unfold label_warnings. fold f. rewrite (Hbad Hs). cbn [mbind result_bind].
      split; [discriminate|]. intros H. exfalso.
      destruct Hs as [Hs|Hs].
      * destruct (H (length va_input_names) Hs) as (a & _ & Ha & _).
        rewrite (lookup_ge_None_2 va_input_names) in Ha by lia. discriminate.
      * destruct (H (length valabels) Hs) as (_ & b & _ & Hb & _).
        rewrite (lookup_ge_None_2 valabels) in Hb by lia. discriminate.
Qed.

End LabelFacts.

Section LabelCases.
Import Run.

Lemma label_warnings_by_mismatch_witness :
  label_warnings Samples.names 354 Samples.names = Ok [] /\
  label_warnings Samples.names 355 Samples.names = Raise IndexError.
Proof.
  destruct (label_warnings_by_mismatch Samples.names 354 Samples.names)
    as (H1 & _ & _); [vm_compute; reflexivity..|].
  destruct (label_warnings_by_mismatch Samples.names 355 Samples.names)
    as (_ & H2 & _); [vm_compute; reflexivity..|].
  split.
  - rewrite H1 by (vm_compute; lia). vm_compute. reflexivity.
  - apply H2. left. vm_compute. lia.
Defined.

End LabelCases.
